(** * sic-data-software: browser-side controllers, embedded in Rocq

    The repository is a set of DOM controllers (ui.js, datasets.js,
    extraction.js, letters.js, search.js, comparison.js).  This development
    embeds the controllers as state transformers over an explicit browser
    state: the elements reachable through [document.getElementById], the
    table-cell nodes created by the company table, the pending [setTimeout]
    timers, the log of issued [fetch] requests and the [window] globals.

    Conventions of the embedding:
    - An [async] function is a computation in the monad [M]; every awaited
      [fetch] takes the outcome of that request as an argument, and the
      request is appended to the log at the point of the call.  A function is
      run from its call to its end in one piece: interleavings of other
      events during an [await] are not modelled.
    - JavaScript numbers are IEEE-754 binary64, taken from [SpecFloat];
      counters and ids that reach the scripts as JSON are integers.
    - Strings are byte strings holding UTF-8 text.  [trim] removes the white
      space of ECMAScript in that encoding; [length] is the length in bytes,
      which is the length the scripts see on ASCII text.
    - Markup interpolated into a template is kept as a [Src] leaf and is not
      parsed again; inline [style] attributes of the templates are presentational
      and are left out of the trees.
    - The extraction form and the detail view of a dataset also use [alert],
      navigation and globals of their own: these live in a second record,
      [Window], over the browser state, with computations in [W]. *)

From Stdlib Require Import ZArith String Ascii List Bool Lia.
From Stdlib Require Import Floats.SpecFloat.
From Stdlib Require Import DecimalString DecimalZ DecimalPos.
From stdpp Require Import base option list gmap strings.

Local Open Scope string_scope.
Local Open Scope list_scope.
Local Open Scope Z_scope.

(** ** JavaScript built-ins used by the controllers *)

Module Js.

(** [String.prototype.trim] removes the white space and the line
    terminators of ECMAScript.  In the ASCII range these are the bytes 9 to
    13 and 32. *)
Definition is_space (c : ascii) : bool :=
  match nat_of_ascii c with
  | 9%nat | 10%nat | 11%nat | 12%nat | 13%nat | 32%nat => true
  | _ => false
  end.

(** The others, in the UTF-8 the strings hold: U+00A0 is C2 A0; U+1680 is
    E1 9A 80; U+2000 to U+200A, U+2028, U+2029 and U+202F are E2 80 followed
    by 80 to 8A, A8, A9 and AF; U+205F is E2 81 9F; U+3000 is E3 80 80;
    U+FEFF is EF BB BF. *)
Definition two_byte_space (c d : ascii) : bool :=
  (nat_of_ascii c =? 194)%nat && (nat_of_ascii d =? 160)%nat.

Definition three_byte_space (c d e : ascii) : bool :=
  let c := nat_of_ascii c in
  let d := nat_of_ascii d in
  let e := nat_of_ascii e in
  ((c =? 225) && (d =? 154) && (e =? 128)
   || (c =? 226) && (d =? 128)
      && ((128 <=? e) && (e <=? 138) || (e =? 168) || (e =? 169) || (e =? 175))
   || (c =? 226) && (d =? 129) && (e =? 159)
   || (c =? 227) && (d =? 128) && (e =? 128)
   || (c =? 239) && (d =? 187) && (e =? 191))%nat.

Fixpoint trimStart (s : string) : string :=
  match s with
  | EmptyString => EmptyString
  | String c r =>
      if is_space c then trimStart r
      else
        match r with
        | EmptyString => s
        | String d r2 =>
            if two_byte_space c d then trimStart r2
            else
              match r2 with
              | EmptyString => s
              | String e r3 => if three_byte_space c d e then trimStart r3 else s
              end
        end
  end.

(** [trimEnd] cuts the text at the first place from which only white space
    follows. *)
Fixpoint trimEnd (s : string) : string :=
  match s with
  | EmptyString => EmptyString
  | String c r =>
      match trimStart s with
      | EmptyString => EmptyString
      | _ => String c (trimEnd r)
      end
  end.

Definition trim (s : string) : string := trimEnd (trimStart s).

(** The double quote, and a text between double quotes. *)
Definition dquote : ascii := ascii_of_nat 34.

Definition quoted (s : string) : string :=
  String dquote s +:+ String dquote EmptyString.

(** Truthiness of a string-valued property that may be [undefined]. *)
Definition truthy (o : option string) : bool :=
  match o with
  | Some s => negb (String.eqb s "")
  | None => false
  end.

(** [o || d] on such a property. *)
Definition or_else (o : option string) (d : string) : string :=
  match o with
  | Some s => if String.eqb s "" then d else s
  | None => d
  end.

(** [n || d] on a numeric property: [undefined] and [0] are falsy. *)
Definition num_or (o : option Z) (d : Z) : Z :=
  match o with
  | Some n => if n =? 0 then d else n
  | None => d
  end.

(** String conversion in a template or a [+]: an integer prints in
    decimal, [undefined] prints as the word. *)
Definition Number_toString (n : Z) : string :=
  NilZero.string_of_int (Z.to_int n).

Definition String_of (o : option string) : string :=
  match o with
  | Some s => s
  | None => "undefined"
  end.

(** An integer literal read back by the script engine. *)
Definition read_literal (s : string) : option Z :=
  option_map Z.of_int (NilZero.int_of_string s).

(** [Array.prototype.join]. *)
Definition join (sep : string) (l : list string) : string :=
  String.concat sep l.

(** [[...new Set(l)]]: the first occurrence of every value, in order. *)
Fixpoint uniq_from (seen l : list string) : list string :=
  match l with
  | [] => []
  | x :: r =>
      if bool_decide (x ∈ seen) then uniq_from seen r
      else x :: uniq_from (x :: seen) r
  end.

Definition Set_values (l : list string) : list string := uniq_from [] l.

(** *** Numbers: binary64 *)

Definition prec : Z := 53.
Definition emax : Z := 1024.

(** The double nearest to an integer. *)
Definition of_Z (z : Z) : spec_float := binary_normalize prec emax z 0 false.

Definition div (x y : spec_float) : spec_float := SFdiv prec emax x y.
Definition mul (x y : spec_float) : spec_float := SFmul prec emax x y.

(** [Math.round]: the nearest integer, halves towards plus infinity; [None]
    stands for the non-finite results (NaN, +-Infinity). *)
Definition Math_round (x : spec_float) : option Z :=
  match x with
  | S754_zero _ => Some 0
  | S754_finite s m e =>
      let n := if s then Z.neg m else Z.pos m in
      Some (if 0 <=? e then n * 2 ^ e
            else (2 * n + 2 ^ (- e)) / 2 ^ (1 - e))
  | S754_infinity _ | S754_nan => None
  end.

(** [parseInt(s)] without a radix: leading white space, a sign, then the
    longest run of digits (hexadecimal after [0x]); [None] is NaN.  The
    value is the integer the digits denote: it is the number the script
    holds when it is a safe integer, below 2^53 in magnitude. *)
Definition digit_value (radix : Z) (c : ascii) : option Z :=
  let n := Z.of_nat (nat_of_ascii c) in
  let v := if (48 <=? n) && (n <=? 57) then Some (n - 48)
           else if (97 <=? n) && (n <=? 102) then Some (n - 87)
           else if (65 <=? n) && (n <=? 70) then Some (n - 55)
           else None in
  match v with
  | Some d => if d <? radix then Some d else None
  | None => None
  end.

Fixpoint digits_prefix (radix : Z) (acc : option Z) (s : string) : option Z :=
  match s with
  | EmptyString => acc
  | String c r =>
      match digit_value radix c with
      | Some d => digits_prefix radix (Some (num_or acc 0 * radix + d)) r
      | None => acc
      end
  end.

Definition parse_magnitude (s : string) : option Z :=
  match s with
  | String "0" (String "x" r) | String "0" (String "X" r) =>
      digits_prefix 16 None r
  | _ => digits_prefix 10 None s
  end.

Definition parseInt (s : string) : option Z :=
  match trimStart s with
  | String "-" r => option_map Z.opp (parse_magnitude r)
  | String "+" r => parse_magnitude r
  | r => parse_magnitude r
  end.

End Js.

(** ** The page *)

(** Markup as the templates build it.  [Src] is a piece of text interpolated
    into a template; [Cell] is a table cell, a node of its own in [nodes]
    because the editing code keeps a reference to it. *)
#[warnings="-register-all"]
Inductive html :=
| Src (s : string)
| Cell (node : nat)
| Node (tag : string) (attrs : list (string * string)) (kids : list html).

Record file := { file_name : string; file_size : Z }.

Record select_option := { opt_value : string; opt_selected : bool }.

(** The [value] property: a string on inputs and selects, a number on the
    progress bar. *)
Inductive prop_value :=
| VStr (s : string)
| VNum (n : Z).

(** An element found by id, with the properties the scripts read or write. *)
Record element := {
  className : string;
  innerHTML : list html;
  display : string;
  value : prop_value;
  files : list file;
  options : list select_option
}.

(** A [td] of the company table. *)
Record cell := {
  companyId : string;
  field : string;
  editable : bool;
  innerText : string;
  originalValue : option string;
  background : string;
  classList : list string;
  blur_listeners : list string
}.

Record request := {
  method : string;
  url : string;
  payload : list (string * string)
}.

(** The closures handed to [setTimeout]. *)
Inductive callback :=
| PollEnrichment (jobId : string)
| ExecuteSearch (query : string)
| ClearSaved (node : nat)
| ClearError (node : nat)
| HideLetterStatus.

Record timer := { timer_id : nat; due : Z; action : callback }.

(** A response of [fetch]: [body] is [None] when the text is not JSON and
    [res.json()] rejects. *)
Record response (A : Type) := {
  ok : bool;
  http_status : Z;
  statusText : string;
  headers : list (string * string);
  body : option A
}.
Arguments ok {A} _.
Arguments http_status {A} _.
Arguments statusText {A} _.
Arguments headers {A} _.
Arguments body {A} _.

Inductive fetch_outcome (A : Type) :=
| Rejected (message : string)
| Resolved (res : response A).
Arguments Rejected {A} _.
Arguments Resolved {A} _.

(** *** Server data, as the scripts read it; an absent property is [None] *)

Record coverage_data := {
  cov_phone : option string;
  cov_website : option string;
  cov_psc : option string;
  cov_officers : option string
}.

Record enrichment_stats_data := {
  total_processed : option Z;
  coverage : option coverage_data
}.

Record result_data := {
  output_file : option string;
  enrichment_stats : option enrichment_stats_data
}.

Record status_data := {
  status : option string;
  processed : option Z;
  total : option Z;
  error : option string;
  result : option result_data
}.

Record save_data := { save_success : bool }.

Record company := {
  company_id : Z;
  company_fields : gmap string string
}.

Record dataset_summary := {
  ds_id : Z;
  ds_name : string;
  ds_total_companies : Z;
  ds_sic_codes : option string;
  ds_description : option string;
  ds_created_at : string
}.

Record datasets_data := {
  dl_success : bool;
  dl_detail : option string;
  dl_datasets : option (list dataset_summary)
}.

Record search_company := {
  sc_company_number : string;
  sc_business_name : string;
  sc_county : option string;
  sc_town : option string;
  sc_postcode : option string;
  sc_title : option string;
  sc_fname : option string;
  sc_sname : option string;
  sc_position : option string;
  sc_selected_person_source : option string;
  sc_selected_psc_share_tier : option string
}.

Record search_dataset := {
  sd_dataset_id : option Z;
  sd_id : option Z;
  sd_dataset_name : option string;
  sd_companies : option (list search_company)
}.

Record letters_error := { le_error : option string }.

Record search_data := {
  sr_success : bool;
  sr_detail : option string;
  sr_total_matching : option Z;
  sr_datasets : option (list search_dataset)
}.

(** *** The browser state *)

(** What the page and the browser fix once and the scripts only read:
    [window.API_BASE], the locale formatting of numbers and dates, and
    [text.replace(new RegExp(`(${query})`, 'gi'), ...)] of the search
    highlighter ([None] when the constructor rejects the pattern). *)
Record Env := {
  API_BASE : string;
  toLocaleString : Z -> string;
  toLocaleDateString : string -> string;
  regexp_mark : string -> string -> option string
}.

Record World := {
  env : Env;
  document : gmap string element;
  radios : gmap string string;
  nodes : list cell;
  timers : list timer;
  next_timer : nat;
  now : Z;
  requests : list request;
  downloads : list string;
  currentDatasetFile : option string;
  enrichmentJobId : option string;
  searchTimeout : option nat;
  lastSearchResults : option search_data
}.

Definition with_document (f : gmap string element -> gmap string element) (w : World) : World :=
  {| env := env w; document := f (document w); radios := radios w;
     nodes := nodes w; timers := timers w; next_timer := next_timer w;
     now := now w; requests := requests w; downloads := downloads w;
     currentDatasetFile := currentDatasetFile w;
     enrichmentJobId := enrichmentJobId w; searchTimeout := searchTimeout w;
     lastSearchResults := lastSearchResults w |}.

Definition with_nodes (f : list cell -> list cell) (w : World) : World :=
  {| env := env w; document := document w; radios := radios w;
     nodes := f (nodes w); timers := timers w; next_timer := next_timer w;
     now := now w; requests := requests w; downloads := downloads w;
     currentDatasetFile := currentDatasetFile w;
     enrichmentJobId := enrichmentJobId w; searchTimeout := searchTimeout w;
     lastSearchResults := lastSearchResults w |}.

Definition with_timers (f : list timer -> list timer) (w : World) : World :=
  {| env := env w; document := document w; radios := radios w;
     nodes := nodes w; timers := f (timers w); next_timer := next_timer w;
     now := now w; requests := requests w; downloads := downloads w;
     currentDatasetFile := currentDatasetFile w;
     enrichmentJobId := enrichmentJobId w; searchTimeout := searchTimeout w;
     lastSearchResults := lastSearchResults w |}.

Definition with_requests (f : list request -> list request) (w : World) : World :=
  {| env := env w; document := document w; radios := radios w;
     nodes := nodes w; timers := timers w; next_timer := next_timer w;
     now := now w; requests := f (requests w); downloads := downloads w;
     currentDatasetFile := currentDatasetFile w;
     enrichmentJobId := enrichmentJobId w; searchTimeout := searchTimeout w;
     lastSearchResults := lastSearchResults w |}.

Definition with_downloads (f : list string -> list string) (w : World) : World :=
  {| env := env w; document := document w; radios := radios w;
     nodes := nodes w; timers := timers w; next_timer := next_timer w;
     now := now w; requests := requests w; downloads := f (downloads w);
     currentDatasetFile := currentDatasetFile w;
     enrichmentJobId := enrichmentJobId w; searchTimeout := searchTimeout w;
     lastSearchResults := lastSearchResults w |}.

Definition with_next_timer (v : nat) (w : World) : World :=
  {| env := env w; document := document w; radios := radios w;
     nodes := nodes w; timers := timers w; next_timer := v; now := now w;
     requests := requests w; downloads := downloads w;
     currentDatasetFile := currentDatasetFile w;
     enrichmentJobId := enrichmentJobId w; searchTimeout := searchTimeout w;
     lastSearchResults := lastSearchResults w |}.

Definition with_now (v : Z) (w : World) : World :=
  {| env := env w; document := document w; radios := radios w;
     nodes := nodes w; timers := timers w; next_timer := next_timer w;
     now := v; requests := requests w; downloads := downloads w;
     currentDatasetFile := currentDatasetFile w;
     enrichmentJobId := enrichmentJobId w; searchTimeout := searchTimeout w;
     lastSearchResults := lastSearchResults w |}.

Definition with_currentDatasetFile (v : option string) (w : World) : World :=
  {| env := env w; document := document w; radios := radios w;
     nodes := nodes w; timers := timers w; next_timer := next_timer w;
     now := now w; requests := requests w; downloads := downloads w;
     currentDatasetFile := v; enrichmentJobId := enrichmentJobId w;
     searchTimeout := searchTimeout w;
     lastSearchResults := lastSearchResults w |}.

Definition with_enrichmentJobId (v : option string) (w : World) : World :=
  {| env := env w; document := document w; radios := radios w;
     nodes := nodes w; timers := timers w; next_timer := next_timer w;
     now := now w; requests := requests w; downloads := downloads w;
     currentDatasetFile := currentDatasetFile w; enrichmentJobId := v;
     searchTimeout := searchTimeout w;
     lastSearchResults := lastSearchResults w |}.

Definition with_searchTimeout (v : option nat) (w : World) : World :=
  {| env := env w; document := document w; radios := radios w;
     nodes := nodes w; timers := timers w; next_timer := next_timer w;
     now := now w; requests := requests w; downloads := downloads w;
     currentDatasetFile := currentDatasetFile w;
     enrichmentJobId := enrichmentJobId w; searchTimeout := v;
     lastSearchResults := lastSearchResults w |}.

Definition with_lastSearchResults (v : option search_data) (w : World) : World :=
  {| env := env w; document := document w; radios := radios w;
     nodes := nodes w; timers := timers w; next_timer := next_timer w;
     now := now w; requests := requests w; downloads := downloads w;
     currentDatasetFile := currentDatasetFile w;
     enrichmentJobId := enrichmentJobId w; searchTimeout := searchTimeout w;
     lastSearchResults := v |}.

(** ** Computations: state and exceptions *)

Inductive outcome (A : Type) :=
| Ok (a : A)
| Throw (message : string).
Arguments Ok {A} _.
Arguments Throw {A} _.

Definition M (A : Type) : Type := World -> outcome A * World.

Definition ret {A} (a : A) : M A := fun w => (Ok a, w).

Definition bind {A B} (m : M A) (k : A -> M B) : M B :=
  fun w =>
    match m w with
    | (Ok a, w') => k a w'
    | (Throw e, w') => (Throw e, w')
    end.

Definition throw {A} (e : string) : M A := fun w => (Throw e, w).

(** [try { m } catch (err) { h(err.message) }] *)
Definition try_catch {A} (m : M A) (h : string -> M A) : M A :=
  fun w =>
    match m w with
    | (Ok a, w') => (Ok a, w')
    | (Throw e, w') => h e w'
    end.

Definition get : M World := fun w => (Ok w, w).
Definition modify (f : World -> World) : M unit := fun w => (Ok tt, f w).

Notation "'let*' x ':=' m 'in' k" := (bind m (fun x => k))
  (at level 10, x name, m at level 100, k at level 200).
Notation "m ';;' k" := (bind m (fun _ => k))
  (at level 100, k at level 200, right associativity).

(** The world a call leaves behind, whether it returned or threw. *)
Definition run {A} (m : M A) (w : World) : World := snd (m w).

Definition threw {A} (m : M A) (w : World) : bool :=
  match fst (m w) with
  | Ok _ => false
  | Throw _ => true
  end.

(** Reading a property of [null] or [undefined]. *)
Definition TypeError : string := "TypeError".

Definition deref {A} (o : option A) : M A :=
  match o with
  | Some a => ret a
  | None => throw TypeError
  end.

(** *** DOM access *)

Definition getElementById (id : string) : M (option element) :=
  fun w => (Ok (document w !! id), w).

(** [document.getElementById(id).p = v]: throws when the element is missing. *)
Definition update_element (id : string) (f : element -> element) : M unit :=
  let* el := getElementById id in
  let* e := deref el in
  modify (with_document (insert id (f e))).

Definition set_className (v : string) (e : element) : element :=
  {| className := v; innerHTML := innerHTML e; display := display e;
     value := value e; files := files e; options := options e |}.

Definition set_innerHTML (v : list html) (e : element) : element :=
  {| className := className e; innerHTML := v; display := display e;
     value := value e; files := files e; options := options e |}.

Definition set_display (v : string) (e : element) : element :=
  {| className := className e; innerHTML := innerHTML e; display := v;
     value := value e; files := files e; options := options e |}.

Definition set_value (v : prop_value) (e : element) : element :=
  {| className := className e; innerHTML := innerHTML e; display := display e;
     value := v; files := files e; options := options e |}.

Definition set_options (v : list select_option) (e : element) : element :=
  {| className := className e; innerHTML := innerHTML e; display := display e;
     value := value e; files := files e; options := v |}.

(** The string an input holds. *)
Definition value_string (e : element) : string :=
  match value e with
  | VStr s => s
  | VNum n => Js.Number_toString n
  end.

(** *** Timers *)

Definition setTimeout (cb : callback) (delay : Z) : M nat :=
  fun w =>
    let id := next_timer w in
    (Ok id,
     with_next_timer (S id)
       (with_timers (fun l => l ++ [{| timer_id := id; due := now w + delay; action := cb |}]) w)).

Definition clearTimeout (id : option nat) : M unit :=
  modify (with_timers (filter (fun t => Some (timer_id t) <> id))).

(** *** Network *)

Definition GET (u : string) : request := {| method := "GET"; url := u; payload := [] |}.

Definition fetch {A} (req : request) (net : fetch_outcome A) : M (response A) :=
  modify (with_requests (fun l => l ++ [req])) ;;
  match net with
  | Rejected e => throw e
  | Resolved res => ret res
  end.

Definition SyntaxError : string := "SyntaxError".

Definition json {A} (res : response A) : M A :=
  match body res with
  | Some d => ret d
  | None => throw SyntaxError
  end.

(** ** ui.js *)

(** [window.ENGLAND_REGIONS] *)
Definition ENGLAND_REGIONS : gmap string (list string) :=
  list_to_map
    [ ("North West", ["Cheshire"; "Cumbria"; "Greater Manchester"; "Lancashire"; "Merseyside"]);
      ("North East", ["County Durham"; "Northumberland"; "Tyne and Wear"]);
      ("West Midlands", ["Herefordshire"; "Shropshire"; "Staffordshire"; "Warwickshire"; "West Midlands"; "Worcestershire"]);
      ("East Midlands", ["Derbyshire"; "Leicestershire"; "Lincolnshire"; "Northamptonshire"; "Nottinghamshire"; "Rutland"]);
      ("East", ["Bedfordshire"; "Cambridgeshire"; "Essex"; "Hertfordshire"; "Norfolk"; "Suffolk"]);
      ("South West", ["Bristol"; "Cornwall"; "Devon"; "Dorset"; "Gloucestershire"; "Somerset"; "Wiltshire"]);
      ("South East", ["Berkshire"; "Buckinghamshire"; "East Sussex"; "Hampshire"; "Isle of Wight"; "Kent"; "Oxfordshire"; "Surrey"; "West Sussex"]);
      ("London", ["Greater London"]) ].

(** [Array.from(select.selectedOptions).map(option => option.value)] *)
Definition selectedRegions_of (e : element) : list string :=
  map opt_value (filter (fun o => opt_selected o = true) (options e)).

(** The [forEach] that pushes the counties of every known region. *)
Definition allCounties_of (selectedRegions : list string) : list string :=
  flat_map (fun region =>
              match ENGLAND_REGIONS !! region with
              | Some counties => counties
              | None => []
              end) selectedRegions.

Definition onRegionChange : M unit :=
  let* regionSelect := getElementById "regionFilter" in
  let* sel := deref regionSelect in
  let selectedRegions := selectedRegions_of sel in
  if (0 <? length selectedRegions)%nat then
    let uniqueCounties := Js.Set_values (allCounties_of selectedRegions) in
    update_element "counties" (set_value (VStr (Js.join ", " uniqueCounties)))
  else
    update_element "counties" (set_value (VStr "")).

Definition deselect (o : select_option) : select_option :=
  {| opt_value := opt_value o; opt_selected := false |}.

Definition clearRegionFilter : M unit :=
  update_element "regionFilter" (fun e => set_options (map deselect (options e)) e) ;;
  update_element "counties" (set_value (VStr "")).

Definition showStatus (id message type : string) : M unit :=
  let* el := getElementById id in
  match el with
  | None => ret tt
  | Some e =>
      if String.eqb message "" then
        modify (with_document (insert id
          (set_display "none" (set_innerHTML [] (set_className "status-box" e)))))
      else
        modify (with_document (insert id
          (set_display "block" (set_innerHTML [Src message]
             (set_className ("status-box " +:+ type) e)))))
  end.

(** The columns of the company table: key, label, editable. *)
Definition columns : list (string * string * bool) :=
  [ ("company_number", "CompanyNumber", false);
    ("business_name", "BusinessName", true);
    ("address_line1", "AddressLine1", true);
    ("address_line2", "AddressLine2", true);
    ("town", "Town", true);
    ("county", "County", true);
    ("postcode", "Postcode", true);
    ("person_with_significant_control", "PersonWithSignificantControl", false);
    ("nature_of_control", "NatureOfControl", false);
    ("title", "Title", true);
    ("fname", "Fname", true);
    ("sname", "Sname", true);
    ("position", "Position", true);
    ("sic", "SIC", false);
    ("company_status", "CompanyStatus", false);
    ("company_type", "CompanyType", false);
    ("date_of_creation", "DateOfCreation", false);
    ("website", "Website", true);
    ("phone", "Phone", true);
    ("email", "Email", true);
    ("website_address", "WebsiteAddress", true);
    ("address_match", "AddressMatch(RegVsWeb)", true) ].

(** One [td] of the template: [c[col.key] ?? ""] between the tags. *)
Definition render_cell (c : company) (col : string * string * bool) : cell :=
  let '(key, _, is_editable) := col in
  {| companyId := Js.Number_toString (company_id c);
     field := key;
     editable := is_editable;
     innerText := default "" (company_fields c !! key);
     originalValue := None;
     background := "";
     classList := [];
     blur_listeners := [] |}.

Definition render_row (c : company) : list cell := map (render_cell c) columns.

(** The nodes of row [i] when the rows are appended at [base]. *)
Definition row_nodes (base i : nat) : list nat :=
  seq (base + i * length columns) (length columns).

Definition companies_table (datasetId : string) (base rows total : nat) : list html :=
  [ Node "div" []
      (Node "table" [("id", "company-table-" +:+ datasetId)]
         [ Node "thead" []
             [ Node "tr" [] (map (fun col => Node "th" [] [Src (snd (fst col))]) columns) ];
           Node "tbody" []
             (map (fun i => Node "tr" [] (map Cell (row_nodes base i))) (seq 0 rows)) ]
       :: (if (50 <? total)%nat
           then [ Node "p" []
                    [ Src ("Showing 50 of " +:+ Js.Number_toString (Z.of_nat total) +:+ " companies") ] ]
           else [])) ].

(** [document.querySelectorAll(".editable-cell")]: the cells in the markup of
    the page. *)
Fixpoint html_cells (h : html) : list nat :=
  match h with
  | Src _ => []
  | Cell n => [n]
  | Node _ _ kids => flat_map html_cells kids
  end.

Definition attached_cells (w : World) : list nat :=
  flat_map (fun kv => flat_map html_cells (innerHTML (snd kv)))
           (map_to_list (document w)).

Definition with_cell (f : cell -> cell) (n : nat) : M unit :=
  modify (with_nodes (alter f n)).

Definition enable_cell (datasetId : string) (c : cell) : cell :=
  if editable c then
    {| companyId := companyId c; field := field c; editable := editable c;
       innerText := innerText c;
       originalValue := Some (Js.trim (innerText c));
       background := background c; classList := classList c;
       blur_listeners := blur_listeners c ++ [datasetId] |}
  else c.

Definition enableInlineEditing (datasetId : string) : M unit :=
  let* w := get in
  modify (with_nodes (fun l => foldr (alter (enable_cell datasetId)) l (attached_cells w))).

Definition renderCompaniesTable (containerId : string)
    (companies : option (list company)) (datasetId : string) : M unit :=
  let* container := getElementById containerId in
  match container with
  | None => ret tt
  | Some _ =>
      match companies with
      | None | Some [] =>
          update_element containerId
            (set_innerHTML [Node "p" [] [Src "No companies found."]])
      | Some cs =>
          let shown := take 50 cs in
          let* w := get in
          let base := length (nodes w) in
          modify (with_nodes (fun l => l ++ flat_map render_row shown)) ;;
          update_element containerId
            (set_innerHTML (companies_table datasetId base (length shown) (length cs))) ;;
          enableInlineEditing datasetId
      end
  end.

(** [classList.add] and [classList.remove] *)
Definition classList_add (c : string) (l : list string) : list string :=
  if bool_decide (c ∈ l) then l else l ++ [c].

Definition classList_remove (c : string) (l : list string) : list string :=
  filter (fun x => x <> c) l.

Definition set_innerText (v : string) (c : cell) : cell :=
  {| companyId := companyId c; field := field c; editable := editable c;
     innerText := v; originalValue := originalValue c;
     background := background c; classList := classList c;
     blur_listeners := blur_listeners c |}.

Definition set_originalValue (v : option string) (c : cell) : cell :=
  {| companyId := companyId c; field := field c; editable := editable c;
     innerText := innerText c; originalValue := v;
     background := background c; classList := classList c;
     blur_listeners := blur_listeners c |}.

Definition set_background (v : string) (c : cell) : cell :=
  {| companyId := companyId c; field := field c; editable := editable c;
     innerText := innerText c; originalValue := originalValue c;
     background := v; classList := classList c;
     blur_listeners := blur_listeners c |}.

Definition set_classList (f : list string -> list string) (c : cell) : cell :=
  {| companyId := companyId c; field := field c; editable := editable c;
     innerText := innerText c; originalValue := originalValue c;
     background := background c; classList := f (classList c);
     blur_listeners := blur_listeners c |}.

Definition the_cell (n : nat) : M cell :=
  let* w := get in deref (nodes w !! n).

Definition saveCell (node : nat) (datasetId : string)
    (net : fetch_outcome save_data) : M unit :=
  let* c := the_cell node in
  let* w := get in
  let value := Js.trim (innerText c) in
  let original := Js.or_else (originalValue c) (innerText c) in
  with_cell (set_background "#fff3cd") node ;;
  with_cell (set_classList (classList_add "editing")) node ;;
  try_catch
    (let* res := fetch {| method := "PATCH";
                          url := API_BASE (env w) +:+ "/api/companies/" +:+ companyId c;
                          payload := [(field c, value)] |} net in
     (if ok res then ret tt
      else throw ("HTTP " +:+ Js.Number_toString (http_status res))) ;;
     let* data := json res in
     (if save_success data then ret tt else throw "Save failed") ;;
     with_cell (set_background "#d4edda") node ;;
     with_cell (set_classList (classList_remove "editing")) node ;;
     with_cell (set_classList (classList_add "saved")) node ;;
     with_cell (set_originalValue (Some value)) node ;;
     let* _ := setTimeout (ClearSaved node) 1000 in
     ret tt)
    (fun err =>
       with_cell (set_innerText original) node ;;
       with_cell (set_background "#f8d7da") node ;;
       with_cell (set_classList (classList_remove "editing")) node ;;
       with_cell (set_classList (classList_add "error")) node ;;
       let* _ := setTimeout (ClearError node) 3000 in
       ret tt).

(** The two timer bodies of [saveCell]. *)
Definition clear_saved (node : nat) : M unit :=
  with_cell (set_classList (classList_remove "saved")) node ;;
  with_cell (set_background "") node.

Definition clear_error (node : nat) : M unit :=
  with_cell (set_classList (classList_remove "error")) node ;;
  with_cell (set_background "") node.

(** ** datasets.js *)

(** One entry of the saved-datasets list. *)
Definition dataset_item (e : Env) (ds : dataset_summary) : html :=
  let id := Js.Number_toString (ds_id ds) in
  Node "div" [("class", "dataset-list-item"); ("onclick", "viewDataset(" +:+ id +:+ ")")]
    [ Node "div" []
        [ Node "div" []
            [ Node "h3" [] [Src (ds_name ds)];
              Node "div" [("class", "dataset-meta")]
                ([ Src (Js.Number_toString (ds_total_companies ds) +:+ " companies • SIC: "
                        +:+ Js.or_else (ds_sic_codes ds) "N/A") ]
                 ++ (if Js.truthy (ds_description ds)
                     then [Node "br" [] []; Src (Js.String_of (ds_description ds))]
                     else [])
                 ++ [ Node "br" [] [];
                      Node "small" [] [Src ("Created: " +:+ toLocaleDateString e (ds_created_at ds))] ]) ];
          Node "div" [("class", "dataset-actions")]
            [ Node "button"
                [ ("class", "btn-small btn-primary");
                  ("onclick", "event.stopPropagation(); viewDataset(" +:+ id +:+ ")") ]
                [Src "View"] ] ] ].

Definition loadDatasets (net : fetch_outcome datasets_data) : M unit :=
  showStatus "datasetsStatus"
    ("<span class=" +:+ Js.quoted "loading" +:+ "></span> Loading datasets...") "info" ;;
  try_catch
    (let* w := get in
     let* res := fetch (GET (API_BASE (env w) +:+ "/api/datasets")) net in
     (if ok res then ret tt
      else throw ("HTTP " +:+ Js.Number_toString (http_status res) +:+ ": " +:+ statusText res)) ;;
     let* data := json res in
     (if dl_success data then ret tt
      else throw (Js.or_else (dl_detail data) "Failed to load datasets")) ;;
     let* container := getElementById "datasetsList" in
     match container with
     | None => ret tt
     | Some _ =>
         match dl_datasets data with
         | None | Some [] =>
             update_element "datasetsList"
               (set_innerHTML [Node "p" [] [Src "No datasets saved yet."]]) ;;
             showStatus "datasetsStatus" "" ""
         | Some datasets =>
             update_element "datasetsList"
               (set_innerHTML (map (dataset_item (env w)) datasets)) ;;
             showStatus "datasetsStatus" "" ""
         end
     end)
    (fun err => showStatus "datasetsStatus" err "error").

(** *** Clicking a list entry

    The [onclick] attribute is script source; the browser evaluates it when
    the entry is clicked.  The two forms the templates write are read back:
    an optional [event.stopPropagation();] and a call of [viewDataset] on an
    integer literal. *)
Inductive js_call :=
| Call_viewDataset (datasetId : Z).

Fixpoint strip_prefix (p s : string) : option string :=
  match p, s with
  | EmptyString, _ => Some s
  | String a p', String b s' => if Ascii.eqb a b then strip_prefix p' s' else None
  | String _ _, EmptyString => None
  end.

(** The text before the first [c], and the text after it. *)
Fixpoint split_at (c : ascii) (s : string) : option (string * string) :=
  match s with
  | EmptyString => None
  | String a r =>
      if Ascii.eqb a c then Some (EmptyString, r)
      else match split_at c r with
           | Some (before, after) => Some (String a before, after)
           | None => None
           end
  end.

Definition eval_call (src : string) : option js_call :=
  match strip_prefix "viewDataset(" src with
  | Some rest =>
      match split_at ")" rest with
      | Some (arg, EmptyString) => option_map Call_viewDataset (Js.read_literal arg)
      | _ => None
      end
  | None => None
  end.

(** The handler's effect: whether the click stops bubbling, and the call. *)
Definition eval_onclick (src : string) : option (bool * js_call) :=
  match strip_prefix "event.stopPropagation(); " src with
  | Some rest => option_map (pair true) (eval_call rest)
  | None => option_map (pair false) (eval_call src)
  end.

Definition html_attr (name : string) (h : html) : option string :=
  match h with
  | Node _ attrs _ => snd <$> List.find (fun kv => String.eqb (fst kv) name) attrs
  | _ => None
  end.

(** A click on the [i]-th child of the element [id]. *)
Definition click_child (id : string) (i : nat) (w : World) : option js_call :=
  match document w !! id with
  | Some e =>
      match innerHTML e !! i with
      | Some item =>
          match html_attr "onclick" item with
          | Some src => option_map snd (eval_onclick src)
          | None => None
          end
      | None => None
      end
  | None => None
  end.

Definition has_class (cls : string) (h : html) : bool :=
  match html_attr "class" h with
  | Some c => String.eqb c cls
  | None => false
  end.

(** ** extraction.js *)

(** The percentage of the progress bar:
    [Math.round((processed / total) * 100)]. *)
Definition percent (processed total : Z) : option Z :=
  Js.Math_round (Js.mul (Js.div (Js.of_Z processed) (Js.of_Z total)) (Js.of_Z 100)).

(** [progress.value = n]: the setter refuses a number that is not finite. *)
Definition set_progress (id : string) (n : option Z) : M unit :=
  let* el := getElementById id in
  let* _ := deref el in
  let* v := deref n in
  update_element id (set_value (VNum v)).

Definition enriched_info (e : Env) (total : Z) (enrichedFile : option string) : list html :=
  [ Node "div" [("class", "stats-grid")]
      [ Node "div" [("class", "stat-card")]
          [ Node "div" [("class", "stat-value")] [Src (toLocaleString e total)];
            Node "div" [] [Src "Total Companies"] ] ];
    Node "p" [] [Node "strong" [] [Src "Dataset:"]; Src (" " +:+ Js.String_of enrichedFile)];
    Node "p" [] [Node "strong" [] [Src "Status:"]; Src " Enriched dataset ready"] ].

Definition coverage_info (c : option coverage_data) : list html :=
  let get (f : coverage_data -> option string) :=
    Js.or_else (c ≫= f) "0%" in
  [ Node "h3" [] [Src "📈 Data Enrichment Coverage"];
    Node "div" [("class", "stats-grid")]
      [ Node "div" [("class", "stat-card")] [Src ("📞 Phone: " +:+ get cov_phone)];
        Node "div" [("class", "stat-card")] [Src ("🌐 Website: " +:+ get cov_website)];
        Node "div" [("class", "stat-card")] [Src ("👤 PSC: " +:+ get cov_psc)];
        Node "div" [("class", "stat-card")] [Src ("🏢 Officers: " +:+ get cov_officers)] ] ].

Definition pollEnrichmentStatus (jobId : string)
    (net : fetch_outcome status_data) : M unit :=
  try_catch
    (let* w := get in
     let* res := fetch (GET (API_BASE (env w) +:+ "/api/status/" +:+ jobId)) net in
     let* data := json res in
     if bool_decide (status data = Some "completed") then
       showStatus "enrichmentStatus" "✅ Enrichment complete" "success" ;;
       set_progress "enrichmentProgressBar" (Some 100) ;;
       update_element "download-enriched-btn" (set_display "inline-block") ;;
       let* r := deref (result data) in
       let enrichedFile := output_file r in
       modify (with_currentDatasetFile enrichedFile) ;;
       modify (with_enrichmentJobId (Some jobId)) ;;
       let* stats := deref (enrichment_stats r) in
       let* n := deref (total_processed stats) in
       update_element "datasetInfo" (set_innerHTML (enriched_info (env w) n enrichedFile)) ;;
       update_element "coverageStats" (set_innerHTML (coverage_info (coverage stats)))
     else if bool_decide (status data = Some "failed") then
       showStatus "enrichmentStatus" ("❌ " +:+ Js.String_of (error data)) "error"
     else
       let processed := Js.num_or (processed data) 0 in
       let total := Js.num_or (total data) 1 in
       set_progress "enrichmentProgressBar" (percent processed total) ;;
       showStatus "enrichmentStatus"
         ("<span class='loading'></span> Enriching... " +:+ Js.Number_toString processed
          +:+ " / " +:+ Js.Number_toString total +:+ " companies") "info" ;;
       let* _ := setTimeout (PollEnrichment jobId) 2000 in
       ret tt)
    (fun err => showStatus "enrichmentStatus" ("❌ Error checking status: " +:+ err) "error").

(** ** letters.js *)

Definition letter_status_style (type : string) : string :=
  if String.eqb type "success" then
    "color: #155724; background-color: #d4edda; border-color: #c3e6cb; padding: 10px; border-radius: 4px;"
  else if String.eqb type "error" then
    "color: #721c24; background-color: #f8d7da; border-color: #f5c6cb; padding: 10px; border-radius: 4px;"
  else if String.eqb type "warning" then
    "color: #856404; background-color: #fff3cd; border-color: #ffeaa7; padding: 10px; border-radius: 4px;"
  else
    "color: #004085; background-color: #cce5ff; border-color: #b8daff; padding: 10px; border-radius: 4px;".

Definition showLetterStatus (message type : string) : M unit :=
  let* statusDiv := getElementById "letterStatus" in
  match statusDiv with
  | None => ret tt
  | Some _ =>
      if String.eqb message "" then
        update_element "letterStatus" (set_display "none")
      else
        update_element "letterStatus"
          (set_innerHTML [Node "div" [("style", letter_status_style type)] [Src message]]) ;;
        update_element "letterStatus" (set_display "block") ;;
        if String.eqb type "success" || String.eqb type "error" then
          let* _ := setTimeout HideLetterStatus 8000 in ret tt
        else ret tt
  end.

Definition hide_letter_status : M unit :=
  update_element "letterStatus" (set_display "none").

(** The file name the regular expression of the generators captures in the
    content-disposition header: the first place where [filename=] (in any
    letter case) is followed, after an optional double quote, by at least
    one character that is not a double quote; the capture runs to the next
    double quote or to the end. *)
Definition lower (c : ascii) : ascii :=
  let n := nat_of_ascii c in
  if (65 <=? n)%nat && (n <=? 90)%nat then ascii_of_nat (n + 32) else c.

Fixpoint strip_prefix_ci (p s : string) : option string :=
  match p, s with
  | EmptyString, _ => Some s
  | String a p', String b s' =>
      if Ascii.eqb (lower a) (lower b) then strip_prefix_ci p' s' else None
  | String _ _, EmptyString => None
  end.

Fixpoint until_quote (s : string) : string :=
  match s with
  | EmptyString => EmptyString
  | String a r => if Ascii.eqb a Js.dquote then EmptyString else String a (until_quote r)
  end.

Definition filename_capture (s : string) : option string :=
  let body := match s with
              | String a r => if Ascii.eqb a Js.dquote then r else s
              | EmptyString => s
              end in
  match until_quote body with
  | EmptyString => None
  | name => Some name
  end.

Fixpoint match_filename (s : string) : option string :=
  let here := match strip_prefix_ci "filename=" s with
              | Some rest => filename_capture rest
              | None => None
              end in
  match here, s with
  | Some name, _ => Some name
  | None, String _ r => match_filename r
  | None, EmptyString => None
  end.

(** [response.headers.get(name)]: header names are matched in any letter
    case, and the values of a header sent more than once are joined with a
    comma and a space. *)
Definition lower_name (s : string) : string :=
  string_of_list_ascii (map lower (list_ascii_of_string s)).

Definition header_get {A} (res : response A) (name : string) : option string :=
  match filter (fun kv => lower_name (fst kv) = lower_name name) (headers res) with
  | [] => None
  | found => Some (Js.join ", " (map snd found))
  end.

(** The tail shared by the two generators once the response is in: the
    error of a refused request, or the download of the archive. *)
Definition receive_letters (res : response letters_error) : M unit :=
  (if ok res then ret tt
   else
     let errorData := default {| le_error := Some "Unknown error" |} (body res) in
     throw (Js.or_else (le_error errorData)
              ("Generation failed (" +:+ Js.Number_toString (http_status res) +:+ ")"))) ;;
  let filename :=
    match header_get res "content-disposition" with
    | Some cd => if String.eqb cd "" then "letters.zip"
                 else default "letters.zip" (match_filename cd)
    | None => "letters.zip"
    end in
  modify (with_downloads (fun l => l ++ [filename])).

(** The check of the letters-per-file input shared by the two generators:
    [None] when a message was shown and the generator returns. *)
Definition read_lettersPerFile (outputMode : string) : M (option Z) :=
  if String.eqb outputMode "combined" then
    let* lettersPerFileInput := getElementById "lettersPerFile" in
    match lettersPerFileInput with
    | None => showLetterStatus "Letters per file input not found" "error" ;; ret None
    | Some input =>
        match Js.parseInt (value_string input) with
        | Some n =>
            if n <? 1 then
              showLetterStatus "Letters per file must be a number greater than 0" "error" ;;
              ret None
            else ret (Some n)
        | None =>
            showLetterStatus "Letters per file must be a number greater than 0" "error" ;;
            ret None
        end
    end
  else ret (Some 1).

Definition generateFromUpload (net : fetch_outcome letters_error) : M unit :=
  let* fileUpload := getElementById "letterFileUpload" in
  let* fu := deref fileUpload in
  match files fu with
  | [] => showLetterStatus "Please select a data file" "error"
  | file :: _ =>
      let* templateUpload := getElementById "templateFileUpload" in
      let* tu := deref templateUpload in
      match files tu with
      | [] => showLetterStatus "Please upload a template file (.docx) - this is mandatory" "error"
      | templateFile :: _ =>
          let* w := get in
          match radios w !! "outputMode" with
          | None => showLetterStatus "Please select an output mode" "error"
          | Some outputMode =>
              let* n := read_lettersPerFile outputMode in
              match n with
              | None => ret tt
              | Some lettersPerFile =>
                  showLetterStatus
                    ("<span class=" +:+ Js.quoted "loading"
                     +:+ "></span> Processing file and generating letters...") "info" ;;
                  try_catch
                    (let* response :=
                       fetch {| method := "POST"; url := "/api/letters/generate/upload";
                                payload := [ ("file", file_name file);
                                             ("mode", outputMode);
                                             ("letters_per_file", Js.Number_toString lettersPerFile);
                                             ("template", file_name templateFile) ] |} net in
                     receive_letters response ;;
                     let totalLetters := Js.or_else (header_get response "X-Total-Letters") "unknown" in
                     let filesCreated := Js.or_else (header_get response "X-Files-Created") "unknown" in
                     showLetterStatus
                       ("✓ Successfully generated " +:+ totalLetters +:+ " letters in "
                        +:+ filesCreated +:+ " file(s)! Check your Downloads folder.") "success")
                    (fun error => showLetterStatus ("Error: " +:+ error) "error")
              end
          end
      end
  end.

Definition generateFromDataset (net : fetch_outcome letters_error) : M unit :=
  let* datasetSelect := getElementById "datasetSelect" in
  match datasetSelect with
  | None => showLetterStatus "Please select a dataset" "error"
  | Some ds =>
      if String.eqb (value_string ds) "" then
        showLetterStatus "Please select a dataset" "error"
      else
        let* templateUpload := getElementById "templateFileUpload" in
        let* tu := deref templateUpload in
        match files tu with
        | [] => showLetterStatus "Please upload a template file (.docx) - this is mandatory" "error"
        | _ :: _ =>
            let* w := get in
            match radios w !! "outputMode" with
            | None => showLetterStatus "Please select an output mode" "error"
            | Some outputMode =>
                let* n := read_lettersPerFile outputMode in
                match n with
                | None => ret tt
                | Some lettersPerFile =>
                    showLetterStatus
                      ("<span class=" +:+ Js.quoted "loading"
                       +:+ "></span> Generating letters from dataset: "
                       +:+ value_string ds +:+ "...") "info" ;;
                    try_catch
                      (let* response :=
                         fetch {| method := "POST";
                                  url := "/api/letters/generate/dataset/" +:+ value_string ds
                                         +:+ "?mode=" +:+ outputMode +:+ "&letters_per_file="
                                         +:+ Js.Number_toString lettersPerFile;
                                  payload := [] |} net in
                       receive_letters response ;;
                       showLetterStatus
                         "✓ Successfully generated letters from dataset! Check your Downloads folder."
                         "success")
                      (fun error => showLetterStatus ("Error: " +:+ error) "error")
                end
            end
        end
  end.

Definition generateLetters (net : fetch_outcome letters_error) : M unit :=
  let* w := get in
  match radios w !! "dataSource" with
  | None => showLetterStatus "Please select a data source" "error"
  | Some dataSource =>
      if String.eqb dataSource "upload" then generateFromUpload net
      else generateFromDataset net
  end.

(** ** search.js *)

(** [encodeURIComponent]: every byte but the unreserved ones is escaped. *)
Definition unreserved (c : ascii) : bool :=
  let n := nat_of_ascii c in
  ((65 <=? n) && (n <=? 90) || (97 <=? n) && (n <=? 122) || (48 <=? n) && (n <=? 57)
   || bool_decide (n ∈ [45; 95; 46; 33; 126; 42; 39; 40; 41]))%nat.

Definition hex_digit (n : nat) : ascii :=
  if (n <? 10)%nat then ascii_of_nat (48 + n) else ascii_of_nat (55 + n).

Fixpoint encodeURIComponent (s : string) : string :=
  match s with
  | EmptyString => EmptyString
  | String c r =>
      if unreserved c then String c (encodeURIComponent r)
      else String "%" (String (hex_digit (nat_of_ascii c / 16))
                         (String (hex_digit (nat_of_ascii c mod 16)) (encodeURIComponent r)))
  end.

(** The [highlight] closure of [renderSearchResults]. *)
Definition highlight (e : Env) (query text : string) : M string :=
  if String.eqb text "" || String.eqb query "" then ret text
  else match regexp_mark e query text with
       | Some marked => ret marked
       | None => throw SyntaxError
       end.

Fixpoint mapM {A B} (f : A -> M B) (l : list A) : M (list B) :=
  match l with
  | [] => ret []
  | x :: r => let* y := f x in let* ys := mapM f r in ret (y :: ys)
  end.

(** [${ds.dataset_id || ds.id}] *)
Definition dataset_ref (ds : search_dataset) : string :=
  match sd_dataset_id ds with
  | Some n => if n =? 0 then from_option Js.Number_toString "undefined" (sd_id ds)
              else Js.Number_toString n
  | None => from_option Js.Number_toString "undefined" (sd_id ds)
  end.

Definition search_company_card (e : Env) (query : string) (ds : search_dataset)
    (c : search_company) : M html :=
  let* number := highlight e query (sc_company_number c) in
  let* name := highlight e query (sc_business_name c) in
  let* town := highlight e query (Js.or_else (sc_town c) "") in
  let* postcode := highlight e query (Js.or_else (sc_postcode c) "") in
  let* fname := highlight e query (Js.or_else (sc_fname c) "") in
  let* sname := highlight e query (Js.or_else (sc_sname c) "") in
  ret (Node "div"
         [ ("class", "search-company-card");
           ("onclick", "navigateToCompany(" +:+ dataset_ref ds +:+ ", '"
                       +:+ sc_company_number c +:+ "')") ]
         ([ Node "div" [("class", "search-company-header")]
              [ Node "strong" [] [Src number];
                Node "span" [("class", "search-badge")] [Src (Js.or_else (sc_county c) "N/A")] ];
            Node "div" [("class", "search-company-name")] [Src name];
            Node "div" [("class", "search-company-details")]
              ((if Js.truthy (sc_town c) then [Node "span" [] [Src ("🏙️ " +:+ town)]] else [])
               ++ (if Js.truthy (sc_postcode c) then [Node "span" [] [Src ("📮 " +:+ postcode)]] else [])) ]
          ++ (if Js.truthy (sc_fname c) || Js.truthy (sc_sname c) then
                [ Node "div" [("class", "search-company-details")]
                    [ Src ("👤 " +:+ (if Js.truthy (sc_title c)
                                      then Js.String_of (sc_title c) +:+ " " else "")
                           +:+ fname +:+ " " +:+ sname
                           +:+ (if Js.truthy (sc_position c)
                                then " (" +:+ Js.String_of (sc_position c) +:+ ")" else "")) ] ]
              else [])
          ++ (if Js.truthy (sc_selected_person_source c) then
                [ Node "div" [("class", "search-company-meta")]
                    ([ Node "small" [] [Src ("Source: " +:+ Js.String_of (sc_selected_person_source c))] ]
                     ++ (if Js.truthy (sc_selected_psc_share_tier c)
                         then [Src (" • " +:+ Js.String_of (sc_selected_psc_share_tier c))]
                         else [])) ]
              else [])
          ++ [ Node "div" [("class", "search-company-footer")]
                 [ Node "small" [] [Src "Click to view in dataset"] ] ])).

Definition search_dataset_card (e : Env) (query : string) (totalMatching : Z)
    (ds : search_dataset) : M html :=
  let companies := default [] (sd_companies ds) in
  let count := Js.Number_toString (Z.of_nat (length companies)) in
  let* cards := mapM (search_company_card e query ds) companies in
  ret (Node "div" [("class", "search-dataset-card")]
         [ Node "div" [ ("class", "search-dataset-header");
                        ("onclick", "toggleDatasetResults(" +:+ dataset_ref ds +:+ ")") ]
             [ Node "div" []
                 [ Node "h4" []
                     [ Src (Js.or_else (sd_dataset_name ds) "Unnamed Dataset");
                       Node "span" [("class", "badge")] [Src (count +:+ " companies")] ];
                   Node "small" []
                     [ Src ("Dataset ID: " +:+ dataset_ref ds +:+ " • " +:+ count +:+ " of "
                            +:+ Js.Number_toString totalMatching +:+ " results") ] ];
               Node "div" [("class", "chevron")] [Src "▼"] ];
           Node "div" [ ("class", "search-dataset-companies");
                        ("id", "dataset-" +:+ dataset_ref ds);
                        ("style", "display: none;") ]
             [ Node "div" [] cards ] ]).

Definition renderSearchResults (data : search_data) (query : string) : M unit :=
  let* w := get in
  let datasets := default [] (sr_datasets data) in
  let totalMatching := Js.num_or (sr_total_matching data) 0 in
  let* cards := mapM (search_dataset_card (env w) query totalMatching) datasets in
  update_element "searchResults"
    (set_innerHTML
       (Node "div" []
          [ Node "h3" [] [Src ("Found " +:+ Js.Number_toString totalMatching +:+ " results")];
            Node "button" ([ ("class", "btn-small btn-secondary");
                             ("onclick", "exportSearchResults()") ]
                           ++ (if totalMatching =? 0 then [("disabled", "")] else []))
              [Src "📥 Export All Results"] ]
        :: cards)).

(** [executeSearch(query)].  The test of [query.length] is made on the
    length in bytes: it is the test of the script for an ASCII query; a
    query of one character outside ASCII is longer here than it is there. *)
Definition executeSearch (query : string) (net : fetch_outcome search_data) : M unit :=
  if (String.length query <? 2)%nat then
    showStatus "searchStatus" "Enter at least 2 characters" "error"
  else
    showStatus "searchStatus" "<span class='loading'></span> Searching across all datasets..." "info" ;;
    try_catch
      (let* w := get in
       let* res := fetch (GET (API_BASE (env w) +:+ "/api/search?q=" +:+ encodeURIComponent query)) net in
       let* data := json res in
       (if sr_success data then ret tt
        else throw (Js.or_else (sr_detail data) "Search failed")) ;;
       modify (with_lastSearchResults (Some data)) ;;
       if bool_decide (sr_total_matching data = Some 0) then
         update_element "searchResults"
           (set_innerHTML
              [ Node "div" []
                  [ Node "div" [] [Src "🔍"];
                    Node "h3" [] [Src ("No results found for " +:+ Js.quoted query)];
                    Node "p" [] [Src "Try different keywords or check spelling"] ] ]) ;;
         showStatus "searchStatus" "" ""
       else
         renderSearchResults data query ;;
         showStatus "searchStatus" "" "")
      (fun err => showStatus "searchStatus" err "error").

Definition globalSearch : M unit :=
  let* searchQuery := getElementById "searchQuery" in
  let* input := deref searchQuery in
  let query := Js.trim (value_string input) in
  if (String.length query <? 1)%nat then
    showStatus "searchStatus" "Please enter search term" "error" ;;
    update_element "searchResults" (set_innerHTML [])
  else
    let* w := get in
    clearTimeout (searchTimeout w) ;;
    let* id := setTimeout (ExecuteSearch query) 300 in
    modify (with_searchTimeout (Some id)).

(** ** comparison.js *)

Definition onComparisonRegionChange : M unit :=
  let* regionSelect := getElementById "comparisonRegionFilter" in
  let* sel := deref regionSelect in
  let selectedRegions := selectedRegions_of sel in
  if (0 <? length selectedRegions)%nat then
    let uniqueCounties := Js.Set_values (allCounties_of selectedRegions) in
    update_element "comparisonCounties" (set_value (VStr (Js.join ", " uniqueCounties)))
  else
    update_element "comparisonCounties" (set_value (VStr "")).

Definition clearComparisonFilters : M unit :=
  update_element "comparisonSicCodes" (set_value (VStr "")) ;;
  update_element "comparisonCounties" (set_value (VStr "")) ;;
  update_element "comparisonRegionFilter" (fun e => set_options (map deselect (options e)) e).

(** ** The event loop

    The server is a parameter: the answer to the [n]-th request of the page
    (counted from 0 over all requests) to the status and the search
    endpoints.  A timer that is due runs its callback to the end; the clock
    then stands at the later of its due time and the time already reached. *)
Record Backend := {
  status_api : nat -> string -> fetch_outcome status_data;
  search_api : nat -> string -> fetch_outcome search_data
}.

Definition run_callback (srv : Backend) (cb : callback) : M unit :=
  let* w := get in
  let n := length (requests w) in
  match cb with
  | PollEnrichment jobId => pollEnrichmentStatus jobId (status_api srv n jobId)
  | ExecuteSearch query => executeSearch query (search_api srv n query)
  | ClearSaved node => clear_saved node
  | ClearError node => clear_error node
  | HideLetterStatus => hide_letter_status
  end.

(** The pending timer that fires first: the earliest due time, and among
    equal due times the one set first. *)
Fixpoint first_due (l : list timer) : option timer :=
  match l with
  | [] => None
  | t :: r =>
      match first_due r with
      | Some t' => if due t' <? due t then Some t' else Some t
      | None => Some t
      end
  end.

(** One turn of the loop: [None] when no timer is due by [limit]. *)
Definition fire_next (srv : Backend) (limit : Z) (w : World) : option World :=
  match first_due (timers w) with
  | Some t =>
      if due t <=? limit then
        let w1 := with_now (Z.max (now w) (due t))
                    (with_timers (filter (fun t' => timer_id t' <> timer_id t)) w) in
        Some (run (run_callback srv (action t)) w1)
      else None
  | None => None
  end.

(** Let the time pass up to [limit]; [None] when the fuel runs out with
    timers still due. *)
Fixpoint advance (srv : Backend) (fuel : nat) (limit : Z) (w : World) : option World :=
  match fire_next srv limit w with
  | None => Some (with_now (Z.max (now w) limit) w)
  | Some w' =>
      match fuel with
      | O => None
      | S fuel' => advance srv fuel' limit w'
      end
  end.

(** An [input] event on the search box at time [t] with the text the box
    then holds. *)
Definition input_event (srv : Backend) (fuel : nat) (t : Z) (text : string)
    (w : World) : option World :=
  match advance srv fuel t w with
  | Some w1 =>
      Some (run (update_element "searchQuery" (set_value (VStr text)) ;; globalSearch) w1)
  | None => None
  end.

Fixpoint input_burst (srv : Backend) (fuel : nat) (events : list (Z * string))
    (w : World) : option World :=
  match events with
  | [] => Some w
  | (t, text) :: rest =>
      match input_event srv fuel t text w with
      | Some w' => input_burst srv fuel rest w'
      | None => None
      end
  end.

(** * The rest of the window

    The globals and the effects the pages of the other tabs add to the
    browser state: [alert] boxes, navigation through
    [window.location.href], the globals of ui.js that the extraction and
    dataset tabs share, the one element the scripts reach through
    [document.querySelector], and the one whose text they set. *)

Record Window := {
  page : World;
  alerts : list string;
  location_href : list string;
  currentJobId : option string;
  currentSicCodes : list string;
  currentCounties : option (list string);
  currentViewDatasetId : option Z;
  (** [style.display] of [#content-datasets > .card], when the page has it *)
  datasets_card : option string;
  (** [textContent] of the heading [#datasetDetailName], when the page has it *)
  datasetDetailName : option string
}.

Definition with_page (f : World -> World) (s : Window) : Window :=
  {| page := f (page s); alerts := alerts s; location_href := location_href s;
     currentJobId := currentJobId s; currentSicCodes := currentSicCodes s;
     currentCounties := currentCounties s; currentViewDatasetId := currentViewDatasetId s;
     datasets_card := datasets_card s; datasetDetailName := datasetDetailName s |}.

Definition with_alerts (f : list string -> list string) (s : Window) : Window :=
  {| page := page s; alerts := f (alerts s); location_href := location_href s;
     currentJobId := currentJobId s; currentSicCodes := currentSicCodes s;
     currentCounties := currentCounties s; currentViewDatasetId := currentViewDatasetId s;
     datasets_card := datasets_card s; datasetDetailName := datasetDetailName s |}.

Definition with_location_href (f : list string -> list string) (s : Window) : Window :=
  {| page := page s; alerts := alerts s; location_href := f (location_href s);
     currentJobId := currentJobId s; currentSicCodes := currentSicCodes s;
     currentCounties := currentCounties s; currentViewDatasetId := currentViewDatasetId s;
     datasets_card := datasets_card s; datasetDetailName := datasetDetailName s |}.

Definition with_currentJobId (v : option string) (s : Window) : Window :=
  {| page := page s; alerts := alerts s; location_href := location_href s;
     currentJobId := v; currentSicCodes := currentSicCodes s;
     currentCounties := currentCounties s; currentViewDatasetId := currentViewDatasetId s;
     datasets_card := datasets_card s; datasetDetailName := datasetDetailName s |}.

Definition with_currentSicCodes (v : list string) (s : Window) : Window :=
  {| page := page s; alerts := alerts s; location_href := location_href s;
     currentJobId := currentJobId s; currentSicCodes := v;
     currentCounties := currentCounties s; currentViewDatasetId := currentViewDatasetId s;
     datasets_card := datasets_card s; datasetDetailName := datasetDetailName s |}.

Definition with_currentCounties (v : option (list string)) (s : Window) : Window :=
  {| page := page s; alerts := alerts s; location_href := location_href s;
     currentJobId := currentJobId s; currentSicCodes := currentSicCodes s;
     currentCounties := v; currentViewDatasetId := currentViewDatasetId s;
     datasets_card := datasets_card s; datasetDetailName := datasetDetailName s |}.

Definition with_currentViewDatasetId (v : option Z) (s : Window) : Window :=
  {| page := page s; alerts := alerts s; location_href := location_href s;
     currentJobId := currentJobId s; currentSicCodes := currentSicCodes s;
     currentCounties := currentCounties s; currentViewDatasetId := v;
     datasets_card := datasets_card s; datasetDetailName := datasetDetailName s |}.

Definition with_datasets_card (v : option string) (s : Window) : Window :=
  {| page := page s; alerts := alerts s; location_href := location_href s;
     currentJobId := currentJobId s; currentSicCodes := currentSicCodes s;
     currentCounties := currentCounties s; currentViewDatasetId := currentViewDatasetId s;
     datasets_card := v; datasetDetailName := datasetDetailName s |}.

Definition with_datasetDetailName (v : option string) (s : Window) : Window :=
  {| page := page s; alerts := alerts s; location_href := location_href s;
     currentJobId := currentJobId s; currentSicCodes := currentSicCodes s;
     currentCounties := currentCounties s; currentViewDatasetId := currentViewDatasetId s;
     datasets_card := datasets_card s; datasetDetailName := v |}.

(** Computations over the window, with the same exceptions. *)
Definition W (A : Type) : Type := Window -> outcome A * Window.

Definition retW {A} (a : A) : W A := fun s => (Ok a, s).

Definition bindW {A B} (m : W A) (k : A -> W B) : W B :=
  fun s =>
    match m s with
    | (Ok a, s') => k a s'
    | (Throw e, s') => (Throw e, s')
    end.

Definition throwW {A} (e : string) : W A := fun s => (Throw e, s).

Definition try_catchW {A} (m : W A) (h : string -> W A) : W A :=
  fun s =>
    match m s with
    | (Ok a, s') => (Ok a, s')
    | (Throw e, s') => h e s'
    end.

Definition getW : W Window := fun s => (Ok s, s).
Definition modifyW (f : Window -> Window) : W unit := fun s => (Ok tt, f s).

(** A computation on the page, run in the window. *)
Definition on_the_page {A} (m : M A) : W A :=
  fun s => let (o, w) := m (page s) in (o, with_page (fun _ => w) s).

Notation "'let+' x ':=' m 'in' k" := (bindW m (fun x => k))
  (at level 10, x name, m at level 100, k at level 200).
Notation "m ';+' k" := (bindW m (fun _ => k))
  (at level 100, k at level 200, right associativity).

Definition runW {A} (m : W A) (s : Window) : Window := snd (m s).

Definition alert (text : string) : W unit :=
  modifyW (with_alerts (fun l => l ++ [text])).

Definition derefW {A} (o : option A) : W A :=
  match o with
  | Some a => retW a
  | None => throwW TypeError
  end.

(** ** More of JavaScript's strings *)

(** [s.split(c)] for a one-character separator: never an empty list. *)
Fixpoint split_on (c : ascii) (s : string) : list string :=
  match s with
  | EmptyString => [EmptyString]
  | String a r =>
      if Ascii.eqb a c then EmptyString :: split_on c r
      else match split_on c r with
           | x :: xs => String a x :: xs
           | [] => [String a EmptyString]
           end
  end.

(** [l.filter(Boolean)] on strings: the empty string is the falsy one. *)
Definition filter_Boolean (l : list string) : list string :=
  filter (fun x => x <> "") l.

(** [JSON.stringify] of a string: the quotation mark, the backslash and the
    control characters are escaped, every other byte is kept. *)
Definition hex_lower (n : nat) : ascii :=
  if (n <? 10)%nat then ascii_of_nat (48 + n) else ascii_of_nat (87 + n).

Definition JSON_escape (c : ascii) : string :=
  let n := nat_of_ascii c in
  if (n =? 34)%nat then "\" +:+ String Js.dquote ""
  else if (n =? 92)%nat then "\\"
  else if (n =? 8)%nat then "\b"
  else if (n =? 9)%nat then "\t"
  else if (n =? 10)%nat then "\n"
  else if (n =? 12)%nat then "\f"
  else if (n =? 13)%nat then "\r"
  else if (n <? 32)%nat then
    "\u00" +:+ String (hex_lower (n / 16)) (String (hex_lower (n mod 16)) "")
  else String c "".

Fixpoint JSON_escaped (s : string) : string :=
  match s with
  | EmptyString => EmptyString
  | String c r => JSON_escape c +:+ JSON_escaped r
  end.

Definition JSON_string (s : string) : string := Js.quoted (JSON_escaped s).

(** [JSON.stringify] of an array of strings, and of one that may be [null]. *)
Definition JSON_array (l : list string) : string :=
  "[" +:+ Js.join "," (map JSON_string l) +:+ "]".

Definition JSON_array_or_null (o : option (list string)) : string :=
  match o with
  | Some l => JSON_array l
  | None => "null"
  end.

(** ** extraction.js: extraction and enrichment *)

Record stage_result := { sg_total_companies : option Z }.

Record extract_data := {
  ex_success : bool;
  ex_detail : option string;
  ex_job_id : option string;
  ex_current_dataset : option string;
  ex_stages_completed : option (list string);
  ex_stage_results : option (gmap string stage_result)
}.

Record enrich_data := {
  en_success : bool;
  en_detail : option string;
  en_job_id : option string
}.

(** The two lists [extractCompanies] reads in its inputs. *)
Definition sicCodes_of (text : string) : list string :=
  filter_Boolean (map Js.trim (split_on "," text)).

Definition counties_of (text : string) : option (list string) :=
  let countiesRaw := Js.trim text in
  if String.eqb countiesRaw "" then None
  else Some (map Js.trim (split_on "," countiesRaw)).

(** [stages_completed[stages_completed.length - 1]]: [undefined] on an
    empty array, and then the key read in [stage_results] is that word. *)
Definition last_stage_key (stages : list string) : string :=
  Js.String_of (last stages).

Definition dataset_info (e : Env) (total : Z) (dataset : option string) : list html :=
  [ Node "div" [("class", "stats-grid")]
      [ Node "div" [("class", "stat-card")]
          [ Node "div" [("class", "stat-value")] [Src (toLocaleString e total)];
            Node "div" [] [Src "Total Companies"] ] ];
    Node "p" [] [Node "strong" [] [Src "Dataset:"]; Src (" " +:+ Js.String_of dataset)] ].

Definition displayDatasetInfo (data : extract_data) : M unit :=
  update_element "datasetCard" (set_display "block") ;;
  let* stages := deref (ex_stages_completed data) in
  let* results := deref (ex_stage_results data) in
  let* lastStage := deref (results !! last_stage_key stages) in
  let* total := deref (sg_total_companies lastStage) in
  let* w := get in
  update_element "datasetInfo"
    (set_innerHTML (dataset_info (env w) total (ex_current_dataset data))).

Definition extract_request (e : Env) (sicCodes : list string)
    (counties : option (list string)) : request :=
  {| method := "POST"; url := API_BASE e +:+ "/api/extract";
     payload := [ ("sic_codes", JSON_array sicCodes);
                  ("counties", JSON_array_or_null counties) ] |}.

Definition extractCompanies (net : fetch_outcome extract_data) : W unit :=
  let+ sicInput := on_the_page (let* el := getElementById "sicCodes" in deref el) in
  let sicCodes := sicCodes_of (value_string sicInput) in
  let+ countiesInput := on_the_page (let* el := getElementById "counties" in deref el) in
  let counties := counties_of (value_string countiesInput) in
  match sicCodes with
  | [] =>
      on_the_page (showStatus "extractStatus" "Please enter at least one SIC code" "error")
  | _ :: _ =>
      modifyW (with_currentSicCodes sicCodes) ;+
      modifyW (with_currentCounties counties) ;+
      on_the_page
        (update_element "download-enriched-btn" (set_display "none") ;;
         modify (with_enrichmentJobId None) ;;
         update_element "analysisCard" (set_display "none") ;;
         update_element "enrichmentCard" (set_display "none") ;;
         showStatus "extractStatus" "<span class='loading'></span> Extracting..." "info") ;+
      try_catchW
        (let+ s := getW in
         let+ res := on_the_page
                       (fetch (extract_request (env (page s)) sicCodes counties) net) in
         let+ data := on_the_page (json res) in
         (if ex_success data then retW tt
          else throwW (Js.or_else (ex_detail data) "Extraction failed")) ;+
         modifyW (with_currentJobId (ex_job_id data)) ;+
         on_the_page
           (modify (with_currentDatasetFile (ex_current_dataset data)) ;;
            showStatus "extractStatus" "✅ Extraction complete" "success" ;;
            displayDatasetInfo data))
        (fun err => on_the_page (showStatus "extractStatus" err "error"))
  end.

Definition enrich_request (e : Env) (dataset_file : string) : request :=
  {| method := "POST"; url := API_BASE e +:+ "/api/enrich";
     payload := [ ("dataset_file", JSON_string dataset_file);
                  ("output_format", JSON_string "parquet") ] |}.

(** [enrichDataset] starts the polling itself: [poll] is the answer to the
    first status request.  [pollEnrichmentStatus] is called without [await];
    it catches its own errors, so none of them reaches the handler here. *)
Definition enrichDataset (net : fetch_outcome enrich_data)
    (poll : fetch_outcome status_data) : W unit :=
  let+ s := getW in
  if Js.truthy (currentDatasetFile (page s)) then
    on_the_page
      (update_element "enrichmentCard" (set_display "block") ;;
       showStatus "enrichmentStatus"
         "<span class='loading'></span> Enriching your dataset..." "info" ;;
       let* progress := getElementById "enrichmentProgressBar" in
       let* _ := deref progress in
       update_element "enrichmentProgressBar" (set_display "block") ;;
       update_element "enrichmentProgressBar" (set_value (VNum 0)) ;;
       try_catch
         (let* w := get in
          let* res := fetch (enrich_request (env w)
                               (Js.String_of (currentDatasetFile w))) net in
          let* data := json res in
          (if en_success data then ret tt
           else throw (Js.or_else (en_detail data) "Enrichment failed")) ;;
          modify (with_enrichmentJobId (en_job_id data)) ;;
          pollEnrichmentStatus (Js.String_of (en_job_id data)) poll)
         (fun err => showStatus "enrichmentStatus" ("❌ " +:+ err) "error"))
  else
    alert "No dataset available. Extract companies first.".

Definition downloadRaw : W unit :=
  let+ s := getW in
  if Js.truthy (currentJobId s) then
    modifyW (with_location_href (fun l =>
      l ++ [API_BASE (env (page s)) +:+ "/api/download/"
            +:+ Js.String_of (currentJobId s) +:+ "?format=csv"]))
  else alert "No raw dataset available yet.".

Definition downloadEnriched : W unit :=
  let+ s := getW in
  if Js.truthy (enrichmentJobId (page s)) then
    modifyW (with_location_href (fun l =>
      l ++ [API_BASE (env (page s)) +:+ "/api/download/"
            +:+ Js.String_of (enrichmentJobId (page s)) +:+ "?format=csv"]))
  else alert "No enriched dataset available yet.".

(** ** datasets.js: the detail view *)

Record dataset_detail := {
  dd_name : string;
  dd_total_companies : option Z;
  dd_sic_codes : option string;
  dd_counties : option string;
  dd_description : option string;
  dd_source_file : option string;
  dd_created_at : string
}.

Record dataset_response := {
  dr_success : bool;
  dr_detail : option string;
  dr_dataset : option dataset_detail
}.

Record companies_response := {
  cr_success : bool;
  cr_companies : option (list company)
}.

Definition stat_card (value label : string) : html :=
  Node "div" [("class", "stat-card")]
    [ Node "div" [("class", "stat-value")] [Src value]; Node "div" [] [Src label] ].

Definition dataset_detail_info (e : Env) (total : Z) (dataset : dataset_detail) : list html :=
  [ Node "div" [("class", "stats-grid")]
      [ stat_card (toLocaleString e total) "Total Companies";
        stat_card (Js.or_else (dd_sic_codes dataset) "N/A") "SIC Codes";
        stat_card (Js.or_else (dd_counties dataset) "All") "Counties";
        stat_card (toLocaleDateString e (dd_created_at dataset)) "Created" ] ]
  ++ (if Js.truthy (dd_description dataset)
      then [ Node "p" [] [ Node "strong" [] [Src "Description:"];
                           Src (" " +:+ Js.String_of (dd_description dataset)) ] ]
      else [])
  ++ (if Js.truthy (dd_source_file dataset)
      then [ Node "p" []
               [ Node "small" [] [ Node "strong" [] [Src "Source:"];
                                   Src (" " +:+ Js.String_of (dd_source_file dataset)) ] ] ]
      else []).

Definition dataset_request (e : Env) (datasetId : Z) : request :=
  GET (API_BASE e +:+ "/api/datasets/" +:+ Js.Number_toString datasetId).

Definition companies_request (e : Env) (datasetId : Z) : request :=
  GET (API_BASE e +:+ "/api/datasets/" +:+ Js.Number_toString datasetId
       +:+ "/companies?limit=10000").

Definition no_companies_loaded : list html :=
  [Node "p" [] [Src "No companies found or failed to load."]].

(** [viewDataset(datasetId)], with ui.js loaded: [net] answers the request
    for the dataset, [companies] the one for its companies.  The name goes
    into the heading as text. *)
Definition viewDataset (datasetId : Z) (net : fetch_outcome dataset_response)
    (companies : fetch_outcome companies_response) : W unit :=
  on_the_page
    (showStatus "datasetDetailStatus"
       ("<span class=" +:+ Js.quoted "loading" +:+ "></span> Loading dataset...") "info") ;+
  try_catchW
    (let+ s := getW in
     let e := env (page s) in
     let+ res := on_the_page (fetch (dataset_request e datasetId) net) in
     let+ data := on_the_page (json res) in
     (if dr_success data then retW tt
      else throwW (Js.or_else (dr_detail data) "Failed to load dataset")) ;+
     modifyW (with_currentViewDatasetId (Some datasetId)) ;+
     let+ s := getW in
     let+ _ := derefW (datasets_card s) in
     modifyW (with_datasets_card (Some "none")) ;+
     on_the_page (update_element "datasetDetailCard" (set_display "block")) ;+
     let+ dataset := derefW (dr_dataset data) in
     let+ s := getW in
     let+ _ := derefW (datasetDetailName s) in
     modifyW (with_datasetDetailName (Some (dd_name dataset))) ;+
     let+ total := derefW (dd_total_companies dataset) in
     on_the_page
       (update_element "datasetDetailInfo"
          (set_innerHTML (dataset_detail_info e total dataset))) ;+
     let+ companiesRes := on_the_page (fetch (companies_request e datasetId) companies) in
     let+ companiesData := on_the_page (json companiesRes) in
     (match cr_companies companiesData with
      | Some cs =>
          if cr_success companiesData then
            on_the_page
              (renderCompaniesTable "datasetCompanies" (Some cs) (Js.Number_toString datasetId))
          else
            on_the_page
              (update_element "datasetCompanies" (set_innerHTML no_companies_loaded))
      | None =>
          on_the_page
            (update_element "datasetCompanies" (set_innerHTML no_companies_loaded))
      end) ;+
     on_the_page (showStatus "datasetDetailStatus" "" ""))
    (fun err => on_the_page (showStatus "datasetDetailStatus" err "error")).

(** ui.js: back from the detail view to the list. *)
Definition backToDatasetList : W unit :=
  let+ s := getW in
  let+ _ := derefW (datasets_card s) in
  modifyW (with_datasets_card (Some "block")) ;+
  on_the_page (update_element "datasetDetailCard" (set_display "none")) ;+
  modifyW (with_currentViewDatasetId None).

(** *** Deleting the dataset in view *)

Record delete_response := {
  del_success : bool;
  del_detail : option string
}.

Definition DELETE (u : string) : request := {| method := "DELETE"; url := u; payload := [] |}.

Definition delete_request (e : Env) (datasetId : Z) : request :=
  DELETE (API_BASE e +:+ "/api/datasets/" +:+ Js.Number_toString datasetId).

(** [deleteCurrentDataset()]: [confirmed] is the answer to the [confirm]
    dialog, [net] the outcome of the DELETE request, [list_net] the outcome
    of the request of [loadDatasets], which is called without [await] as the
    last step and catches its own errors. *)
Definition deleteCurrentDataset (confirmed : bool) (net : fetch_outcome delete_response)
    (list_net : fetch_outcome datasets_data) : W unit :=
  let+ s := getW in
  match currentViewDatasetId s with
  | None => alert "No dataset selected"
  | Some datasetId =>
      if datasetId =? 0 then alert "No dataset selected"
      else if negb confirmed then retW tt
      else
        on_the_page
          (showStatus "datasetDetailStatus"
             ("<span class=" +:+ Js.quoted "loading" +:+ "></span> Deleting...") "info") ;+
        try_catchW
          (let+ res := on_the_page (fetch (delete_request (env (page s)) datasetId) net) in
           let+ data := on_the_page (json res) in
           (if del_success data then retW tt
            else throwW (Js.or_else (del_detail data) "Delete failed")) ;+
           backToDatasetList ;+
           on_the_page (loadDatasets list_net))
          (fun err => on_the_page (showStatus "datasetDetailStatus" err "error"))
  end.

(** * What a user sees of the page *)

(** ** The enrichment card *)

(** The value of the progress bar. *)
Definition progress_of (w : World) : option prop_value :=
  value <$> document w !! "enrichmentProgressBar".

(** The [style.display] of the button that downloads the enriched file. *)
Definition download_shown (w : World) : option string :=
  display <$> document w !! "download-enriched-btn".

(** A status box as [showStatus] leaves it: class, content, display. *)
Definition status_box (w : World) (id : string) : option (string * list html * string) :=
  (fun e => (className e, innerHTML e, display e)) <$> document w !! id.

(** The request of a poll fails when [fetch] rejects or when the body is
    not JSON; the message is the one of the error thrown. *)
Definition request_failed {A} (net : fetch_outcome A) : option string :=
  match net with
  | Rejected e => Some e
  | Resolved res => match body res with None => Some SyntaxError | Some _ => None end
  end.

(** The elements with these ids are all in the document. *)
Definition on_page (w : World) (ids : list string) : bool :=
  forallb (fun id => bool_decide (is_Some (document w !! id))) ids.

(** The elements [pollEnrichmentStatus] writes to. *)
Definition enrichment_ids : list string :=
  ["enrichmentStatus"; "enrichmentProgressBar"; "download-enriched-btn";
   "datasetInfo"; "coverageStats"].

(** The request of one poll. *)
Definition status_request (w : World) (jobId : string) : request :=
  GET (API_BASE (env w) +:+ "/api/status/" +:+ jobId).

(** The text shown while the job runs. *)
Definition progress_message (p t : Z) : string :=
  "<span class='loading'></span> Enriching... " +:+ Js.Number_toString p
   +:+ " / " +:+ Js.Number_toString t +:+ " companies".

(** [Number.isSafeInteger] of a counter of the response, when it is there:
    the integers a double represents exactly. *)
Definition isSafeInteger (o : option Z) : Prop :=
  match o with
  | Some n => Z.abs n < 2 ^ 53
  | None => True
  end.

(** A 200 response with a JSON body, and the fetch that resolves to it. *)
Definition ok_response {A} (data : A) : response A :=
  {| ok := true; http_status := 200; statusText := "OK"; headers := [];
     body := Some data |}.

Definition answer {A} (data : A) : fetch_outcome A := Resolved (ok_response data).

(** The responses of the status endpoint for a running job and for a
    completed one. *)
Definition running (p t : Z) : status_data :=
  {| status := Some "running"; processed := Some p; total := Some t;
     error := None; result := None |}.

Definition completed (r : result_data) : status_data :=
  {| status := Some "completed"; processed := None; total := None;
     error := None; result := Some r |}.

(** The percentage as the specification words it, rounding the exact
    quotient 100 * processed / total to the nearest integer, halves upwards
    (for a positive total).  It is compared with [percent], which follows
    the source. *)
Definition round_percent_exact (processed total : Z) : Z :=
  (200 * processed + total) / (2 * total).

(** *** Sizes of doubles

    [D m] is the number of binary digits of [m]; a finite double is [sized]
    between [lo] and [hi] when its top bit lies there and its mantissa fits
    the 53 bits of the format. *)
Abbreviation D := Zdigits2.

Definition sized (lo hi : Z) (x : spec_float) : Prop :=
  match x with
  | S754_finite _ m e => lo <= D (Z.pos m) + e <= hi /\ D (Z.pos m) <= 53
  | _ => False
  end.

(** ** The search tab *)

(** Two worlds that differ in the page only: same clock, timers and
    request log. *)
Definition same_outside_page (w w' : World) : Prop :=
  env w' = env w /\ timers w' = timers w /\ next_timer w' = next_timer w /\
  now w' = now w /\ requests w' = requests w /\ searchTimeout w' = searchTimeout w.

(** A computation that touches nothing but the page. *)
Definition page_only {A} (m : M A) : Prop :=
  forall w, same_outside_page w (snd (m w)).

(** The request [executeSearch] issues for a query. *)
Definition search_request (w : World) (query : string) : request :=
  GET (API_BASE (env w) +:+ "/api/search?q=" +:+ encodeURIComponent query).

(** The elements [globalSearch] and the validation of [executeSearch] use. *)
Definition search_ids : list string := ["searchQuery"; "searchStatus"].

(** During a burst that began in the world [w0]: nothing was requested,
    and the only timer that can be pending is the one [searchTimeout]
    names, due after the window. *)
Definition debouncing (w0 w : World) : Prop :=
  on_page w search_ids = true /\ requests w = requests w0 /\ env w = env w0 /\
  now w0 <= now w /\
  (timers w = [] \/
   exists t, timers w = [t] /\ searchTimeout w = Some (timer_id t) /\
             now w0 + 300 <= due t).

(** Exactly one search is pending, for [query], 300 ms ahead. *)
Definition scheduled_search (query : string) (w : World) : Prop :=
  exists t, timers w = [t] /\ action t = ExecuteSearch query /\ due t = now w + 300.

(** A text of ASCII characters: its length in bytes is the [length] the
    script sees. *)
Fixpoint ascii_text (s : string) : bool :=
  match s with
  | EmptyString => true
  | String c r => (nat_of_ascii c <? 128)%nat && ascii_text r
  end.

(** The message of the validation in [executeSearch]. *)
Definition too_short : string * list html * string :=
  ("status-box error", [Src "Enter at least 2 characters"], "block").

(** ** The region filters *)

(** The value of an input, and the options selected in a select. *)
Definition input_value (w : World) (id : string) : option prop_value :=
  value <$> document w !! id.

Definition selection (w : World) (id : string) : option (list string) :=
  selectedRegions_of <$> document w !! id.

(** The two region filters: the extraction tab and the comparison tab. *)
Definition filter_select (comparison : bool) : string :=
  if comparison then "comparisonRegionFilter" else "regionFilter".

Definition filter_input (comparison : bool) : string :=
  if comparison then "comparisonCounties" else "counties".

(** The change handler and the clear function of either filter. *)
Definition on_change (comparison : bool) : M unit :=
  if comparison then onComparisonRegionChange else onRegionChange.

Definition clear_filter (comparison : bool) : M unit :=
  if comparison then clearComparisonFilters else clearRegionFilter.

(** ** The list of saved datasets *)

(** The character [c] does not occur in [s]. *)
Fixpoint free_of (c : ascii) (s : string) : bool :=
  match s with
  | EmptyString => true
  | String a r => negb (Ascii.eqb a c) && free_of c r
  end.

(** The children of the list container. *)
Definition list_items (w : World) : option (list html) :=
  innerHTML <$> document w !! "datasetsList".

(** An item of the list: it has the class of a list item and a click
    handler. *)
Definition clickable (item : html) : bool :=
  has_class "dataset-list-item" item && bool_decide (is_Some (html_attr "onclick" item)).

(** ** The companies table *)

(** The nodes with a given tag, in document order. *)
Fixpoint select (tag : string) (h : html) : list html :=
  match h with
  | Node t _ kids =>
      (if String.eqb t tag then [h] else []) ++ flat_map (select tag) kids
  | _ => []
  end.

(** The text of a fragment. *)
Fixpoint text_of (h : html) : string :=
  match h with
  | Src s => s
  | Cell _ => ""
  | Node _ _ kids => String.concat "" (map text_of kids)
  end.

(** The rows of the table body, each as the list of its cells. *)
Definition table_rows (content : list html) : list (list nat) :=
  map html_cells (flat_map (select "tr") (flat_map (select "tbody") content)).

(** The paragraphs of the container: the footer, when there is one. *)
Definition footer_texts (content : list html) : list string :=
  map text_of (flat_map (select "p") content).

Definition container_html (w : World) (id : string) : option (list html) :=
  innerHTML <$> document w !! id.

(** What a cell shows: its column key and its text. *)
Definition cell_view (w : World) (n : nat) : option (string * string) :=
  (fun c => (field c, innerText c)) <$> nodes w !! n.

(** The cell of row [i] and column [j]. *)
Definition cell_at (rows : list (list nat)) (i j : nat) : option nat :=
  rows !! i ≫= fun row => row !! j.

(** ** A page to run the scripts on, and the cells of a table *)

(** An element as the markup declares it, and a browser with no locale. *)
Definition blank_element : element :=
  {| className := ""; innerHTML := []; display := ""; value := VStr "";
     files := []; options := [] |}.

Definition test_env : Env :=
  {| API_BASE := "http://localhost:8000";
     toLocaleString := Js.Number_toString;
     toLocaleDateString := fun s => s;
     regexp_mark := fun _ text => Some text |}.

(** A freshly loaded page holding the elements [ids]. *)
Definition page_with (ids : list string) : World :=
  {| env := test_env;
     document := list_to_map (map (fun id => (id, blank_element)) ids);
     radios := ∅; nodes := []; timers := []; next_timer := 0; now := 0;
     requests := []; downloads := [];
     currentDatasetFile := None; enrichmentJobId := None;
     searchTimeout := None; lastSearchResults := None |}.

(** The user types into a cell: only the text of the cell changes. *)
Definition type_into (node : nat) (text : string) (w : World) : World :=
  with_nodes (alter (set_innerText text) node) w.

(** The ways the [PATCH] of [saveCell] fails, and the way it succeeds. *)
Definition http_error (code : Z) : fetch_outcome save_data :=
  Resolved {| ok := false; http_status := code; statusText := "";
              headers := []; body := None |}.

Definition save_refused : fetch_outcome save_data :=
  Resolved {| ok := true; http_status := 200; statusText := "OK";
              headers := []; body := Some {| save_success := false |} |}.

Definition save_accepted : fetch_outcome save_data :=
  Resolved {| ok := true; http_status := 200; statusText := "OK";
              headers := []; body := Some {| save_success := true |} |}.

(** A save fails on a status that is not OK, on a body that is not JSON or
    says [success: false], and when the fetch rejects. *)
Definition save_failed (net : fetch_outcome save_data) : bool :=
  match net with
  | Rejected _ => true
  | Resolved res =>
      negb (ok res) ||
      match body res with
      | Some data => negb (save_success data)
      | None => true
      end
  end.

(** The text, the stored original value and the classes of a cell. *)
Definition cell_text (w : World) (n : nat) : option string :=
  innerText <$> nodes w !! n.

Definition cell_original (w : World) (n : nat) : option (option string) :=
  originalValue <$> nodes w !! n.

Definition cell_classes (w : World) (n : nat) : option (list string) :=
  classList <$> nodes w !! n.

(** A company whose second address line is missing, shown in the detail
    view of dataset 3; the cell of that column is node 3, the cell of the
    business name is node 1. *)
Definition acme : company :=
  {| company_id := 7;
     company_fields := {[ "business_name" := "Acme Ltd" ]} |}.

Definition detail_view : World :=
  run (renderCompaniesTable "datasetCompanies" (Some [acme]) "3")
      (page_with ["datasetCompanies"]).

(** The value the server last acknowledged for a cell that showed
    [initial] when editing was enabled, after a series of edits, each the
    text typed and the answer to its [PATCH]. *)
Fixpoint last_acknowledged (initial : string)
    (edits : list (string * fetch_outcome save_data)) : string :=
  match edits with
  | [] => initial
  | (text, net) :: rest =>
      last_acknowledged (if save_failed net then initial else Js.trim text) rest
  end.

(** One edit: the user types the text and leaves the cell, and the answer
    to the [PATCH] arrives. *)
Definition apply_edit (node : nat) (datasetId : string)
    (edit : string * fetch_outcome save_data) (w : World) : World :=
  run (saveCell node datasetId (snd edit)) (type_into node (fst edit) w).

(** ** The letters tab *)

(** The file chosen in the template input, if any. *)
Definition selected_template (w : World) : option file :=
  document w !! "templateFileUpload" ≫= fun input => head (files input).

(** Whether the data of the chosen source is there: a data file for
    [upload], a selected dataset otherwise. *)
Definition data_source_supplied (w : World) : bool :=
  match radios w !! "dataSource" with
  | Some source =>
      if String.eqb source "upload" then
        match document w !! "letterFileUpload" with
        | Some input => negb (bool_decide (files input = []))
        | None => false
        end
      else
        match document w !! "datasetSelect" with
        | Some select => negb (String.eqb (value_string select) "")
        | None => false
        end
  | None => false
  end.

(** The status line of the letters tab, and the way [showLetterStatus]
    renders an error. *)
Definition letter_status (w : World) : option (list html * string) :=
  (fun e => (innerHTML e, display e)) <$> document w !! "letterStatus".

Definition letter_error (message : string) : list html * string :=
  ([Node "div" [("style", letter_status_style "error")] [Src message]], "block").

(** The message of the template check. *)
Definition template_required : string :=
  "Please upload a template file (.docx) - this is mandatory".

(** The message of the check that comes before it, on the data of the
    chosen source. *)
Definition data_required (source : string) : string :=
  if String.eqb source "upload" then "Please select a data file"
  else "Please select a dataset".

(** The letters tab with [source] chosen as the data source and nothing
    selected. *)
Definition letters_page (source : string) : World :=
  let w := page_with ["letterFileUpload"; "templateFileUpload"; "datasetSelect";
                      "letterStatus"] in
  {| env := env w; document := document w;
     radios := {[ "dataSource" := source; "outputMode" := "zip" ]};
     nodes := nodes w; timers := timers w; next_timer := next_timer w; now := now w;
     requests := requests w; downloads := downloads w;
     currentDatasetFile := None; enrichmentJobId := None;
     searchTimeout := None; lastSearchResults := None |}.

(** An answer of the server, should a request reach it. *)
Definition letters_refused : fetch_outcome letters_error :=
  Resolved {| ok := false; http_status := 400; statusText := "Bad Request";
              headers := []; body := Some {| le_error := Some "No template" |} |}.

(** ** Pages and servers the lemmas are run on *)

(** The extraction tab before an enrichment: the download button is hidden. *)
Definition enrichment_page : World :=
  with_document (insert "download-enriched-btn" (set_display "none" blank_element))
    (page_with enrichment_ids).

Definition enriched : result_data :=
  {| output_file := Some "data/enriched_7.parquet";
     enrichment_stats := Some {| total_processed := Some 100; coverage := None |} |}.

(** A server whose job is at 25 of 100, then at 80 of 100, then done, and
    whose search endpoint is down. *)
Definition test_server : Backend :=
  {| status_api := fun n _ =>
       match n with
       | O => answer (running 25 100)
       | S O => answer (running 80 100)
       | _ => answer (completed enriched)
       end;
     search_api := fun _ _ => Rejected "Failed to fetch" |}.

Definition search_page : World := page_with search_ids.

(** The region filter of the extraction tab with two regions selected. *)
Definition regions_page : World :=
  with_document
    (insert "regionFilter"
       (set_options [ {| opt_value := "North East"; opt_selected := true |};
                      {| opt_value := "East"; opt_selected := false |};
                      {| opt_value := "London"; opt_selected := true |} ]
          blank_element))
    (page_with ["regionFilter"; "counties"]).

Definition two_datasets : datasets_data :=
  {| dl_success := true; dl_detail := None;
     dl_datasets :=
       Some [ {| ds_id := 4; ds_name := "Plumbers"; ds_total_companies := 120;
                 ds_sic_codes := Some "43220"; ds_description := None;
                 ds_created_at := "2024-05-01" |};
              {| ds_id := 9; ds_name := "Bakers"; ds_total_companies := 31;
                 ds_sic_codes := None; ds_description := Some "North East";
                 ds_created_at := "2024-06-11" |} ] |}.

(** The detail view after a failed edit of the empty second address line. *)
Definition failed_blank_edit (net : fetch_outcome save_data) : World :=
  run (saveCell 3 "3" net) (type_into 3 "Suite 4" detail_view).

(** The business name is cleared and the server accepts; the next edit
    fails. *)
Definition cleared_then_failed : World :=
  run (saveCell 1 "3" (Rejected "Failed to fetch"))
    (type_into 1 "Beta Ltd"
       (run (saveCell 1 "3" save_accepted) (type_into 1 "" detail_view))).

(** The letters tab with a saved dataset chosen as the source and no
    template. *)
Definition dataset_chosen_page : World :=
  with_document (insert "datasetSelect" (set_value (VStr "4") blank_element))
    (letters_page "dataset").

(** * Further observers, predicates and example pages *)

(** ** The enrichment poll *)

(** One poll is pending, for [jobId], due at [at_]. *)
Definition poll_pending (jobId : string) (at_ : Z) (w : World) : Prop :=
  exists t, timers w = [t] /\ action t = PollEnrichment jobId /\ due t = at_.

(** An answer of the status endpoint for a job that is still going on:
    any status but [completed] and [failed], with counters that are safe
    integers. *)
Definition still_running (net : fetch_outcome status_data) : Prop :=
  exists res data,
    net = Resolved res /\ body res = Some data /\
    status data <> Some "completed" /\ status data <> Some "failed" /\
    isSafeInteger (processed data) /\ isSafeInteger (total data).

(** The timer that is due first fires, at its time. *)
Definition fire_pending (srv : Backend) (w : World) : option World :=
  match first_due (timers w) with
  | Some t => fire_next srv (due t) w
  | None => None
  end.

Fixpoint fire_times (srv : Backend) (n : nat) (w : World) : option World :=
  match n with
  | O => Some w
  | S k =>
      match fire_pending srv w with
      | Some w' => fire_times srv k w'
      | None => None
      end
  end.

(** The percentage the bar is given for an answer. *)
Definition percent_of (net : fetch_outcome status_data) : option Z :=
  match net with
  | Resolved res =>
      data ← body res;
      percent (Js.num_or (processed data) 0) (Js.num_or (total data) 1)
  | Rejected _ => None
  end.

(** A server whose job moves on, from 1 of 4 to 3 of 4, and stays there. *)
Definition slow_server : Backend :=
  {| status_api := fun i _ =>
       match i with
       | O => answer (running 1 4)
       | S O => answer (running 2 4)
       | _ => answer (running 3 4)
       end;
     search_api := fun _ _ => Rejected "Failed to fetch" |}.

(** ** The global search *)

(** The search tab, with its result container. *)
Definition search_tab : World := page_with ["searchQuery"; "searchStatus"; "searchResults"].

(** The ways a search fails, with the message of the error: the fetch
    rejects, the body is not JSON, or the body says [success: false]. *)
Definition search_failed (net : fetch_outcome search_data) : option string :=
  match net with
  | Rejected e => Some e
  | Resolved res =>
      match body res with
      | None => Some SyntaxError
      | Some data =>
          if sr_success data then None
          else Some (Js.or_else (sr_detail data) "Search failed")
      end
  end.

(** A browser whose [RegExp] rejects the pattern built from [c++]. *)
Definition strict_env : Env :=
  {| API_BASE := API_BASE test_env;
     toLocaleString := toLocaleString test_env;
     toLocaleDateString := toLocaleDateString test_env;
     regexp_mark := fun query text =>
                      if String.eqb query "c++" then None else Some text |}.

(** The search tab in that browser. *)
Definition strict_search_tab : World :=
  {| env := strict_env; document := document search_tab; radios := radios search_tab;
     nodes := []; timers := []; next_timer := 0; now := 0; requests := []; downloads := [];
     currentDatasetFile := None; enrichmentJobId := None;
     searchTimeout := None; lastSearchResults := None |}.

(** A search answer with one company in one dataset. *)
Definition one_company : search_company :=
  {| sc_company_number := "01234567"; sc_business_name := "C++ Consulting Ltd";
     sc_county := None; sc_town := None; sc_postcode := None; sc_title := None;
     sc_fname := None; sc_sname := None; sc_position := None;
     sc_selected_person_source := None; sc_selected_psc_share_tier := None |}.

Definition one_dataset : search_dataset :=
  {| sd_dataset_id := Some 4; sd_id := None; sd_dataset_name := Some "Consultants";
     sd_companies := Some [one_company] |}.

Definition one_result : search_data :=
  {| sr_success := true; sr_detail := None; sr_total_matching := Some 1;
     sr_datasets := Some [one_dataset] |}.

(** ** Inline editing *)

(** The inline background colour of a cell. *)
Definition cell_background (w : World) (n : nat) : option string :=
  background <$> nodes w !! n.

(** The [PATCH] that [saveCell] sends for a cell. *)
Definition save_request (w : World) (c : cell) : request :=
  {| method := "PATCH";
     url := API_BASE (env w) +:+ "/api/companies/" +:+ companyId c;
     payload := [(field c, Js.trim (innerText c))] |}.

(** ** The company table and the dataset list *)

(** The ways the loading of the dataset list fails, with the message of
    the error: the fetch rejects, the status is not OK, the body is not
    JSON, or the body says [success: false]. *)
Definition load_failed (net : fetch_outcome datasets_data) : option string :=
  match net with
  | Rejected e => Some e
  | Resolved res =>
      if ok res then
        match body res with
        | None => Some SyntaxError
        | Some data =>
            if dl_success data then None
            else Some (Js.or_else (dl_detail data) "Failed to load datasets")
        end
      else Some ("HTTP " +:+ Js.Number_toString (http_status res) +:+ ": " +:+ statusText res)
  end.

(** The request of [loadDatasets]. *)
Definition datasets_request (w : World) : request :=
  GET (API_BASE (env w) +:+ "/api/datasets").

(** The datasets tab, and a server that is down. *)
Definition datasets_page : World := page_with ["datasetsList"; "datasetsStatus"].

Definition unavailable : fetch_outcome datasets_data :=
  Resolved {| ok := false; http_status := 503; statusText := "Service Unavailable";
              headers := []; body := None |}.

(** ** Letters *)

(** The status line as [showLetterStatus] renders a message. *)
Definition letter_message (message type : string) : list html :=
  [Node "div" [("style", letter_status_style type)] [Src message]].

(** Whether the status line hides by itself. *)
Definition self_hiding (type : string) : bool :=
  String.eqb type "success" || String.eqb type "error".

(** The letters tab. *)
Definition letters_tab : World :=
  page_with ["letterFileUpload"; "templateFileUpload"; "datasetSelect"; "letterStatus";
             "lettersPerFile"].

(** A computation that leaves the request log and the downloads alone. *)
Definition quiet {A} (m : M A) : Prop :=
  forall w, requests (snd (m w)) = requests w /\ downloads (snd (m w)) = downloads w /\
    (is_Some (document w !! "letterStatus") ->
     is_Some (document (snd (m w)) !! "letterStatus")).

(** The number of letters per file a generation sends: 1 unless the mode
    is [combined], then what [parseInt] reads in the input when that is 1 or
    more; [None] when the generation stops at the input instead. *)
Definition lettersPerFile_sent (w : World) (mode : string) : option Z :=
  if String.eqb mode "combined" then
    input ← document w !! "lettersPerFile";
    n ← Js.parseInt (value_string input);
    if n <? 1 then None else Some n
  else Some 1.

(** The request of a generation from a saved dataset. *)
Definition dataset_letters_request (datasetId mode : string) (n : Z) : request :=
  {| method := "POST";
     url := "/api/letters/generate/dataset/" +:+ datasetId +:+ "?mode=" +:+ mode
            +:+ "&letters_per_file=" +:+ Js.Number_toString n;
     payload := [] |}.

(** The form is filled for a generation from a saved dataset: that source
    is chosen, a dataset and a template are selected and an output mode is
    checked.  It is ready when the mode and the letters-per-file input give
    a number as well. *)
Definition dataset_form_filled (w : World) (datasetId mode : string) : Prop :=
  (exists source, radios w !! "dataSource" = Some source /\ source <> "upload") /\
  (exists sel, document w !! "datasetSelect" = Some sel /\ value_string sel = datasetId) /\
  datasetId <> "" /\
  (exists tpl, document w !! "templateFileUpload" = Some tpl /\ files tpl <> []) /\
  radios w !! "outputMode" = Some mode.

Definition dataset_form_ready (w : World) (datasetId mode : string) (n : Z) : Prop :=
  dataset_form_filled w datasetId mode /\ lettersPerFile_sent w mode = Some n.

(** The message of a successful generation. *)
Definition generated_from_dataset : string :=
  "✓ Successfully generated letters from dataset! Check your Downloads folder.".

(** The ways a generation is refused, with the message shown after
    [Error: ]: the fetch rejects; or the status is not OK, and then the
    [error] of the JSON body, [Unknown error] for a body that is not JSON,
    and the status code when the body has no [error]. *)
Definition letters_failed (net : fetch_outcome letters_error) : option string :=
  match net with
  | Rejected e => Some e
  | Resolved res =>
      if ok res then None
      else Some (match body res with
                 | None => "Unknown error"
                 | Some data =>
                     Js.or_else (le_error data)
                       ("Generation failed (" +:+ Js.Number_toString (http_status res) +:+ ")")
                 end)
  end.

(** The [content-disposition] header of an archive called [name], and of
    an answer that names none. *)
Definition disposition (name : option string) : option string :=
  (fun file => "attachment; filename=" +:+ Js.quoted file) <$> name.

(** The letters tab, ready for a generation from dataset 4. *)
Definition template_chosen : element :=
  {| className := ""; innerHTML := []; display := ""; value := VStr "";
     files := [{| file_name := "letter.docx"; file_size := 20480 |}]; options := [] |}.

Definition ready_letters_page : World :=
  with_document
    (fun d => <["templateFileUpload" := template_chosen]>
              (<["datasetSelect" := set_value (VStr "4") blank_element]> d))
    (letters_page "dataset").

(** A refusal without a reason, and an archive with a name. *)
Definition refused_letters : fetch_outcome letters_error :=
  Resolved {| ok := false; http_status := 422; statusText := "Unprocessable Entity";
              headers := []; body := Some {| le_error := None |} |}.

Definition archive : response letters_error :=
  {| ok := true; http_status := 200; statusText := "OK";
     headers := [("Content-Disposition", "attachment; filename=" +:+ Js.quoted "dataset_4.zip")];
     body := None |}.

(** The same form in the mode [combined], the input holding [text]. *)
Definition combined_letters_page (text : string) : World :=
  {| env := env ready_letters_page;
     document := <["lettersPerFile" := set_value (VStr text) blank_element]>
                   (document ready_letters_page);
     radios := {[ "dataSource" := "dataset"; "outputMode" := "combined" ]};
     nodes := []; timers := []; next_timer := 0; now := 0; requests := []; downloads := [];
     currentDatasetFile := None; enrichmentJobId := None;
     searchTimeout := None; lastSearchResults := None |}.

(** ** The extraction form *)

(** The text after one white-space character at the head of [s]. *)
Definition space_rest (s : string) : option string :=
  match s with
  | EmptyString => None
  | String c r =>
      if Js.is_space c then Some r
      else
        match r with
        | EmptyString => None
        | String d r2 =>
            if Js.two_byte_space c d then Some r2
            else
              match r2 with
              | EmptyString => None
              | String e r3 => if Js.three_byte_space c d e then Some r3 else None
              end
        end
  end.

(** An ASCII byte that is not white space. *)
Definition plain (c : ascii) : bool :=
  negb (Js.is_space c) && (nat_of_ascii c <? 128)%nat.

Definition starts_plain (s : string) : bool :=
  match s with
  | String c _ => plain c
  | EmptyString => false
  end.

Fixpoint ends_plain (s : string) : bool :=
  match s with
  | EmptyString => false
  | String c EmptyString => plain c
  | String _ r => ends_plain r
  end.

(** A name as the region table writes them: plain at both ends, and
    without a comma. *)
Definition clean_name (x : string) : bool :=
  starts_plain x && ends_plain x && free_of "," x.

(** A text of commas and white space holds no code. *)
Definition comma_or_space (c : ascii) : bool := Js.is_space c || Ascii.eqb c ",".

Fixpoint all_chars (p : ascii -> bool) (s : string) : bool :=
  match s with
  | EmptyString => true
  | String c r => p c && all_chars p r
  end.

(** The elements [extractCompanies] reads and resets before its request. *)
Definition extraction_ids : list string :=
  ["sicCodes"; "counties"; "download-enriched-btn"; "analysisCard"; "enrichmentCard"].

(** Nothing is changed but the elements [ids] and the current dataset
    file. *)
Definition touches_only (ids : list string) (w w' : World) : Prop :=
  env w' = env w /\ radios w' = radios w /\ nodes w' = nodes w /\
  timers w' = timers w /\ next_timer w' = next_timer w /\ now w' = now w /\
  requests w' = requests w /\ downloads w' = downloads w /\
  enrichmentJobId w' = enrichmentJobId w /\ searchTimeout w' = searchTimeout w /\
  lastSearchResults w' = lastSearchResults w /\
  forall id, id ∉ ids -> document w' !! id = document w !! id.

(** A computation that changes the elements [ids] at most. *)
Definition touches {A} (ids : list string) (m : M A) : Prop :=
  forall w, touches_only ids w (snd (m w)).

(** The elements an extraction reports in. *)
Definition extraction_outputs : list string := ["extractStatus"; "datasetCard"; "datasetInfo"].

(** The ways an extraction fails, with the message of the error: the fetch
    rejects, the body is not JSON, or the body says [success: false]. *)
Definition extract_failed (net : fetch_outcome extract_data) : option string :=
  match net with
  | Rejected e => Some e
  | Resolved res =>
      match body res with
      | None => Some SyntaxError
      | Some data =>
          if ex_success data then None
          else Some (Js.or_else (ex_detail data) "Extraction failed")
      end
  end.

(** ** Enrichment *)

(** The elements [enrichDataset] and the polling write to. *)
Definition enrich_ids : list string := "enrichmentCard" :: enrichment_ids.

(** The ways the start of an enrichment fails, with the message of the
    error. *)
Definition enrich_failed (net : fetch_outcome enrich_data) : option string :=
  match net with
  | Rejected e => Some e
  | Resolved res =>
      match body res with
      | None => Some SyntaxError
      | Some data =>
          if en_success data then None
          else Some (Js.or_else (en_detail data) "Enrichment failed")
      end
  end.

(** ** The detail view of a dataset *)

(** The ways the loading of a dataset fails, with the message of the error. *)
Definition dataset_failed (net : fetch_outcome dataset_response) : option string :=
  match net with
  | Rejected e => Some e
  | Resolved res =>
      match body res with
      | None => Some SyntaxError
      | Some data =>
          if dr_success data then None
          else Some (Js.or_else (dr_detail data) "Failed to load dataset")
      end
  end.

(** The elements of the detail view. *)
Definition detail_ids : list string :=
  ["datasetDetailStatus"; "datasetDetailCard"; "datasetDetailInfo"; "datasetCompanies"].

(** What the detail view shows of a dataset: the list card, the view id,
    the display of the detail card, the heading and the statistics. *)
Definition detail_header (s : Window) :
    option string * option Z * option string * option string * option (list html) :=
  (datasets_card s, currentViewDatasetId s,
   display <$> document (page s) !! "datasetDetailCard",
   datasetDetailName s,
   innerHTML <$> document (page s) !! "datasetDetailInfo").

(** The answer for the companies of a dataset brings none: it reports no
    success, or carries no list. *)
Definition companies_unavailable (cdata : companies_response) : bool :=
  match cr_companies cdata with
  | Some _ => negb (cr_success cdata)
  | None => true
  end.

(** The ways the deletion fails, with the message of the error. *)
Definition delete_failed (net : fetch_outcome delete_response) : option string :=
  match net with
  | Rejected e => Some e
  | Resolved res =>
      match body res with
      | None => Some SyntaxError
      | Some data =>
          if del_success data then None
          else Some (Js.or_else (del_detail data) "Delete failed")
      end
  end.

(** What the datasets tab shows: the display of the list card and of the
    detail card, and the dataset in view. *)
Definition datasets_tab_view (s : Window) : option string * option string * option Z :=
  (datasets_card s, display <$> document (page s) !! "datasetDetailCard",
   currentViewDatasetId s).

(** ** Windows the lemmas are run on *)

(** A window that has just loaded the page [w]: the globals as ui.js sets
    them, the list card on display, an empty heading. *)
Definition fresh_window (w : World) : Window :=
  {| page := w; alerts := []; location_href := [];
     currentJobId := None; currentSicCodes := []; currentCounties := None;
     currentViewDatasetId := None;
     datasets_card := Some "block"; datasetDetailName := Some "" |}.

(** The user types [text] into the input [id]. *)
Definition fill (id text : string) (w : World) : World :=
  with_document (alter (set_value (VStr text)) id) w.

(** The extraction tab with its two inputs filled in, North East and
    London selected in the region filter. *)
Definition extraction_tab (sic counties : string) : Window :=
  fresh_window
    (fill "sicCodes" sic
       (fill "counties" counties
          (with_document
             (insert "regionFilter"
                (set_options [ {| opt_value := "North East"; opt_selected := true |};
                               {| opt_value := "East"; opt_selected := false |};
                               {| opt_value := "London"; opt_selected := true |} ]
                   blank_element))
             (page_with (extraction_ids ++ extraction_outputs))))).

(** An input holding [text]. *)
Definition typed (text : string) : element := set_value (VStr text) blank_element.

(** The answers of a server: an extraction in two stages, an enrichment
    started. *)
Definition extracted : extract_data :=
  {| ex_success := true; ex_detail := None; ex_job_id := Some "job-1";
     ex_current_dataset := Some "data/extracted_1.parquet";
     ex_stages_completed := Some ["extraction"; "filtering"];
     ex_stage_results :=
       Some {[ "extraction" := {| sg_total_companies := Some 40 |};
               "filtering" := {| sg_total_companies := Some 12 |} ]} |}.

(** The extraction tab after an extraction. *)
Definition extracted_tab : Window :=
  fresh_window (with_currentDatasetFile (Some "data/extracted_1.parquet")
                  (page_with enrich_ids)).

Definition enrich_started : enrich_data :=
  {| en_success := true; en_detail := None; en_job_id := Some "job-2" |}.

(** The datasets tab with dataset 4 in view. *)
Definition datasets_tab : Window :=
  with_currentViewDatasetId (Some 4)
    (fresh_window (page_with (detail_ids ++ ["datasetsList"; "datasetsStatus"]))).

(** A dataset of 51 companies, and the answer that carries it. *)
Definition plumbers_dataset : dataset_detail :=
  {| dd_name := "Plumbers"; dd_total_companies := Some 51;
     dd_sic_codes := Some "43220"; dd_counties := None;
     dd_description := None; dd_source_file := None;
     dd_created_at := "2024-05-01" |}.

Definition plumbers : dataset_response :=
  {| dr_success := true; dr_detail := None; dr_dataset := Some plumbers_dataset |}.

(** * Lemmas *)

(** ** Enrichment polling *)

Ltac unfold_M :=
  unfold run, try_catch, bind, fetch, json, get, modify, throw, ret, deref,
    getElementById, update_element, set_progress, setTimeout, clearTimeout,
    showStatus in *.

Ltac look :=
  cbn;
  repeat (first
    [ rewrite lookup_insert_eq
    | rewrite lookup_insert_ne by discriminate
    | match goal with H : document _ !! _ = _ |- _ => rewrite H end ];
    cbn).


Lemma run_bind {A B} (m : M A) (k : A -> M B) w :
  run (bind m k) w =
  match m w with
  | (Ok a, w') => run (k a) w'
  | (Throw _, w') => w'
  end.
Proof. unfold run, bind. destruct (m w) as [[a|e] w']; reflexivity. Qed.

Lemma on_page_cons w id ids :
  on_page w (id :: ids) = true ->
  (exists e, document w !! id = Some e) /\ on_page w ids = true.
Proof.
  unfold on_page. cbn. intros [H1 H2]%andb_prop. split; [|done].
  apply bool_decide_eq_true in H1. destruct H1 as [e He]. eauto.
Qed.

Ltac page H :=
  repeat (let e := fresh "el" in let He := fresh "Hel" in
          apply on_page_cons in H; destruct H as [[e He] H]).

Lemma poll_completed_eq jobId res data w st bar btn info cov r stats n :
  document w !! "enrichmentStatus" = Some st ->
  document w !! "enrichmentProgressBar" = Some bar ->
  document w !! "download-enriched-btn" = Some btn ->
  document w !! "datasetInfo" = Some info ->
  document w !! "coverageStats" = Some cov ->
  body res = Some data ->
  status data = Some "completed" ->
  result data = Some r -> enrichment_stats r = Some stats -> total_processed stats = Some n ->
  run (pollEnrichmentStatus jobId (Resolved res)) w =
  with_document (fun d =>
      <["coverageStats" := set_innerHTML (coverage_info (coverage stats)) cov]>
      (<["datasetInfo" := set_innerHTML (enriched_info (env w) n (output_file r)) info]>
      (<["download-enriched-btn" := set_display "inline-block" btn]>
      (<["enrichmentProgressBar" := set_value (VNum 100) bar]>
      (<["enrichmentStatus" := set_display "block" (set_innerHTML [Src "✅ Enrichment complete"]
                                 (set_className "status-box success" st))]> d)))))
    (with_enrichmentJobId (Some jobId)
       (with_currentDatasetFile (output_file r)
          (with_requests (fun l => l ++ [status_request w jobId]) w))).
Proof.
  intros Hst Hbar Hbtn Hinfo Hcov Hbody Hs Hr Hstats Hn.
  unfold pollEnrichmentStatus. unfold_M. cbn.
  rewrite Hbody. cbn. rewrite Hs. cbn.
  rewrite bool_decide_true by reflexivity. cbn.
  repeat (look; rewrite ?Hr, ?Hstats, ?Hn; cbn).
  reflexivity.
Qed.

Lemma poll_failed_eq jobId res data w st :
  document w !! "enrichmentStatus" = Some st ->
  body res = Some data ->
  status data = Some "failed" ->
  run (pollEnrichmentStatus jobId (Resolved res)) w =
  with_document
    (insert "enrichmentStatus"
       (set_display "block" (set_innerHTML [Src ("❌ " +:+ Js.String_of (error data))]
          (set_className "status-box error" st))))
    (with_requests (fun l => l ++ [status_request w jobId]) w).
Proof.
  intros Hst Hbody Hs.
  unfold pollEnrichmentStatus. unfold_M. cbn.
  rewrite Hbody. cbn. rewrite Hs. cbn.
  rewrite bool_decide_false by discriminate.
  rewrite bool_decide_true by reflexivity. cbn. look. reflexivity.
Qed.

Lemma poll_running_eq jobId res data w st bar k :
  document w !! "enrichmentStatus" = Some st ->
  document w !! "enrichmentProgressBar" = Some bar ->
  body res = Some data ->
  status data <> Some "completed" ->
  status data <> Some "failed" ->
  percent (Js.num_or (processed data) 0) (Js.num_or (total data) 1) = Some k ->
  run (pollEnrichmentStatus jobId (Resolved res)) w =
  with_next_timer (S (next_timer w))
    (with_timers (fun l => l ++ [{| timer_id := next_timer w; due := now w + 2000;
                                    action := PollEnrichment jobId |}])
       (with_document (fun d =>
          <["enrichmentStatus" := set_display "block"
              (set_innerHTML [Src (progress_message (Js.num_or (processed data) 0)
                                                    (Js.num_or (total data) 1))]
                 (set_className "status-box info" st))]>
          (<["enrichmentProgressBar" := set_value (VNum k) bar]> d))
          (with_requests (fun l => l ++ [status_request w jobId]) w))).
Proof.
  intros Hst Hbar Hbody Hs1 Hs2 Hk.
  unfold pollEnrichmentStatus. unfold_M. cbn.
  rewrite Hbody. cbn.
  rewrite !bool_decide_false by done. cbn.
  look. rewrite Hk. cbn. 
  look. reflexivity.
Qed.

Lemma digits2_size p : digits2_pos p = Pos.size p.
Proof. induction p; simpl; congruence. Qed.

Lemma D_log2 m : 0 < m -> D m = Z.log2 m + 1.
Proof.
  destruct m as [|p|p]; try lia. intros _. simpl.
  rewrite digits2_size. destruct p; simpl; lia.
Qed.

Lemma D_pos m : 0 < m -> 0 < D m.
Proof. intros H. rewrite D_log2 by done. pose proof (Z.log2_nonneg m). lia. Qed.

Lemma D_bounds m : 0 < m -> 2 ^ (D m - 1) <= m < 2 ^ D m.
Proof.
  intros H. rewrite D_log2 by done.
  replace (Z.log2 m + 1 - 1) with (Z.log2 m) by lia.
  replace (Z.log2 m + 1) with (Z.succ (Z.log2 m)) by lia.
  apply Z.log2_spec. done.
Qed.

Lemma D_unique m d : 0 < m -> 2 ^ (d - 1) <= m < 2 ^ d -> D m = d.
Proof.
  intros H [H1 H2]. rewrite D_log2 by done.
  assert (0 <= d - 1).
  { destruct (Z.le_gt_cases 0 (d - 1)); [done|].
    assert (d <= 0) by lia. 
    assert (2 ^ d <= 1). { destruct (Z.eq_dec d 0) as [->|]; [simpl; lia|]. rewrite Z.pow_neg_r by lia. lia. }
    lia. }
  assert (Z.log2 m = d - 1); [|lia].
  apply Z.log2_unique; [done|]. replace (Z.succ (d - 1)) with d by lia. done.
Qed.

Lemma shr_1_m mrs : 0 <= shr_m mrs -> shr_m (shr_1 mrs) = shr_m mrs / 2.
Proof.
  destruct mrs as [m r s]. simpl. intros H.
  destruct m as [|[p|p|]|p]; cbn [shr_m]; try lia; try reflexivity.
  - apply Z.div_unique with 1; lia.
  - apply Z.div_unique with 0; lia.
Qed.

Lemma shr_iter_m p : forall mrs, 0 <= shr_m mrs ->
  shr_m (SpecFloat.iter_pos shr_1 p mrs) = shr_m mrs / 2 ^ Z.pos p.
Proof.
  induction p as [p IH|p IH|]; intros mrs H; simpl SpecFloat.iter_pos.
  - assert (H1 : 0 <= shr_m (shr_1 mrs)) by (rewrite shr_1_m by done; apply Z.div_pos; lia).
    assert (H2 : 0 <= shr_m (SpecFloat.iter_pos shr_1 p (shr_1 mrs))).
    { rewrite IH by done. apply Z.div_pos; [done|]. apply Z.pow_pos_nonneg; lia. }
    rewrite IH, IH, shr_1_m by done.
    rewrite !Z.div_div by (try apply Z.pow_pos_nonneg; lia).
    f_equal. rewrite Pos2Z.inj_xI. rewrite <- Z.pow_add_r by lia.
    replace (2 * Z.pos p + 1) with (1 + (Z.pos p + Z.pos p)) by lia.
    rewrite (Z.pow_add_r 2 1) by lia. reflexivity.
  - assert (H2 : 0 <= shr_m (SpecFloat.iter_pos shr_1 p mrs)).
    { rewrite IH by done. apply Z.div_pos; [done|]. apply Z.pow_pos_nonneg; lia. }
    rewrite IH, IH by done.
    rewrite !Z.div_div by (try apply Z.pow_pos_nonneg; lia).
    f_equal. rewrite Pos2Z.inj_xO. rewrite <- Z.pow_add_r by lia. f_equal. lia.
  - rewrite shr_1_m by done. reflexivity.
Qed.

Lemma shr_record_of_loc_m m l : shr_m (shr_record_of_loc m l) = m.
Proof. destruct l as [|[]]; reflexivity. Qed.

Lemma D_div_pow2 m n : 0 < m -> 0 <= n -> n < D m -> D (m / 2 ^ n) = D m - n /\ 0 < m / 2 ^ n.
Proof.
  intros Hm Hn Hd.
  pose proof (D_bounds m Hm) as [H1 H2].
  assert (Hp : 0 < 2 ^ n) by (apply Z.pow_pos_nonneg; lia).
  assert (Hlo : 2 ^ (D m - n - 1) <= m / 2 ^ n).
  { apply Z.div_le_lower_bound; [done|].
    rewrite <- Z.pow_add_r by lia. replace (n + (D m - n - 1)) with (D m - 1) by lia. done. }
  assert (Hhi : m / 2 ^ n < 2 ^ (D m - n)).
  { apply Z.div_lt_upper_bound; [done|].
    rewrite <- Z.pow_add_r by lia. replace (n + (D m - n)) with (D m) by lia. done. }
  assert (0 < 2 ^ (D m - n - 1)) by (apply Z.pow_pos_nonneg; lia).
  split; [|lia].
  apply D_unique; [lia|]. split; [|done]. done.
Qed.

Lemma fexp_normal e : -1021 <= e -> fexp 53 1024 e = e - 53.
Proof. unfold fexp, emin. lia. Qed.

Lemma D_succ m : 0 < m -> D m <= D (m + 1) <= D m + 1.
Proof.
  intros H. rewrite !D_log2 by lia.
  pose proof (Z.log2_succ_le m). pose proof (Z.log2_le_mono m (m + 1)).
  unfold Z.succ in *. lia.
Qed.

Lemma shr_fexp_spec m e l : 0 < m -> -1021 <= D m + e ->
  exists mrs e', shr_fexp 53 1024 m e l = (mrs, e') /\ 0 < shr_m mrs /\
    D (shr_m mrs) = Z.min (D m) 53 /\ e' = Z.max e (D m + e - 53).
Proof.
  intros Hm Hlo. unfold shr_fexp, shr. rewrite fexp_normal by done.
  pose proof (D_pos m Hm) as Hd.
  destruct (D m + e - 53 - e) as [|p|p] eqn:Hn.
  - eexists _, _. split; [reflexivity|]. rewrite shr_record_of_loc_m. lia.
  - eexists _, _. split; [reflexivity|].
    rewrite shr_iter_m by (rewrite shr_record_of_loc_m; lia).
    rewrite shr_record_of_loc_m.
    destruct (D_div_pow2 m (Z.pos p)) as [H1 H2]; [done|lia|lia|]. lia.
  - eexists _, _. split; [reflexivity|]. rewrite shr_record_of_loc_m. lia.
Qed.

Lemma round_nearest_even_cases m l :
  round_nearest_even m l = m \/ round_nearest_even m l = m + 1.
Proof. destruct l as [|[]]; simpl; auto. destruct (Z.even m); auto. Qed.

Lemma binary_round_aux_finite s mx ex lx :
  0 < mx -> -1021 <= D mx + ex -> D mx + ex <= 1022 -> ex <= 971 ->
  exists m e, binary_round_aux 53 1024 s mx ex lx = S754_finite s m e /\
    D mx + ex <= D (Z.pos m) + e <= D mx + ex + 1 /\ D (Z.pos m) <= 53.
Proof.
  intros Hm Hlo Hhi Hex. unfold binary_round_aux.
  destruct (shr_fexp_spec mx ex lx Hm Hlo) as (mrs1 & e1 & -> & Hp1 & Hd1 & He1).
  set (m2 := round_nearest_even (shr_m mrs1) (loc_of_shr_record mrs1)).
  pose proof (D_succ (shr_m mrs1) Hp1) as Hs.
  pose proof (D_pos mx Hm) as Hdm.
  assert (Hm2 : 0 < m2 /\ D (shr_m mrs1) <= D m2 <= D (shr_m mrs1) + 1).
  { subst m2. destruct (round_nearest_even_cases (shr_m mrs1) (loc_of_shr_record mrs1)) as [-> | ->]; lia. }
  destruct Hm2 as [Hm2 Hd2].
  destruct (shr_fexp_spec m2 e1 loc_Exact Hm2) as (mrs2 & e2 & -> & Hp2 & Hd3 & He2); [lia|].
  destruct (shr_m mrs2) as [|m|m] eqn:Hm3; try lia.
  assert (Hle : (e2 <=? 1024 - 53) = true) by (apply Z.leb_le; lia).
  rewrite Hle. exists m, e2. split; [reflexivity|].
  change (D (Z.pos m)) with (Z.pos (digits2_pos m)) in *. 
  simpl D in Hd3. lia.
Qed.

Lemma digits2_iter_xO m d :
  digits2_pos (Pos.iter xO m d) = (digits2_pos m + d)%positive.
Proof.
  induction d as [|d IH] using Pos.peano_ind.
  - simpl. lia.
  - rewrite Pos.iter_succ. simpl. rewrite IH. lia.
Qed.

Lemma of_Z_sized z : z <> 0 -> Z.abs z < 2 ^ 53 -> sized 1 54 (Js.of_Z z).
Proof.
  intros Hz Hb. unfold Js.of_Z, binary_normalize, Js.prec, Js.emax.
  assert (Hgen : forall s m, Z.pos m < 2 ^ 53 -> sized 1 54 (binary_round 53 1024 s m 0)).
  { intros s m Hm. unfold binary_round, shl_align.
    pose proof (D_pos (Z.pos m) eq_refl) as Hd.
    assert (Hd53 : D (Z.pos m) <= 53).
    { pose proof (D_bounds (Z.pos m) eq_refl) as [H1 _].
      apply Z.nlt_ge. intros Hgt.
      assert (2 ^ 53 <= 2 ^ (D (Z.pos m) - 1)) by (apply Z.pow_le_mono_r; lia). lia. }
    simpl D in Hd, Hd53.
    rewrite Z.add_0_r, fexp_normal by lia.
    destruct (Z.pos (digits2_pos m) - 53 - 0) as [|d|d] eqn:Hn.
    - destruct (binary_round_aux_finite s (Z.pos m) 0 loc_Exact) as (m' & e' & -> & H1 & H2);
        simpl D; try lia. simpl D in *. simpl. lia.
    - lia.
    - destruct (binary_round_aux_finite s (Z.pos (Pos.iter xO m d)) (Z.pos (digits2_pos m) - 53) loc_Exact)
        as (m' & e' & -> & H1 & H2); simpl D; rewrite ?digits2_iter_xO; try lia.
      simpl D in *. rewrite digits2_iter_xO in H1. simpl. lia. }
  destruct z as [|m|m]; [done| |]; apply Hgen; lia.
Qed.

Lemma D_between q k : 0 < q -> 2 ^ (k - 1) <= q < 2 ^ (k + 1) -> 1 <= k -> k <= D q <= k + 1.
Proof.
  intros Hq [H1 H2] Hk.
  pose proof (D_bounds q Hq) as [H3 H4]. pose proof (D_pos q Hq).
  split.
  - apply Z.nlt_ge. intros Hlt.
    assert (2 ^ D q <= 2 ^ (k - 1)) by (apply Z.pow_le_mono_r; lia). lia.
  - apply Z.nlt_ge. intros Hlt.
    assert (2 ^ (k + 1) <= 2 ^ (D q - 1)) by (apply Z.pow_le_mono_r; lia). lia.
Qed.

Lemma mul_sized a b c d x y :
  sized a b x -> sized c d y -> -1020 <= a + c -> b + d <= 973 ->
  sized (a + c - 1) (b + d + 1) (Js.mul x y).
Proof.
  destruct x as [| | |sx mx ex]; try done. destruct y as [| | |sy my ey]; try done.
  intros [[Hx1 Hx2] Hx3] [[Hy1 Hy2] Hy3] Hlo Hhi.
  unfold Js.mul, SFmul, Js.prec, Js.emax.
  assert (Hd : D (Z.pos mx) + D (Z.pos my) - 1 <= D (Z.pos (mx * my)) <= D (Z.pos mx) + D (Z.pos my)).
  { rewrite !D_log2 by done. rewrite Pos2Z.inj_mul.
    pose proof (Z.log2_mul_above (Z.pos mx) (Z.pos my)).
    pose proof (Z.log2_mul_below (Z.pos mx) (Z.pos my)). lia. }
  pose proof (D_pos (Z.pos mx) eq_refl). pose proof (D_pos (Z.pos my) eq_refl).
  destruct (binary_round_aux_finite (xorb sx sy) (Z.pos (mx * my)) (ex + ey) loc_Exact)
    as (m' & e' & -> & H1 & H2); try lia.
  simpl. simpl D in *. lia.
Qed.

Lemma div_sized a b c d x y :
  sized a b x -> sized c d y -> -1021 <= a - d -> b - c <= 970 ->
  sized (a - d) (b - c + 2) (Js.div x y).
Proof.
  destruct x as [| | |sx mx ex]; try done. destruct y as [| | |sy my ey]; try done.
  intros [[Hx1 Hx2] Hx3] [[Hy1 Hy2] Hy3] Hlo Hhi.
  unfold Js.div, SFdiv, SFdiv_core_binary, Js.prec, Js.emax.
  set (d1 := D (Z.pos mx)) in *. set (d2 := D (Z.pos my)) in *.
  assert (Hd1 : 0 < d1) by (apply D_pos; done).
  assert (Hd2 : 0 < d2) by (apply D_pos; done).
  rewrite fexp_normal by lia.
  set (e' := Z.min (d1 + ex - (d2 + ey) - 53) (ex - ey)).
  assert (He' : e' = d1 + ex - (d2 + ey) - 53) by lia.
  set (s := ex - ey - e').
  assert (Hs : s = d2 - d1 + 53) by lia.
  destruct s as [|sp|sp] eqn:Hsp; try lia.
  rewrite Z.shiftl_mul_pow2 by lia. rewrite <- Hsp.
  pose proof (D_bounds (Z.pos mx) eq_refl) as [Hmx1 Hmx2].
  pose proof (D_bounds (Z.pos my) eq_refl) as [Hmy1 Hmy2].
  fold d1 in Hmx1, Hmx2. fold d2 in Hmy1, Hmy2.
  assert (Hs0 : 0 < s) by lia.
  assert (Hpow : 0 < 2 ^ s) by (apply Z.pow_pos_nonneg; lia).
  pose proof (Z.div_eucl_eq (Z.pos mx * 2 ^ s) (Z.pos my)) as Heq.
  pose proof (Z.mod_pos_bound (Z.pos mx * 2 ^ s) (Z.pos my) eq_refl) as Hr.
  unfold Z.modulo in Hr.
  destruct (Z.div_eucl (Z.pos mx * 2 ^ s) (Z.pos my)) as [q r] eqn:Hqr.
  specialize (Heq ltac:(lia)).
  assert (Hq : q = Z.pos mx * 2 ^ s / Z.pos my) by (unfold Z.div; rewrite Hqr; reflexivity).
  set (k := d1 + s - d2).
  assert (Hk : 53 = k) by lia.
  assert (Hqlo : 2 ^ (k - 1) <= q).
  { rewrite Hq. apply Z.div_le_lower_bound; [lia|].
    apply Z.le_trans with (2 ^ d2 * 2 ^ (k - 1)).
    - apply Z.mul_le_mono_nonneg_r; [apply Z.pow_nonneg; lia | lia].
    - rewrite <- Z.pow_add_r by lia.
      replace (d2 + (k - 1)) with ((d1 - 1) + s) by lia.
      rewrite Z.pow_add_r by lia.
      apply Z.mul_le_mono_nonneg_r; lia. }
  assert (Hqhi : q < 2 ^ (k + 1)).
  { rewrite Hq. apply Z.div_lt_upper_bound; [lia|].
    apply Z.lt_le_trans with (2 ^ d1 * 2 ^ s).
    - apply Z.mul_lt_mono_pos_r; lia.
    - rewrite <- Z.pow_add_r by lia.
      replace (d1 + s) with ((d2 - 1) + (k + 1)) by lia.
      rewrite Z.pow_add_r by lia.
      apply Z.mul_le_mono_nonneg_r; [apply Z.pow_nonneg; lia | lia]. }
  assert (Hqpos : 0 < q).
  { assert (0 < 2 ^ (k - 1)) by (apply Z.pow_pos_nonneg; lia). lia. }
  pose proof (D_between q k Hqpos (conj Hqlo Hqhi) ltac:(lia)) as Hdq.
  destruct (binary_round_aux_finite (xorb sx sy) q e' (new_location (Z.pos my) r))
    as (m' & e'' & -> & H1 & H2); try lia.
  simpl. simpl D in *. lia.
Qed.

Lemma percent_finite p t :
  Z.abs p < 2 ^ 53 -> Z.abs t < 2 ^ 53 -> t <> 0 -> exists k, percent p t = Some k.
Proof.
  intros Hp Ht Ht0. unfold percent.
  pose proof (of_Z_sized t Ht0 Ht) as Hst.
  assert (Hc : sized 1 54 (Js.of_Z 100)) by (apply of_Z_sized; [done | simpl; lia]).
  destruct (Z.eq_dec p 0) as [-> | Hp0].
  - change (Js.of_Z 0) with (S754_zero false).
    destruct (Js.of_Z t) as [| | |st mt et]; try done.
    destruct (Js.of_Z 100) as [| | |sc mc ec]; try done.
    simpl. eauto.
  - pose proof (of_Z_sized p Hp0 Hp) as Hsp.
    pose proof (div_sized _ _ _ _ _ _ Hsp Hst ltac:(lia) ltac:(lia)) as Hq.
    pose proof (mul_sized _ _ _ _ _ _ Hq Hc ltac:(lia) ltac:(lia)) as Hm.
    destruct (Js.mul _ _) as [| | |sm mm em]; try done.
    simpl. eauto.
Qed.

Lemma num_or_safe o d : isSafeInteger o -> Z.abs d < 2 ^ 53 -> Z.abs (Js.num_or o d) < 2 ^ 53.
Proof. destruct o as [n|]; simpl; [|done]. destruct (n =? 0); done. Qed.

Lemma num_or_nonzero o d : d <> 0 -> Js.num_or o d <> 0.
Proof.
  intros Hd. destruct o as [n|]; simpl; [|done].
  destruct (Z.eqb_spec n 0); done.
Qed.

Lemma poll_step jobId res data w :
  on_page w enrichment_ids = true ->
  body res = Some data ->
  let w' := run (pollEnrichmentStatus jobId (Resolved res)) w in
  (status data = Some "completed" ->
   forall r stats n,
     result data = Some r -> enrichment_stats r = Some stats ->
     total_processed stats = Some n ->
     progress_of w' = Some (VNum 100) /\
     currentDatasetFile w' = output_file r /\
     (innerHTML <$> document w' !! "datasetInfo")
       = Some (enriched_info (env w) n (output_file r)) /\
     download_shown w' = Some "inline-block" /\
     timers w' = timers w) /\
  (status data = Some "failed" ->
     status_box w' "enrichmentStatus"
       = Some ("status-box error", [Src ("❌ " +:+ Js.String_of (error data))], "block") /\
     download_shown w' = download_shown w /\
     timers w' = timers w) /\
  (status data <> Some "completed" -> status data <> Some "failed" ->
   isSafeInteger (processed data) -> isSafeInteger (total data) ->
     (exists k, percent (Js.num_or (processed data) 0) (Js.num_or (total data) 1) = Some k /\
                progress_of w' = Some (VNum k)) /\
     download_shown w' = download_shown w /\
     timers w' = timers w ++ [{| timer_id := next_timer w; due := now w + 2000;
                                 action := PollEnrichment jobId |}]).
Proof.
  intros Hpage Hbody w'. unfold enrichment_ids in Hpage. page Hpage.
  split; [|split].
  - intros Hs r stats n Hr Hstats Hn. subst w'.
    erewrite poll_completed_eq by eassumption.
    unfold progress_of, download_shown. look. done.
  - intros Hs. subst w'. erewrite poll_failed_eq by eassumption.
    unfold status_box, download_shown. look. done.
  - intros Hs1 Hs2 Hp Ht.
    destruct (percent_finite (Js.num_or (processed data) 0) (Js.num_or (total data) 1))
      as [k Hk].
    { apply num_or_safe; [done | simpl; lia]. }
    { apply num_or_safe; [done | simpl; lia]. }
    { apply num_or_nonzero. lia. }
    subst w'. erewrite poll_running_eq by eassumption.
    unfold progress_of, download_shown. look. eauto.
Qed.

Lemma on_page_same w w' ids :
  (forall id, is_Some (document w !! id) -> is_Some (document w' !! id)) ->
  on_page w ids = true -> on_page w' ids = true.
Proof.
  unfold on_page. rewrite !forallb_forall. intros Hd H x Hx.
  specialize (H x Hx). apply bool_decide_eq_true in H. apply bool_decide_eq_true. auto.
Qed.

Lemma is_Some_insert (d : gmap string element) id e x :
  is_Some (d !! x) -> is_Some (<[id := e]> d !! x).
Proof.
  intros H. destruct (decide (id = x)) as [->|Hne].
  - rewrite lookup_insert_eq. eauto.
  - rewrite lookup_insert_ne by done. done.
Qed.

(** What a poll that finds the job running leaves behind. *)
Lemma poll_running_facts jobId res data w k :
  on_page w enrichment_ids = true ->
  body res = Some data ->
  status data <> Some "completed" -> status data <> Some "failed" ->
  percent (Js.num_or (processed data) 0) (Js.num_or (total data) 1) = Some k ->
  let w' := run (pollEnrichmentStatus jobId (Resolved res)) w in
  on_page w' enrichment_ids = true /\
  progress_of w' = Some (VNum k) /\
  download_shown w' = download_shown w /\
  timers w' = timers w ++ [{| timer_id := next_timer w; due := now w + 2000;
                              action := PollEnrichment jobId |}] /\
  requests w' = requests w ++ [status_request w jobId] /\
  now w' = now w /\ env w' = env w.
Proof.
  intros Hpage Hbody Hs1 Hs2 Hk w'. subst w'.
  pose proof Hpage as Hp. unfold enrichment_ids in Hp. page Hp.
  erewrite poll_running_eq by eassumption.
  split.
  { eapply on_page_same; [|exact Hpage]. intros id H. cbn.
    by do 2 apply is_Some_insert. }
  unfold progress_of, download_shown. look. done.
Qed.

Lemma poll_completed_facts jobId res data w r stats n :
  on_page w enrichment_ids = true ->
  body res = Some data ->
  status data = Some "completed" ->
  result data = Some r -> enrichment_stats r = Some stats ->
  total_processed stats = Some n ->
  let w' := run (pollEnrichmentStatus jobId (Resolved res)) w in
  progress_of w' = Some (VNum 100) /\
  currentDatasetFile w' = output_file r /\
  (innerHTML <$> document w' !! "datasetInfo")
    = Some (enriched_info (env w) n (output_file r)) /\
  download_shown w' = Some "inline-block" /\
  timers w' = timers w.
Proof.
  intros Hpage Hbody Hs Hr Hstats Hn w'. subst w'.
  unfold enrichment_ids in Hpage. page Hpage.
  erewrite poll_completed_eq by eassumption.
  unfold progress_of, download_shown. look. done.
Qed.

(** The loop with one pending timer. *)
Lemma fire_next_single srv limit w t :
  timers w = [t] ->
  fire_next srv limit w =
  if due t <=? limit then
    Some (run (run_callback srv (action t))
            (with_now (Z.max (now w) (due t)) (with_timers (fun _ => []) w)))
  else None.
Proof.
  intros Ht. unfold fire_next. rewrite Ht. cbn.
  destruct (due t <=? limit); [|done].
  do 3 f_equal. unfold with_timers. rewrite Ht. cbn.
  rewrite decide_False by (intros H; apply H; reflexivity). reflexivity.
Qed.

Lemma run_callback_poll srv jobId w :
  run (run_callback srv (PollEnrichment jobId)) w
  = run (pollEnrichmentStatus jobId (status_api srv (length (requests w)) jobId)) w.
Proof. unfold run_callback. rewrite run_bind. reflexivity. Qed.

Lemma poll_sequence srv jobId w r stats n :
  on_page w enrichment_ids = true ->
  timers w = [] ->
  download_shown w = Some "none" ->
  status_api srv (length (requests w)) jobId = answer (running 25 100) ->
  status_api srv (S (length (requests w))) jobId = answer (running 80 100) ->
  status_api srv (S (S (length (requests w)))) jobId = answer (completed r) ->
  enrichment_stats r = Some stats -> total_processed stats = Some n ->
  let w1 := run (pollEnrichmentStatus jobId (status_api srv (length (requests w)) jobId)) w in
  progress_of w1 = Some (VNum 25) /\ download_shown w1 = Some "none" /\
  (forall limit, limit < now w + 2000 -> fire_next srv limit w1 = None) /\
  exists w2 w3,
    fire_next srv (now w + 2000) w1 = Some w2 /\
    progress_of w2 = Some (VNum 80) /\ download_shown w2 = Some "none" /\
    (forall limit, limit < now w + 4000 -> fire_next srv limit w2 = None) /\
    fire_next srv (now w + 4000) w2 = Some w3 /\
    progress_of w3 = Some (VNum 100) /\ download_shown w3 = Some "inline-block" /\
    currentDatasetFile w3 = output_file r /\
    timers w3 = [].
Proof.
  intros Hpage Ht Hbtn H1 H2 H3 Hstats Hn w1. subst w1. rewrite H1.
  set (w1 := run (pollEnrichmentStatus jobId (answer (running 25 100))) w).
  destruct (poll_running_facts jobId (ok_response (running 25 100)) (running 25 100) w 25
              Hpage eq_refl)
    as (Hpage1 & Hp1 & Hb1 & Ht1 & Hr1 & Hn1 & _); try discriminate.
  { vm_compute. reflexivity. }
  fold (answer (running 25 100)) in Hpage1, Hp1, Hb1, Ht1, Hr1, Hn1.
  fold w1 in Hpage1, Hp1, Hb1, Ht1, Hr1, Hn1.
  rewrite Ht in Ht1. cbn in Ht1.
  set (w1' := with_now (Z.max (now w1) (now w + 2000)) (with_timers (fun _ => []) w1)).
  assert (Hlen1 : length (requests w1') = S (length (requests w))).
  { cbn. rewrite Hr1, length_app. cbn. lia. }
  set (w2 := run (pollEnrichmentStatus jobId (answer (running 80 100))) w1').
  destruct (poll_running_facts jobId (ok_response (running 80 100)) (running 80 100) w1' 80
              Hpage1 eq_refl)
    as (Hpage2 & Hp2 & Hb2 & Ht2 & Hr2 & Hn2 & _); try discriminate.
  { vm_compute. reflexivity. }
  fold (answer (running 80 100)) in Hpage2, Hp2, Hb2, Ht2, Hr2, Hn2.
  fold w2 in Hpage2, Hp2, Hb2, Ht2, Hr2, Hn2.
  cbn in Ht2, Hn2. rewrite Hn1 in Ht2, Hn2.
  change (download_shown w1') with (download_shown w1) in Hb2.
  replace (Z.max (now w) (now w + 2000)) with (now w + 2000) in Ht2, Hn2 by lia.
  set (w2' := with_now (Z.max (now w2) (now w + 2000 + 2000)) (with_timers (fun _ => []) w2)).
  assert (Hlen2 : length (requests w2') = S (S (length (requests w)))).
  { cbn. rewrite Hr2, length_app. cbn. rewrite Hr1, length_app. cbn. lia. }
  set (w3 := run (pollEnrichmentStatus jobId (answer (completed r))) w2').
  destruct (poll_completed_facts jobId (ok_response (completed r)) (completed r) w2' r stats n
              Hpage2 eq_refl eq_refl eq_refl Hstats Hn)
    as (Hp3 & Hf3 & _ & Hb3 & Ht3).
  fold (answer (completed r)) in Hp3, Hf3, Hb3, Ht3. fold w3 in Hp3, Hf3, Hb3, Ht3.
  assert (Hfire1 : fire_next srv (now w + 2000) w1 = Some w2).
  { rewrite (fire_next_single _ _ _ _ Ht1). cbn. rewrite Z.leb_refl.
    rewrite run_callback_poll. fold w1'. rewrite Hlen1, H2. reflexivity. }
  assert (Hfire2 : fire_next srv (now w + 4000) w2 = Some w3).
  { rewrite (fire_next_single _ _ _ _ Ht2). cbn.
    replace (now w + 2000 + 2000 <=? now w + 4000) with true
      by (symmetry; apply Z.leb_le; lia).
    rewrite run_callback_poll. fold w2'. rewrite Hlen2, H3. reflexivity. }
  split; [done|]. split; [congruence|].
  split.
  { intros limit Hl. rewrite (fire_next_single _ _ _ _ Ht1). cbn.
    destruct (Z.leb_spec (now w + 2000) limit); [lia|done]. }
  exists w2, w3.
  split; [done|]. split; [done|]. split; [congruence|].
  split.
  { intros limit Hl. rewrite (fire_next_single _ _ _ _ Ht2). cbn.
    destruct (Z.leb_spec (now w + 2000 + 2000) limit); [lia|done]. }
  done.
Qed.

(** ** Effects confined to the page *)

Lemma same_outside_refl w : same_outside_page w w.
Proof. by repeat split. Qed.

Lemma same_outside_trans w1 w2 w3 :
  same_outside_page w1 w2 -> same_outside_page w2 w3 -> same_outside_page w1 w3.
Proof. unfold same_outside_page. intuition congruence. Qed.

Lemma page_only_ret {A} (a : A) : page_only (ret a).
Proof. intros w. apply same_outside_refl. Qed.

Lemma page_only_throw {A} e : page_only (@throw A e).
Proof. intros w. apply same_outside_refl. Qed.

Lemma page_only_get : page_only get.
Proof. intros w. apply same_outside_refl. Qed.

Lemma page_only_bind {A B} (m : M A) (k : A -> M B) :
  page_only m -> (forall a, page_only (k a)) -> page_only (bind m k).
Proof.
  intros Hm Hk w. unfold bind. specialize (Hm w).
  destruct (m w) as [[a|e] w1]; cbn in *; [|done].
  eapply same_outside_trans; [exact Hm | apply Hk].
Qed.

Lemma page_only_try_catch {A} (m : M A) h :
  page_only m -> (forall e, page_only (h e)) -> page_only (try_catch m h).
Proof.
  intros Hm Hh w. unfold try_catch. specialize (Hm w).
  destruct (m w) as [[a|e] w1]; cbn in *; [done|].
  eapply same_outside_trans; [exact Hm | apply Hh].
Qed.

Lemma page_only_deref {A} (o : option A) : page_only (deref o).
Proof. destruct o; [apply page_only_ret | apply page_only_throw]. Qed.

Lemma page_only_json {A} (res : response A) : page_only (json res).
Proof. unfold json. destruct (body res); [apply page_only_ret | apply page_only_throw]. Qed.

Lemma page_only_getElementById id : page_only (getElementById id).
Proof. intros w. apply same_outside_refl. Qed.

Lemma page_only_document f : page_only (modify (with_document f)).
Proof. intros w. by repeat split. Qed.

Lemma page_only_lastSearchResults v : page_only (modify (with_lastSearchResults v)).
Proof. intros w. by repeat split. Qed.

Lemma page_only_update_element id f : page_only (update_element id f).
Proof.
  unfold update_element. apply page_only_bind; [apply page_only_getElementById|].
  intros el. apply page_only_bind; [apply page_only_deref|].
  intros e. apply page_only_document.
Qed.

Lemma page_only_showStatus id msg ty : page_only (showStatus id msg ty).
Proof.
  unfold showStatus. apply page_only_bind; [apply page_only_getElementById|].
  intros [e|]; [|apply page_only_ret].
  destruct (String.eqb msg ""); apply page_only_document.
Qed.

Lemma page_only_if {A} (b : bool) (m1 m2 : M A) :
  page_only m1 -> page_only m2 -> page_only (if b then m1 else m2).
Proof. by destruct b. Qed.

Lemma page_only_mapM {A B} (f : A -> M B) l :
  (forall a, page_only (f a)) -> page_only (mapM f l).
Proof.
  intros Hf. induction l as [|x l IH]; cbn; [apply page_only_ret|].
  apply page_only_bind; [apply Hf|]. intros y.
  apply page_only_bind; [apply IH|]. intros ys. apply page_only_ret.
Qed.

Lemma page_only_highlight e q t : page_only (highlight e q t).
Proof.
  unfold highlight. destruct (_ || _); [apply page_only_ret|].
  destruct (regexp_mark e q t); [apply page_only_ret | apply page_only_throw].
Qed.

Create HintDb page_only.
#[local] Hint Resolve page_only_ret page_only_throw page_only_get page_only_deref
  page_only_getElementById page_only_document page_only_lastSearchResults
  page_only_update_element page_only_showStatus page_only_highlight
  page_only_json : page_only.

Ltac page_only :=
  repeat first
    [ solve [auto with page_only]
    | apply page_only_bind; [|intros ?]
    | apply page_only_try_catch; [|intros ?]
    | apply page_only_if
    | apply page_only_mapM; intros ? ].

Lemma page_only_search_company_card e q ds c : page_only (search_company_card e q ds c).
Proof. unfold search_company_card. page_only. Qed.

Lemma page_only_search_dataset_card e q n ds : page_only (search_dataset_card e q n ds).
Proof. unfold search_dataset_card. page_only. Qed.

Lemma page_only_renderSearchResults data q : page_only (renderSearchResults data q).
Proof. unfold renderSearchResults. page_only. Qed.

Lemma showStatus_returns id msg ty w : fst (showStatus id msg ty w) = Ok tt.
Proof.
  unfold showStatus, bind, getElementById. cbn.
  destruct (document w !! id); [|reflexivity].
  destruct (String.eqb msg ""); reflexivity.
Qed.

Lemma try_catch_get {A} (k : World -> M A) h w :
  try_catch (bind get k) h w = try_catch (k w) h w.
Proof. reflexivity. Qed.

(** A guarded request: the log grows by the request, whatever comes back. *)
Lemma try_fetch_effects {A B} req (net : fetch_outcome A) (k : response A -> M B) h w :
  (forall r, page_only (k r)) -> (forall e, page_only (h e)) ->
  same_outside_page (with_requests (fun l => l ++ [req]) w)
    (snd (try_catch (bind (fetch req net) k) h w)).
Proof.
  intros Hk Hh. unfold try_catch, bind, fetch, modify. cbn.
  destruct net as [e|res]; cbn.
  - apply Hh.
  - pose proof (Hk res (with_requests (fun l => l ++ [req]) w)) as H.
    destruct (k res _) as [[b|e] w1]; cbn in *; [done|].
    eapply same_outside_trans; [exact H | apply Hh].
Qed.

(** [executeSearch] issues its one request only when the query has two
    characters or more, and never touches the timers. *)
Lemma executeSearch_effects query net w :
  let w' := run (executeSearch query net) w in
  env w' = env w /\ timers w' = timers w /\ next_timer w' = next_timer w /\
  now w' = now w /\ searchTimeout w' = searchTimeout w /\
  requests w' = requests w ++
    (if (String.length query <? 2)%nat then [] else [search_request w query]).
Proof.
  intros w'. subst w'. unfold executeSearch.
  destruct (String.length query <? 2)%nat.
  - destruct (page_only_showStatus "searchStatus" "Enter at least 2 characters" "error" w)
      as (? & ? & ? & ? & ? & ?).
    unfold run. rewrite app_nil_r. done.
  - rewrite run_bind.
    pose proof (page_only_showStatus "searchStatus"
      "<span class='loading'></span> Searching across all datasets..." "info" w) as H0.
    pose proof (showStatus_returns "searchStatus"
      "<span class='loading'></span> Searching across all datasets..." "info" w) as H1.
    destruct (showStatus _ _ _ w) as [o w0]; cbn in H0, H1 |- *. subst o.
    unfold run. rewrite try_catch_get.
    match goal with |- context [try_catch (bind (fetch ?req net) ?k) ?h w0] =>
      pose proof (try_fetch_effects req net k h w0) as H2 end.
    destruct H0 as (He & Ht & Hn & Hnow & Hr & Hs).
    destruct H2 as (He2 & Ht2 & Hn2 & Hnow2 & Hr2 & Hs2).
    { intros r. page_only. }
    { intros e. page_only. }
    cbn in He2, Ht2, Hn2, Hnow2, Hr2, Hs2.
    unfold search_request.
    repeat split; congruence.
Qed.

(** ** The debounce of the search box *)

Lemma advance_idle srv fuel limit w :
  fire_next srv limit w = None ->
  advance srv fuel limit w = Some (with_now (Z.max (now w) limit) w).
Proof. intros H. destruct fuel; cbn; rewrite H; reflexivity. Qed.

Lemma debouncing_idle srv w0 t w :
  debouncing w0 w -> t < now w0 + 300 -> fire_next srv t w = None.
Proof.
  intros (_ & _ & _ & _ & [Ht | (tm & Ht & _ & Hdue)]) Hlt; unfold fire_next; rewrite Ht; cbn.
  - reflexivity.
  - destruct (Z.leb_spec (due tm) t); [lia | reflexivity].
Qed.

Lemma length_lt_1 s : (String.length s <? 1)%nat = true <-> s = "".
Proof. destruct s; cbn; split; intros H; done. Qed.

(** The effect of [globalSearch] once the box holds [text]. *)
Lemma globalSearch_blank w box :
  document w !! "searchQuery" = Some box ->
  Js.trim (value_string box) = "" ->
  same_outside_page w (run globalSearch w) /\
  forall ids, on_page w ids = true -> on_page (run globalSearch w) ids = true.
Proof.
  intros Hbox Hq. unfold globalSearch, run, bind, getElementById, deref, ret. cbn.
  rewrite Hbox. cbn. rewrite Hq. cbn.
  destruct (document w !! "searchStatus") as [st|] eqn:Hst; cbn;
    rewrite ?lookup_insert_ne by done;
    destruct (document w !! "searchResults") as [sr|] eqn:Hsr; cbn;
    (split;
     [ by repeat split
     | intros ids H; eapply on_page_same; [|exact H]; intros id Hid; cbn;
       repeat apply is_Some_insert; done ]).
Qed.

Lemma globalSearch_schedules w box :
  document w !! "searchQuery" = Some box ->
  Js.trim (value_string box) <> "" ->
  run globalSearch w =
  with_searchTimeout (Some (next_timer w))
    (with_next_timer (S (next_timer w))
       (with_timers
          (fun l => filter (fun t => Some (timer_id t) <> searchTimeout w) l
                    ++ [{| timer_id := next_timer w; due := now w + 300;
                           action := ExecuteSearch (Js.trim (value_string box)) |}]) w)).
Proof.
  intros Hbox Hq. unfold globalSearch. unfold_M. cbn. rewrite Hbox. cbn.
  destruct (Js.trim (value_string box)) as [|c q] eqn:Hl; [done|].
  reflexivity.
Qed.

Lemma update_element_present id f w e :
  document w !! id = Some e ->
  update_element id f w = (Ok tt, with_document (insert id (f e)) w).
Proof. intros H. unfold update_element. unfold_M. cbn. rewrite H. reflexivity. Qed.

Ltac world_simpl :=
  cbn [env document radios nodes timers next_timer now requests downloads
       currentDatasetFile enrichmentJobId searchTimeout lastSearchResults
       with_document with_nodes with_timers with_requests with_downloads
       with_next_timer with_now with_currentDatasetFile with_enrichmentJobId
       with_searchTimeout with_lastSearchResults] in *.

Lemma input_event_step srv fuel w0 t text w :
  debouncing w0 w -> t < now w0 + 300 ->
  exists w', input_event srv fuel t text w = Some w' /\ debouncing w0 w' /\
    (Js.trim text <> "" -> scheduled_search (Js.trim text) w').
Proof.
  intros Hd Hlt. unfold input_event.
  rewrite advance_idle by (eapply debouncing_idle; eassumption).
  destruct Hd as (Hpage & Hreq & Henv & Hnow & Htimers).
  pose proof Hpage as Hp. unfold search_ids in Hp. page Hp.
  set (w1 := with_now (Z.max (now w) t) w).
  eexists. split; [reflexivity|].
  rewrite run_bind, (update_element_present _ _ w1 el) by exact Hel.
  set (w2 := with_document (insert "searchQuery" (set_value (VStr text) el)) w1).
  assert (Hbox : document w2 !! "searchQuery" = Some (set_value (VStr text) el))
    by (cbn; apply lookup_insert_eq).
  assert (Hpage2 : on_page w2 search_ids = true).
  { eapply on_page_same; [|exact Hpage]. intros id H. cbn. by apply is_Some_insert. }
  destruct (decide (Js.trim text = "")) as [Hq | Hq].
  - destruct (globalSearch_blank w2 _ Hbox Hq) as [(He & Ht & Hn & Hno & Hr & Hs) Hon].
    split; [|done].
    split; [by apply Hon|]. split; [cbn in Hr; congruence|].
    split; [cbn in He; congruence|].
    split; [cbn in Hno; lia|].
    rewrite Ht, Hs. exact Htimers.
  - rewrite (globalSearch_schedules w2 _ Hbox Hq).
    unfold debouncing, scheduled_search. subst w2 w1. world_simpl.
    assert (Hclear : filter (fun tm => Some (timer_id tm) <> searchTimeout w) (timers w) = []).
    { destruct Htimers as [-> | (tm & -> & -> & _)]; [reflexivity|].
      cbn. rewrite decide_False by (intros H; apply H; reflexivity). reflexivity. }
    rewrite Hclear. cbn [app].
    split.
    + split; [exact Hpage2|]. split; [done|]. split; [done|]. split; [lia|].
      right. eexists. split; [reflexivity|]. cbn. split; [reflexivity|lia].
    + intros _. eexists. split; [reflexivity|]. done.
Qed.

Lemma input_burst_app srv fuel evs1 evs2 w :
  input_burst srv fuel (evs1 ++ evs2) w
  = match input_burst srv fuel evs1 w with
    | Some w' => input_burst srv fuel evs2 w'
    | None => None
    end.
Proof.
  revert w. induction evs1 as [|[t s] evs1 IH]; intros w; cbn; [reflexivity|].
  destruct (input_event srv fuel t s w); [apply IH | reflexivity].
Qed.

Lemma input_burst_debouncing srv fuel w0 events w :
  debouncing w0 w ->
  Forall (fun ev => fst ev < now w0 + 300) events ->
  exists w', input_burst srv fuel events w = Some w' /\ debouncing w0 w'.
Proof.
  intros Hd Hall. revert w Hd.
  induction Hall as [|[t s] events Ht _ IH]; intros w Hd; cbn.
  - eauto.
  - destruct (input_event_step srv fuel w0 t s w Hd Ht) as (w1 & -> & Hd1 & _).
    apply IH. exact Hd1.
Qed.

(** The scheduled search runs once the window has passed, and the page is
    quiet again. *)
Lemma scheduled_search_fires srv fuel limit query w :
  scheduled_search query w -> now w + 300 <= limit ->
  exists w', advance srv (S fuel) limit w = Some w' /\ timers w' = [] /\
    requests w' = requests w ++
      (if (String.length query <? 2)%nat then [] else [search_request w query]) /\
    forall st, (String.length query <? 2)%nat = true ->
      document w !! "searchStatus" = Some st ->
      status_box w' "searchStatus"
        = Some ("status-box error", [Src "Enter at least 2 characters"], "block").
Proof.
  intros (t & Ht & Hact & Hdue) Hlim.
  cbn [advance]. rewrite (fire_next_single _ _ _ _ Ht).
  replace (due t <=? limit) with true by (symmetry; apply Z.leb_le; lia).
  rewrite Hact.
  set (w1 := with_now (Z.max (now w) (due t)) (with_timers (fun _ => []) w)).
  assert (Hrun : run (run_callback srv (ExecuteSearch query)) w1
                 = run (executeSearch query (search_api srv (length (requests w1)) query)) w1).
  { unfold run_callback. rewrite run_bind. reflexivity. }
  rewrite Hrun.
  set (net := search_api srv (length (requests w1)) query).
  destruct (executeSearch_effects query net w1) as (He & Htm & Hn & Hnow & Hs & Hr).
  set (w2 := run (executeSearch query net) w1) in *.
  assert (Hidle : fire_next srv limit w2 = None).
  { unfold fire_next. rewrite Htm. reflexivity. }
  rewrite advance_idle by exact Hidle.
  eexists. split; [reflexivity|]. world_simpl.
  split; [rewrite Htm; reflexivity|].
  split; [rewrite Hr; reflexivity|].
  intros st Hlen Hst. subst w2. unfold status_box, executeSearch. rewrite Hlen.
  unfold run, showStatus, bind, getElementById. cbn. rewrite Hst. cbn.
  rewrite lookup_insert_eq. reflexivity.
Qed.


(** ** The region filters *)

Lemma uniq_from_spec seen l :
  NoDup (Js.uniq_from seen l) /\
  forall x, x ∈ Js.uniq_from seen l <-> x ∈ l /\ x ∉ seen.
Proof.
  revert seen. induction l as [|a l IH]; intros seen; cbn.
  - split; [constructor|]. intros x. rewrite elem_of_nil. tauto.
  - case_bool_decide as Ha.
    + destruct (IH seen) as [Hnd Hmem]. split; [done|].
      intros x. rewrite Hmem, elem_of_cons. split; [tauto|].
      intros [[-> | Hx] Hns]; [done | tauto].
    + destruct (IH (a :: seen)) as [Hnd Hmem]. split.
      * constructor; [|done]. rewrite Hmem, elem_of_cons. tauto.
      * intros x. rewrite !elem_of_cons, Hmem, elem_of_cons.
        destruct (decide (x = a)) as [->|Hne]; tauto.
Qed.

Lemma Set_values_spec l :
  NoDup (Js.Set_values l) /\ forall x, x ∈ Js.Set_values l <-> x ∈ l.
Proof.
  destruct (uniq_from_spec [] l) as [Hnd Hmem]. split; [done|].
  intros x. unfold Js.Set_values. rewrite Hmem, elem_of_nil. tauto.
Qed.

Lemma allCounties_of_spec selected c :
  c ∈ allCounties_of selected <->
  exists region counties,
    region ∈ selected /\ ENGLAND_REGIONS !! region = Some counties /\ c ∈ counties.
Proof.
  unfold allCounties_of. rewrite list_elem_of_In, in_flat_map. split.
  - intros (region & Hin & Hc). destruct (ENGLAND_REGIONS !! region) as [counties|] eqn:Hr.
    + exists region, counties. rewrite !list_elem_of_In. done.
    + destruct Hc.
  - intros (region & counties & Hin & Hr & Hc). exists region.
    rewrite Hr, <- !list_elem_of_In. done.
Qed.

Lemma selected_deselect opts :
  filter (fun o => opt_selected o = true) (map deselect opts) = [].
Proof. induction opts as [|o opts IH]; cbn; [done|]. exact IH. Qed.

Lemma region_filter_run comparison w sel cnt :
  document w !! filter_select comparison = Some sel ->
  document w !! filter_input comparison = Some cnt ->
  run (on_change comparison) w =
  with_document
    (insert (filter_input comparison)
       (set_value (VStr (match selectedRegions_of sel with
                         | [] => ""
                         | regions => Js.join ", " (Js.Set_values (allCounties_of regions))
                         end)) cnt)) w.
Proof.
  intros Hsel Hcnt.
  destruct comparison; cbn in Hsel, Hcnt |- *;
    unfold onRegionChange, onComparisonRegionChange; unfold_M; cbn;
    rewrite Hsel; cbn; destruct (selectedRegions_of sel); cbn; rewrite Hcnt; reflexivity.
Qed.

Lemma clear_filter_run comparison w sel cnt :
  document w !! filter_select comparison = Some sel ->
  document w !! filter_input comparison = Some cnt ->
  (comparison = true -> is_Some (document w !! "comparisonSicCodes")) ->
  let w' := run (clear_filter comparison) w in
  input_value w' (filter_input comparison) = Some (VStr "") /\
  selection w' (filter_select comparison) = Some [] /\
  input_value (run (on_change comparison) w') (filter_input comparison) = Some (VStr "").
Proof.
  intros Hsel Hcnt Hsic w'. subst w'.
  destruct comparison; cbn in Hsel, Hcnt |- *.
  - destruct (Hsic eq_refl) as [sic Hs].
    assert (Hrun : run clearComparisonFilters w =
      with_document (fun d =>
        <["comparisonRegionFilter" := set_options (map deselect (options sel)) sel]>
        (<["comparisonCounties" := set_value (VStr "") cnt]>
        (<["comparisonSicCodes" := set_value (VStr "") sic]> d))) w).
    { unfold clearComparisonFilters. unfold_M. look. reflexivity. }
    rewrite Hrun.
    erewrite (region_filter_run true); [|cbn; look; reflexivity|cbn; look; reflexivity].
    unfold input_value, selection. look.
    unfold selectedRegions_of. cbn. rewrite selected_deselect. look. done.
  - assert (Hrun : run clearRegionFilter w =
      with_document (fun d =>
        <["counties" := set_value (VStr "") cnt]>
        (<["regionFilter" := set_options (map deselect (options sel)) sel]> d)) w).
    { unfold clearRegionFilter. unfold_M. look. reflexivity. }
    rewrite Hrun.
    erewrite (region_filter_run false); [|cbn; look; reflexivity|cbn; look; reflexivity].
    unfold input_value, selection. look.
    unfold selectedRegions_of. cbn. rewrite selected_deselect. look. done.
Qed.


(** *** Integer literals print and read back *)

Lemma append_cons c s t : String c s +:+ t = String c (s +:+ t).
Proof. reflexivity. Qed.

Lemma append_nil t : "" +:+ t = t.
Proof. reflexivity. Qed.

Lemma split_at_free c s rest :
  free_of c s = true -> split_at c (s +:+ String c rest) = Some (s, rest).
Proof.
  induction s as [|a s IH]; intros H.
  - rewrite append_nil. cbn. by rewrite Ascii.eqb_refl.
  - rewrite append_cons. cbn in H |- *. apply andb_prop in H as [Ha Hs].
    destruct (Ascii.eqb a c); [discriminate|]. by rewrite IH.
Qed.

Lemma uint_free_of_paren d : free_of ")" (NilEmpty.string_of_uint d) = true.
Proof. induction d; cbn; done. Qed.

Lemma Number_free_of_paren n : free_of ")" (Js.Number_toString n) = true.
Proof.
  unfold Js.Number_toString, NilZero.string_of_int, NilZero.string_of_uint.
  destruct (Z.to_int n) as [d|d]; destruct d; cbn; try done; apply uint_free_of_paren.
Qed.

Lemma split_at_Number n rest :
  split_at ")" (Js.Number_toString n +:+ String ")" rest)
  = Some (Js.Number_toString n, rest).
Proof. apply split_at_free, Number_free_of_paren. Qed.

Lemma read_literal_Number n : Js.read_literal (Js.Number_toString n) = Some n.
Proof.
  unfold Js.read_literal, Js.Number_toString.
  rewrite NilZero.isi.
  - cbn. by rewrite DecimalZ.of_to.
  - destruct n; cbn; [discriminate| |discriminate].
    intros [= H]. by apply Unsigned.to_uint_nonnil in H.
  - destruct n; cbn; [discriminate|discriminate|].
    intros [= H]. by apply Unsigned.to_uint_nonnil in H.
Qed.

Lemma strip_prefix_append p s : strip_prefix p (p +:+ s) = Some s.
Proof.
  induction p as [|a p IH]; [by destruct s|].
  rewrite append_cons. cbn. by rewrite Ascii.eqb_refl.
Qed.

Lemma eval_call_viewDataset n :
  eval_call ("viewDataset(" +:+ Js.Number_toString n +:+ ")") = Some (Call_viewDataset n).
Proof.
  unfold eval_call. rewrite strip_prefix_append, split_at_Number, read_literal_Number.
  reflexivity.
Qed.

Lemma eval_onclick_viewDataset n :
  eval_onclick ("viewDataset(" +:+ Js.Number_toString n +:+ ")")
  = Some (false, Call_viewDataset n).
Proof. unfold eval_onclick. cbn - [eval_call]. by rewrite eval_call_viewDataset. Qed.

Lemma eval_onclick_view_button n :
  eval_onclick ("event.stopPropagation(); viewDataset(" +:+ Js.Number_toString n +:+ ")")
  = Some (true, Call_viewDataset n).
Proof.
  unfold eval_onclick.
  change ("event.stopPropagation(); viewDataset(" +:+ Js.Number_toString n +:+ ")")
    with ("event.stopPropagation(); " +:+ "viewDataset(" +:+ Js.Number_toString n +:+ ")").
  by rewrite strip_prefix_append, eval_call_viewDataset.
Qed.

(** ** The list of saved datasets *)

Lemma eqb_append_cons c s t : String.eqb (String c s +:+ t) "" = false.
Proof. reflexivity. Qed.

Lemma loadDatasets_loaded w res data container :
  ok res = true -> body res = Some data -> dl_success data = true ->
  document w !! "datasetsList" = Some container ->
  list_items (run (loadDatasets (Resolved res)) w)
  = Some (let datasets := default [] (dl_datasets data) in
          if decide (datasets = []) then [Node "p" [] [Src "No datasets saved yet."]]
          else dataset_item (env w) <$> datasets).
Proof.
  intros Hok Hbody Hs Hc. unfold loadDatasets, list_items. unfold_M. cbn.
  destruct (document w !! "datasetsStatus") as [st|] eqn:Hst; cbn;
    rewrite ?eqb_append_cons; cbn;
    rewrite Hok, Hbody; cbn; rewrite Hs; cbn; look;
    destruct (dl_datasets data) as [[|ds l]|]; look; reflexivity.
Qed.


(** ** Reading the rendered table back *)

Lemma select_cells tag ids : flat_map (select tag) (map Cell ids) = [].
Proof. induction ids; cbn; done. Qed.

Lemma html_cells_cells ids : flat_map html_cells (map Cell ids) = ids.
Proof. induction ids as [|n ids IH]; cbn; [done|]. by rewrite IH. Qed.

Lemma select_node tag t attrs kids :
  select tag (Node t attrs kids)
  = (if String.eqb t tag then [Node t attrs kids] else []) ++ flat_map (select tag) kids.
Proof. reflexivity. Qed.

Lemma select_tr_rows (f : nat -> list nat) l :
  flat_map (select "tr") (map (fun i => Node "tr" [] (map Cell (f i))) l)
  = map (fun i => Node "tr" [] (map Cell (f i))) l.
Proof.
  induction l as [|i l IH]; [done|].
  cbn [map flat_map]. rewrite IH. cbn. by rewrite select_cells.
Qed.

Lemma select_rows_none tag (f : nat -> list nat) l :
  String.eqb "tr" tag = false ->
  flat_map (select tag) (map (fun i => Node "tr" [] (map Cell (f i))) l) = [].
Proof.
  intros Ht. induction l as [|i l IH]; [done|].
  cbn [map flat_map]. rewrite IH, select_node, Ht, select_cells. reflexivity.
Qed.

Ltac eval_tags :=
  repeat match goal with
  | |- context [String.eqb ?a ?b] =>
      let r := eval vm_compute in (String.eqb a b) in
      change (String.eqb a b) with r
  end.

Lemma select_footer tag total :
  String.eqb "p" tag = false ->
  flat_map (select tag)
    (if (50 <? total)%nat
     then [Node "p" [] [Src ("Showing 50 of " +:+ Js.Number_toString (Z.of_nat total) +:+ " companies")]]
     else []) = [].
Proof.
  intros H. destruct (50 <? total)%nat; [|reflexivity].
  cbn [flat_map]. rewrite select_node, H. reflexivity.
Qed.

Lemma select_header tag :
  String.eqb "tr" tag = false -> String.eqb "th" tag = false ->
  select tag (Node "tr" [] (map (fun col : string * string * bool =>
                                   Node "th" [] [Src (snd (fst col))]) columns)) = [].
Proof.
  intros H1 H2. rewrite select_node, H1. cbn [app].
  induction columns as [|c l IH]; [reflexivity|].
  cbn [map flat_map]. rewrite IH, select_node, H2. reflexivity.
Qed.

Lemma table_rows_companies_table datasetId base rows total :
  table_rows (companies_table datasetId base rows total)
  = map (row_nodes base) (seq 0 rows).
Proof.
  unfold table_rows, companies_table.
  cbn [flat_map]. rewrite !select_node. cbn [flat_map]. rewrite !select_node.
  cbn [flat_map]. rewrite !select_node.
  eval_tags. cbn [app flat_map]. rewrite (select_header "tbody") by reflexivity.
  rewrite (select_rows_none "tbody"), (select_footer "tbody") by reflexivity.
  cbn [app flat_map]. rewrite select_node. eval_tags. cbn [app].
  rewrite select_tr_rows, !app_nil_r, map_map.
  apply map_ext. intros i. cbn [html_cells]. by rewrite html_cells_cells.
Qed.

Lemma footer_texts_companies_table datasetId base rows total :
  footer_texts (companies_table datasetId base rows total)
  = if (50 <? total)%nat
    then ["Showing 50 of " +:+ Js.Number_toString (Z.of_nat total) +:+ " companies"]
    else [].
Proof.
  unfold footer_texts, companies_table.
  cbn [flat_map]. rewrite !select_node. cbn [flat_map]. rewrite !select_node.
  cbn [flat_map]. rewrite !select_node.
  eval_tags. cbn [app flat_map]. rewrite (select_header "p") by reflexivity.
  rewrite (select_rows_none "p") by reflexivity. cbn [app].
  destruct (50 <? total)%nat; [|reflexivity].
  cbn [flat_map]. rewrite select_node. eval_tags. reflexivity.
Qed.

Lemma foldr_alter_view {B} (g : cell -> B) (f : cell -> cell) ids (l : list cell) n :
  (forall c, g (f c) = g c) ->
  g <$> foldr (alter f) l ids !! n = g <$> l !! n.
Proof.
  intros Hg. induction ids as [|i ids IH]; [reflexivity|]. cbn [foldr].
  destruct (decide (i = n)) as [->|Hne].
  - rewrite list_lookup_alter_eq, <- IH.
    destruct (foldr (alter f) l ids !! n); cbn; [by rewrite Hg | reflexivity].
  - by rewrite list_lookup_alter_ne.
Qed.

Lemma flat_map_lookup {A B} (f : A -> list B) k (l : list A) i x j :
  (forall y, length (f y) = k) -> l !! i = Some x -> (j < k)%nat ->
  flat_map f l !! (i * k + j)%nat = f x !! j.
Proof.
  intros Hk. revert i. induction l as [|a l IH]; intros i Hi Hj; [done|].
  cbn [flat_map]. destruct i as [|i]; cbn in Hi.
  - injection Hi as ->. cbn. apply lookup_app_l. by rewrite Hk.
  - rewrite lookup_app_r by (rewrite Hk; lia). rewrite Hk.
    replace (S i * k + j - k)%nat with (i * k + j)%nat by lia. by apply IH.
Qed.

Lemma render_row_lookup c j col :
  columns !! j = Some col -> render_row c !! j = Some (render_cell c col).
Proof.
  intros H. unfold render_row.
  change (map (render_cell c) columns) with (render_cell c <$> columns).
  by rewrite list_lookup_fmap, H.
Qed.

Lemma enable_cell_view datasetId c :
  (fun c => (field c, innerText c)) (enable_cell datasetId c) = (field c, innerText c).
Proof. unfold enable_cell. by destruct (editable c). Qed.

Lemma renderCompaniesTable_run containerId cs datasetId w container :
  document w !! containerId = Some container -> cs <> [] ->
  let shown := take 50 cs in
  let w2 := with_document
              (insert containerId
                 (set_innerHTML (companies_table datasetId (length (nodes w))
                                   (length shown) (length cs)) container))
              (with_nodes (fun l => l ++ flat_map render_row shown) w) in
  run (renderCompaniesTable containerId (Some cs) datasetId) w
  = with_nodes (fun l => foldr (alter (enable_cell datasetId)) l (attached_cells w2)) w2.
Proof.
  intros Hc Hne shown w2. unfold renderCompaniesTable, enableInlineEditing. unfold_M.
  cbn. rewrite Hc. destruct cs as [|c cs]; [done|]. cbn. rewrite Hc. reflexivity.
Qed.


(** ** A page to run the scripts on *)

Ltac cell_look :=
  repeat first
    [ rewrite list_lookup_alter_eq
    | match goal with H : nodes _ !! _ = Some _ |- _ => rewrite H end ];
  cbn.

Lemma elem_of_classList_add c l : c ∈ classList_add c l.
Proof.
  unfold classList_add. case_bool_decide; [done|]. apply elem_of_app. right. by left.
Qed.

Lemma not_elem_of_classList_remove c l : c ∉ classList_remove c l.
Proof. unfold classList_remove. intros H%list_elem_of_filter. by destruct H. Qed.

Lemma saveCell_failure node datasetId net w c :
  nodes w !! node = Some c -> save_failed net = true ->
  let w' := run (saveCell node datasetId net) w in
  cell_text w' node = Some (Js.or_else (originalValue c) (innerText c)) /\
  cell_original w' node = Some (originalValue c) /\
  (exists classes, cell_classes w' node = Some classes /\ "error" ∈ classes) /\
  timers w' = timers w ++ [{| timer_id := next_timer w; due := now w + 3000;
                              action := ClearError node |}] /\
  (exists classes, cell_classes (run (clear_error node) w') node = Some classes /\
                   "error" ∉ classes).
Proof.
  intros Hc Hf w'. subst w'.
  assert (Hrun : run (saveCell node datasetId net) w =
    with_next_timer (S (next_timer w))
      (with_timers (fun l => l ++ [{| timer_id := next_timer w; due := now w + 3000;
                                      action := ClearError node |}])
         (with_nodes (fun l =>
            alter (set_classList (classList_add "error")) node
              (alter (set_classList (classList_remove "editing")) node
                 (alter (set_background "#f8d7da") node
                    (alter (set_innerText (Js.or_else (originalValue c) (innerText c))) node
                       (alter (set_classList (classList_add "editing")) node
                          (alter (set_background "#fff3cd") node l))))))
            (with_requests (fun l => l ++ [{| method := "PATCH";
                 url := API_BASE (env w) +:+ "/api/companies/" +:+ companyId c;
                 payload := [(field c, Js.trim (innerText c))] |}]) w)))).
  { unfold saveCell, the_cell, with_cell. unfold_M. cbn. rewrite Hc. cbn.
    destruct net as [e|res]; cbn in Hf |- *; [reflexivity|].
    destruct (ok res); cbn in Hf |- *; [|reflexivity].
    destruct (body res) as [data|]; cbn in Hf |- *; [|reflexivity].
    destruct (save_success data); [discriminate|reflexivity]. }
  rewrite Hrun. unfold cell_text, cell_original, cell_classes, clear_error, with_cell.
  unfold_M. cbn. cell_look.
  split; [done|]. split; [done|]. split.
  - eexists. split; [reflexivity|]. apply elem_of_classList_add.
  - split; [done|]. eexists. split; [reflexivity|]. apply not_elem_of_classList_remove.
Qed.

Lemma saveCell_success node datasetId res data w c :
  nodes w !! node = Some c ->
  ok res = true -> body res = Some data -> save_success data = true ->
  let w' := run (saveCell node datasetId (Resolved res)) w in
  cell_text w' node = Some (innerText c) /\
  cell_original w' node = Some (Some (Js.trim (innerText c))).
Proof.
  intros Hc Hok Hbody Hs w'. subst w'.
  unfold saveCell, the_cell, with_cell, cell_text, cell_original. unfold_M. cbn.
  rewrite Hc. cbn. rewrite Hok. cbn. rewrite Hbody. cbn. rewrite Hs. cbn.
  cell_look. done.
Qed.

(** A failed save puts a non-empty stored value back. *)
Lemma saveCell_restores node datasetId net w c v :
  nodes w !! node = Some c -> save_failed net = true ->
  originalValue c = Some v -> v <> "" ->
  cell_text (run (saveCell node datasetId net) w) node = Some v.
Proof.
  intros Hc Hf Ho Hv.
  destruct (saveCell_failure node datasetId net w c Hc Hf) as (-> & _).
  rewrite Ho. cbn. destruct (String.eqb_spec v ""); done.
Qed.

(** With the empty string stored, the text the user typed stays. *)
Lemma saveCell_keeps_edit node datasetId net w c :
  nodes w !! node = Some c -> save_failed net = true ->
  originalValue c = Some "" ->
  cell_text (run (saveCell node datasetId net) w) node = Some (innerText c).
Proof.
  intros Hc Hf Ho.
  destruct (saveCell_failure node datasetId net w c Hc Hf) as (-> & _).
  by rewrite Ho.
Qed.

Lemma save_failed_false net :
  save_failed net = false ->
  exists res data, net = Resolved res /\ ok res = true /\ body res = Some data /\
                   save_success data = true.
Proof.
  destruct net as [e|res]; cbn; [discriminate|].
  destruct (ok res) eqn:Hok; cbn; [|discriminate].
  destruct (body res) as [data|] eqn:Hb; [|discriminate].
  destruct (save_success data) eqn:Hs; [|discriminate]. eauto 10.
Qed.

(** The stored value follows the acknowledgements of the server. *)
Lemma originalValue_last_acknowledged node datasetId edits w c initial :
  nodes w !! node = Some c -> originalValue c = Some initial ->
  cell_original (foldl (fun w e => apply_edit node datasetId e w) w edits) node
  = Some (Some (last_acknowledged initial edits)).
Proof.
  revert w c initial. induction edits as [|[text net] edits IH]; intros w c initial Hc Ho.
  - cbn. unfold cell_original. by rewrite Hc, <- Ho.
  - cbn [foldl last_acknowledged]. unfold apply_edit at 2. cbn [fst snd].
    set (w1 := type_into node text w).
    assert (Hc1 : nodes w1 !! node = Some (set_innerText text c)).
    { subst w1. unfold type_into. cbn. by rewrite list_lookup_alter_eq, Hc. }
    destruct (save_failed net) eqn:Hf.
    + destruct (saveCell_failure node datasetId net w1 _ Hc1 Hf) as (_ & Horig & _).
      unfold cell_original in Horig.
      destruct (nodes (run (saveCell node datasetId net) w1) !! node) as [c2|] eqn:Hc2;
        [|discriminate].
      eapply IH; [exact Hc2|]. cbn in Horig. congruence.
    + destruct (save_failed_false net Hf) as (res & data & -> & Hok & Hb & Hs).
      destruct (saveCell_success node datasetId res data w1 _ Hc1 Hok Hb Hs) as (_ & Horig).
      unfold cell_original in Horig.
      destruct (nodes (run (saveCell node datasetId (Resolved res)) w1) !! node) as [c2|] eqn:Hc2;
        [|discriminate].
      eapply IH; [exact Hc2|]. cbn - [Js.trim] in Horig. congruence.
Qed.

(** ** Letter generation *)

Lemma showLetterStatus_requests message type w :
  requests (run (showLetterStatus message type) w) = requests w.
Proof.
  unfold showLetterStatus. unfold_M. cbn.
  destruct (document w !! "letterStatus") as [st|] eqn:Hst; [|reflexivity].
  destruct (String.eqb message ""); cbn; rewrite ?Hst; cbn; [reflexivity|].
  rewrite lookup_insert_eq. cbn.
  destruct (String.eqb type "success" || String.eqb type "error"); reflexivity.
Qed.

Lemma showLetterStatus_error message w st :
  document w !! "letterStatus" = Some st -> message <> "" ->
  letter_status (run (showLetterStatus message "error") w) = Some (letter_error message).
Proof.
  intros Hst Hm. unfold showLetterStatus, letter_status, letter_error. unfold_M. cbn.
  rewrite Hst. destruct (String.eqb_spec message ""); [done|]. cbn. rewrite Hst. cbn.
  look. reflexivity.
Qed.

Lemma generateLetters_without_template net w :
  selected_template w = None ->
  requests (run (generateLetters net) w) = requests w.
Proof.
  intros Ht. unfold selected_template in Ht.
  unfold generateLetters. rewrite run_bind. cbn [get].
  destruct (radios w !! "dataSource") as [source|]; [|apply showLetterStatus_requests].
  destruct (String.eqb source "upload").
  - unfold generateFromUpload. rewrite run_bind. cbn [getElementById].
    destruct (document w !! "letterFileUpload") as [fu|]; [|reflexivity].
    rewrite run_bind. cbn [deref ret].
    destruct (files fu) as [|f fs]; [apply showLetterStatus_requests|].
    rewrite run_bind. cbn [getElementById].
    destruct (document w !! "templateFileUpload") as [tu|]; [|reflexivity].
    rewrite run_bind. cbn [deref ret]. cbn in Ht.
    destruct (files tu) as [|t ts]; [apply showLetterStatus_requests|discriminate].
  - unfold generateFromDataset. rewrite run_bind. cbn [getElementById].
    destruct (document w !! "datasetSelect") as [ds|]; [|apply showLetterStatus_requests].
    destruct (String.eqb (value_string ds) ""); [apply showLetterStatus_requests|].
    rewrite run_bind. cbn [getElementById].
    destruct (document w !! "templateFileUpload") as [tu|]; [|reflexivity].
    rewrite run_bind. cbn [deref ret]. cbn in Ht.
    destruct (files tu) as [|t ts]; [apply showLetterStatus_requests|discriminate].
Qed.

Lemma generateLetters_template_message net w input st :
  document w !! "templateFileUpload" = Some input -> files input = [] ->
  data_source_supplied w = true ->
  document w !! "letterStatus" = Some st ->
  letter_status (run (generateLetters net) w) = Some (letter_error template_required).
Proof.
  intros Hin Hf Hsup Hst. unfold data_source_supplied in Hsup.
  unfold generateLetters. rewrite run_bind. cbn [get].
  destruct (radios w !! "dataSource") as [source|]; [|discriminate].
  destruct (String.eqb source "upload").
  - unfold generateFromUpload. rewrite run_bind. cbn [getElementById].
    destruct (document w !! "letterFileUpload") as [fu|]; [|discriminate].
    rewrite run_bind. cbn [deref ret].
    destruct (files fu) as [|f fs]; [discriminate|].
    rewrite run_bind. cbn [getElementById]. rewrite Hin.
    rewrite run_bind. cbn [deref ret]. rewrite Hf.
    by eapply showLetterStatus_error.
  - unfold generateFromDataset. rewrite run_bind. cbn [getElementById].
    destruct (document w !! "datasetSelect") as [ds|]; [|discriminate].
    destruct (String.eqb (value_string ds) ""); [discriminate|].
    rewrite run_bind. cbn [getElementById]. rewrite Hin.
    rewrite run_bind. cbn [deref ret]. rewrite Hf.
    by eapply showLetterStatus_error.
Qed.

Lemma generateLetters_data_message net w source st :
  radios w !! "dataSource" = Some source ->
  data_source_supplied w = false ->
  (source = "upload" -> is_Some (document w !! "letterFileUpload")) ->
  document w !! "letterStatus" = Some st ->
  letter_status (run (generateLetters net) w) = Some (letter_error (data_required source)).
Proof.
  intros Hsrc Hsup Hup Hst. unfold data_source_supplied in Hsup. rewrite Hsrc in Hsup.
  unfold generateLetters, data_required. rewrite run_bind. cbn [get]. rewrite Hsrc.
  destruct (String.eqb_spec source "upload") as [->|Hne].
  - destruct (Hup eq_refl) as [fu Hfu]. rewrite Hfu in Hsup.
    unfold generateFromUpload. rewrite run_bind. cbn [getElementById]. rewrite Hfu.
    rewrite run_bind. cbn [deref ret].
    destruct (files fu) as [|f fs].
    + by eapply showLetterStatus_error.
    + rewrite bool_decide_eq_false_2 in Hsup by done. discriminate.
  - unfold generateFromDataset. rewrite run_bind. cbn [getElementById].
    destruct (document w !! "datasetSelect") as [ds|]; [|by eapply showLetterStatus_error].
    destruct (String.eqb (value_string ds) ""); [|discriminate].
    by eapply showLetterStatus_error.
Qed.

Lemma generateLetters_source_message net w st :
  radios w !! "dataSource" = None ->
  document w !! "letterStatus" = Some st ->
  letter_status (run (generateLetters net) w)
  = Some (letter_error "Please select a data source").
Proof.
  intros Hsrc Hst. unfold generateLetters. rewrite run_bind. cbn [get]. rewrite Hsrc.
  by eapply showLetterStatus_error.
Qed.

(** * Further lemmas *)

(** ** The enrichment poll *)

Lemma poll_running_step jobId net w :
  on_page w enrichment_ids = true ->
  still_running net ->
  let w' := run (pollEnrichmentStatus jobId net) w in
  on_page w' enrichment_ids = true /\
  timers w' = timers w ++ [{| timer_id := next_timer w; due := now w + 2000;
                              action := PollEnrichment jobId |}] /\
  length (requests w') = S (length (requests w)) /\
  now w' = now w /\
  exists k, percent_of net = Some k /\ progress_of w' = Some (VNum k).
Proof.
  intros Hpage (res & data & -> & Hbody & Hs1 & Hs2 & Hp & Htot) w'. subst w'.
  destruct (percent_finite (Js.num_or (processed data) 0) (Js.num_or (total data) 1))
    as [k Hk].
  { apply num_or_safe; [done | simpl; lia]. }
  { apply num_or_safe; [done | simpl; lia]. }
  { apply num_or_nonzero; lia. }
  destruct (poll_running_facts jobId res data w k Hpage Hbody Hs1 Hs2 Hk)
    as (Hp1 & Hprog & _ & Htm & Hreq & Hn & _).
  split; [exact Hp1|]. split; [exact Htm|].
  split; [rewrite Hreq, length_app; cbn; lia|]. split; [exact Hn|].
  exists k. split; [|exact Hprog]. cbn. rewrite Hbody. exact Hk.
Qed.

Lemma poll_fires srv jobId w T :
  on_page w enrichment_ids = true ->
  poll_pending jobId T w ->
  still_running (status_api srv (length (requests w)) jobId) ->
  exists w', fire_pending srv w = Some w' /\
    on_page w' enrichment_ids = true /\
    poll_pending jobId (now w' + 2000) w' /\
    length (requests w') = S (length (requests w)) /\
    exists k, percent_of (status_api srv (length (requests w)) jobId) = Some k /\
              progress_of w' = Some (VNum k).
Proof.
  intros Hpage (t & Ht & Hact & Hdue) Hsrv.
  unfold fire_pending. rewrite Ht. cbn [first_due].
  rewrite (fire_next_single srv (due t) w t Ht), Z.leb_refl.
  eexists. split; [reflexivity|].
  rewrite Hact, run_callback_poll.
  set (w0 := with_now (Z.max (now w) (due t)) (with_timers (fun _ => []) w)).
  assert (Hpage0 : on_page w0 enrichment_ids = true) by exact Hpage.
  change (requests w0) with (requests w).
  destruct (poll_running_step jobId _ w0 Hpage0 Hsrv) as (Hp & Htm & Hreq & Hn & Hk).
  split; [exact Hp|]. split.
  { eexists. split; [exact Htm|]. cbn. split; [reflexivity|]. by rewrite Hn. }
  split; [exact Hreq | exact Hk].
Qed.

Lemma polls_go_on srv jobId n : forall w T,
  on_page w enrichment_ids = true ->
  poll_pending jobId T w ->
  (forall i, still_running (status_api srv i jobId)) ->
  exists w', fire_times srv n w = Some w' /\
    on_page w' enrichment_ids = true /\
    (exists T', poll_pending jobId T' w' /\ (n <> O -> T' = now w' + 2000)) /\
    length (requests w') = (length (requests w) + n)%nat /\
    (n <> O ->
     exists k, percent_of (status_api srv (length (requests w) + n - 1) jobId) = Some k /\
               progress_of w' = Some (VNum k)).
Proof.
  induction n as [|n IH]; intros w T Hpage Hpend Hsrv.
  - exists w. split; [reflexivity|]. split; [done|]. split; [by exists T|].
    split; [lia | done].
  - destruct (poll_fires srv jobId w T Hpage Hpend (Hsrv _))
      as (w1 & Hfire & Hpage1 & Hpend1 & Hreq1 & Hk1).
    destruct (IH w1 _ Hpage1 Hpend1 Hsrv) as (w' & Hrun & Hpage' & (T' & Hpend' & HT') & Hreq' & Hk').
    exists w'. cbn [fire_times]. rewrite Hfire. split; [exact Hrun|]. split; [exact Hpage'|].
    split.
    { destruct n as [|n].
      - cbn in Hrun. injection Hrun as <-. exists (now w1 + 2000). done.
      - exists T'. split; [done|]. intros _. by apply HT'. }
    split; [lia|]. intros _.
    destruct n as [|n].
    + cbn in Hrun. injection Hrun as <-.
      replace (length (requests w) + 1 - 1)%nat with (length (requests w)) by lia.
      exact Hk1.
    + destruct (Hk' ltac:(done)) as (k & Hk & Hprog). exists k. split; [|exact Hprog].
      replace (length (requests w) + S (S n) - 1)%nat
        with (length (requests w1) + S n - 1)%nat by lia.
      exact Hk.
Qed.

(** ** The global search *)

Lemma pending_search_fires srv fuel limit query w t :
  timers w = [t] -> action t = ExecuteSearch query -> due t <= limit ->
  exists w', advance srv (S fuel) limit w = Some w' /\ timers w' = [] /\
    env w' = env w /\
    requests w' = requests w ++
      (if (String.length query <? 2)%nat then [] else [search_request w query]).
Proof.
  intros Ht Hact Hdue.
  cbn [advance]. rewrite (fire_next_single _ _ _ _ Ht).
  replace (due t <=? limit) with true by (symmetry; apply Z.leb_le; lia).
  rewrite Hact.
  set (w0 := with_now (Z.max (now w) (due t)) (with_timers (fun _ => []) w)).
  unfold run_callback. rewrite run_bind. cbn [get].
  destruct (executeSearch_effects query (search_api srv (length (requests w0)) query) w0)
    as (He & Htm & _ & _ & _ & Hr).
  set (w1 := run (executeSearch query _) w0) in *.
  assert (Hidle : fire_next srv limit w1 = None).
  { unfold fire_next. rewrite Htm. reflexivity. }
  rewrite advance_idle by exact Hidle.
  eexists. split; [reflexivity|]. cbn.
  split; [rewrite Htm; reflexivity|]. split; [rewrite He; reflexivity|].
  rewrite Hr. reflexivity.
Qed.

Lemma highlight_rejects e query text w :
  (forall t, regexp_mark e query t = None) -> query <> "" -> text <> "" ->
  highlight e query text w = (Throw SyntaxError, w).
Proof.
  intros Hre Hq Ht. unfold highlight.
  rewrite (proj2 (String.eqb_neq text "")) by done.
  rewrite (proj2 (String.eqb_neq query "")) by done.
  cbn. rewrite Hre. reflexivity.
Qed.

Lemma search_company_card_rejects e query ds c w :
  (forall t, regexp_mark e query t = None) -> query <> "" -> sc_company_number c <> "" ->
  search_company_card e query ds c w = (Throw SyntaxError, w).
Proof.
  intros Hre Hq Hc. unfold search_company_card, bind.
  rewrite highlight_rejects by done. reflexivity.
Qed.

(** A list of computations that leave the world alone, one of which
    throws. *)
Lemma mapM_throws {A B} (f : A -> M B) l x e w :
  (forall a, snd (f a w) = w) ->
  (forall a e', fst (f a w) = Throw e' -> e' = e) ->
  x ∈ l -> f x w = (Throw e, w) ->
  mapM f l w = (Throw e, w).
Proof.
  intros Hsame Hmsg Hin Hx. induction l as [|a l IH]; [by apply elem_of_nil in Hin|].
  cbn. unfold bind.
  pose proof (Hsame a) as Hs. pose proof (Hmsg a) as Hm.
  destruct (f a w) as [[b|e'] w1] eqn:Hfa; cbn in Hs; subst w1.
  - apply elem_of_cons in Hin as [-> | Hin].
    + rewrite Hx in Hfa. discriminate.
    + rewrite (IH Hin). reflexivity.
  - by rewrite (Hm e' eq_refl).
Qed.

Lemma highlight_pure e query text w :
  snd (highlight e query text w) = w /\
  forall e', fst (highlight e query text w) = Throw e' -> e' = SyntaxError.
Proof.
  unfold highlight. destruct (String.eqb text "" || String.eqb query ""); cbn; [done|].
  destruct (regexp_mark e query text); cbn; [done|]. split; [done|]. by intros e' [= <-].
Qed.

Lemma bind_pure {A B} (m : M A) (k : A -> M B) e w :
  (snd (m w) = w /\ forall e', fst (m w) = Throw e' -> e' = e) ->
  (forall a, snd (k a w) = w /\ forall e', fst (k a w) = Throw e' -> e' = e) ->
  snd (bind m k w) = w /\ forall e', fst (bind m k w) = Throw e' -> e' = e.
Proof.
  intros [Hs Hm] Hk. unfold bind. destruct (m w) as [[a|e1] w1]; cbn in *; subst w1.
  - apply Hk.
  - split; [done|]. intros e' [= <-]. by apply Hm.
Qed.

Lemma search_company_card_pure e query ds c w :
  snd (search_company_card e query ds c w) = w /\
  forall e', fst (search_company_card e query ds c w) = Throw e' -> e' = SyntaxError.
Proof.
  unfold search_company_card.
  repeat (apply bind_pure; [apply highlight_pure | intros ?]).
  cbn. done.
Qed.

Lemma mapM_pure {A B} (f : A -> M B) l e w :
  (forall a, snd (f a w) = w /\ forall e', fst (f a w) = Throw e' -> e' = e) ->
  snd (mapM f l w) = w /\ forall e', fst (mapM f l w) = Throw e' -> e' = e.
Proof.
  intros Hf. induction l as [|a l IH]; cbn; [done|].
  apply bind_pure; [apply Hf|]. intros b.
  apply bind_pure; [apply IH|]. intros bs. cbn. done.
Qed.

Lemma search_dataset_card_pure e query n ds w :
  snd (search_dataset_card e query n ds w) = w /\
  forall e', fst (search_dataset_card e query n ds w) = Throw e' -> e' = SyntaxError.
Proof.
  unfold search_dataset_card.
  apply bind_pure; [apply mapM_pure; intros c; apply search_company_card_pure|].
  intros cards. cbn. done.
Qed.

Lemma search_dataset_card_rejects e query n ds cs c w :
  (forall t, regexp_mark e query t = None) -> query <> "" ->
  sd_companies ds = Some cs -> c ∈ cs -> sc_company_number c <> "" ->
  search_dataset_card e query n ds w = (Throw SyntaxError, w).
Proof.
  intros Hre Hq Hcs Hin Hc. unfold search_dataset_card, bind. rewrite Hcs. cbn.
  rewrite (mapM_throws (search_company_card e query ds) cs c SyntaxError w); [done|..].
  - intros a. apply search_company_card_pure.
  - intros a. apply search_company_card_pure.
  - exact Hin.
  - by apply search_company_card_rejects.
Qed.

Lemma renderSearchResults_rejects data query dss ds cs c w :
  query <> "" ->
  sr_datasets data = Some dss -> ds ∈ dss ->
  sd_companies ds = Some cs -> c ∈ cs -> sc_company_number c <> "" ->
  (forall text, regexp_mark (env w) query text = None) ->
  renderSearchResults data query w = (Throw SyntaxError, w).
Proof.
  intros Hq Hdss Hds Hcs Hc Hnum Hre.
  unfold renderSearchResults. unfold bind at 1. cbn [get].
  unfold bind at 1. rewrite Hdss. cbn [default].
  rewrite (mapM_throws _ dss ds SyntaxError w); [reflexivity|..].
  - intros a. apply search_dataset_card_pure.
  - intros a. apply search_dataset_card_pure.
  - exact Hds.
  - eapply search_dataset_card_rejects; eassumption.
Qed.

(** ** Inline editing *)

Lemma elem_of_classList_add_iff x c l : x ∈ classList_add c l <-> x = c \/ x ∈ l.
Proof.
  unfold classList_add. case_bool_decide as H.
  - split; [auto|]. intros [E | ?]; [by rewrite E | done].
  - rewrite elem_of_app, elem_of_cons, elem_of_nil. tauto.
Qed.

Lemma elem_of_classList_remove_iff x c l : x ∈ classList_remove c l <-> x <> c /\ x ∈ l.
Proof. unfold classList_remove. by rewrite list_elem_of_filter. Qed.

(** A class is absent after a chain of [add] and [remove] that ends with
    its removal, or adds other classes after it. *)
Ltac class_absent :=
  let H := fresh in
  intros H;
  repeat first
    [ apply elem_of_classList_remove_iff in H as [? H]; try done
    | apply elem_of_classList_add_iff in H as [? | H]; try done ].

Lemma saveCell_success_run node datasetId res data w c :
  nodes w !! node = Some c ->
  ok res = true -> body res = Some data -> save_success data = true ->
  run (saveCell node datasetId (Resolved res)) w =
  with_next_timer (S (next_timer w))
    (with_timers (fun l => l ++ [{| timer_id := next_timer w; due := now w + 1000;
                                    action := ClearSaved node |}])
       (with_nodes (fun l =>
          alter (set_originalValue (Some (Js.trim (innerText c)))) node
            (alter (set_classList (classList_add "saved")) node
               (alter (set_classList (classList_remove "editing")) node
                  (alter (set_background "#d4edda") node
                     (alter (set_classList (classList_add "editing")) node
                        (alter (set_background "#fff3cd") node l))))))
          (with_requests (fun l => l ++ [save_request w c]) w))).
Proof.
  intros Hc Hok Hbody Hs.
  unfold saveCell, the_cell, with_cell. unfold_M. cbn. rewrite Hc. cbn.
  rewrite Hok. cbn. rewrite Hbody. cbn. rewrite Hs. reflexivity.
Qed.

Lemma saveCell_failure_run node datasetId net w c :
  nodes w !! node = Some c -> save_failed net = true ->
  run (saveCell node datasetId net) w =
  with_next_timer (S (next_timer w))
    (with_timers (fun l => l ++ [{| timer_id := next_timer w; due := now w + 3000;
                                    action := ClearError node |}])
       (with_nodes (fun l =>
          alter (set_classList (classList_add "error")) node
            (alter (set_classList (classList_remove "editing")) node
               (alter (set_background "#f8d7da") node
                  (alter (set_innerText (Js.or_else (originalValue c) (innerText c))) node
                     (alter (set_classList (classList_add "editing")) node
                        (alter (set_background "#fff3cd") node l))))))
          (with_requests (fun l => l ++ [save_request w c]) w))).
Proof.
  intros Hc Hf.
  unfold saveCell, the_cell, with_cell. unfold_M. cbn. rewrite Hc. cbn.
  destruct net as [e|res]; cbn in Hf |- *; [reflexivity|].
  destruct (ok res); cbn in Hf |- *; [|reflexivity].
  destruct (body res) as [data|]; cbn in Hf |- *; [|reflexivity].
  destruct (save_success data); [discriminate|reflexivity].
Qed.

(** ** Letters *)

Lemma showLetterStatus_run message type w st :
  document w !! "letterStatus" = Some st -> message <> "" ->
  run (showLetterStatus message type) w =
  let shown := with_document
                 (insert "letterStatus"
                    (set_display "block" (set_innerHTML (letter_message message type) st))) w in
  if self_hiding type then
    with_next_timer (S (next_timer w))
      (with_timers (fun l => l ++ [{| timer_id := next_timer w; due := now w + 8000;
                                      action := HideLetterStatus |}]) shown)
  else shown.
Proof.
  intros Hst Hm. unfold showLetterStatus, self_hiding, letter_message. unfold_M. cbn.
  rewrite Hst. rewrite (proj2 (String.eqb_neq message "")) by done.
  destruct (String.eqb type "success" || String.eqb type "error"); look;
    unfold with_next_timer, with_timers, with_document; cbn;
    rewrite insert_insert_eq; reflexivity.
Qed.

Lemma quiet_ret {A} (a : A) : quiet (ret a).
Proof. intros w. done. Qed.

Lemma quiet_throw {A} e : quiet (@throw A e).
Proof. intros w. done. Qed.

Lemma quiet_bind {A B} (m : M A) (k : A -> M B) :
  quiet m -> (forall a, quiet (k a)) -> quiet (bind m k).
Proof.
  intros Hm Hk w. unfold bind. specialize (Hm w).
  destruct (m w) as [[a|e] w1]; cbn in *; [|done].
  destruct Hm as (Hr & Hd & Hs). destruct (Hk a w1) as (-> & -> & Hs1). auto.
Qed.

Lemma quiet_update_element id f : quiet (update_element id f).
Proof.
  intros w. unfold update_element. unfold_M. cbn.
  destruct (document w !! id); cbn; [|done].
  split; [done|]. split; [done|]. apply is_Some_insert.
Qed.

Lemma quiet_showLetterStatus message type : quiet (showLetterStatus message type).
Proof.
  intros w. unfold showLetterStatus. unfold_M. cbn.
  destruct (document w !! "letterStatus") eqn:Hst; [|done].
  destruct (String.eqb message ""); cbn; rewrite Hst; cbn.
  { split; [done|]. split; [done|]. intros _. by rewrite lookup_insert_eq. }
  rewrite lookup_insert_eq. cbn.
  destruct (String.eqb type "success" || String.eqb type "error"); cbn;
    (split; [done|]; split; [done|]; intros _; by rewrite lookup_insert_eq).
Qed.

Lemma quiet_read_lettersPerFile mode : quiet (read_lettersPerFile mode).
Proof.
  unfold read_lettersPerFile. destruct (String.eqb mode "combined"); [|apply quiet_ret].
  intros w. unfold bind at 1, getElementById. cbn.
  destruct (document w !! "lettersPerFile") as [input|].
  - destruct (Js.parseInt (value_string input)) as [n|].
    + destruct (n <? 1); [|done].
      apply quiet_bind; [apply quiet_showLetterStatus | intros; apply quiet_ret].
    + apply quiet_bind; [apply quiet_showLetterStatus | intros; apply quiet_ret].
  - apply quiet_bind; [apply quiet_showLetterStatus | intros; apply quiet_ret].
Qed.

(** A guarded request: the log grows by the request whatever comes back;
    what the continuation downloads is all that is downloaded. *)
Lemma try_fetch_requests {A B} req (net : fetch_outcome A) (k : response A -> M B) h w :
  (forall r w1, requests (snd (k r w1)) = requests w1) -> (forall e, quiet (h e)) ->
  requests (snd (try_catch (bind (fetch req net) k) h w)) = requests w ++ [req].
Proof.
  intros Hk Hh. unfold try_catch, bind, fetch, modify. cbn.
  destruct net as [e|res]; cbn.
  - by destruct (Hh e (with_requests (fun l => l ++ [req]) w)) as (-> & _).
  - pose proof (Hk res (with_requests (fun l => l ++ [req]) w)) as H.
    destruct (k res _) as [[b|e] w1]; cbn in *; [done|].
    by destruct (Hh e w1) as (-> & _).
Qed.

Lemma receive_letters_requests res w :
  requests (snd (receive_letters res w)) = requests w.
Proof.
  unfold receive_letters. unfold_M. cbn. destruct (ok res); reflexivity.
Qed.

Lemma showLetterStatus_returns message type w :
  fst (showLetterStatus message type w) = Ok tt.
Proof.
  unfold showLetterStatus. unfold_M. cbn.
  destruct (document w !! "letterStatus") eqn:Hst; [|done].
  destruct (String.eqb message ""); cbn; rewrite Hst; cbn; [done|].
  rewrite lookup_insert_eq. cbn.
  destruct (String.eqb type "success" || String.eqb type "error"); done.
Qed.

Lemma show_then_ret {A} message type (a : A) w :
  fst ((showLetterStatus message type ;; ret a) w) = Ok a.
Proof.
  unfold bind. pose proof (showLetterStatus_returns message type w) as H.
  destruct (showLetterStatus message type w) as [[[]|e] w1]; cbn in H; [reflexivity|discriminate].
Qed.

Lemma read_lettersPerFile_result mode w :
  fst (read_lettersPerFile mode w) = Ok (lettersPerFile_sent w mode).
Proof.
  unfold read_lettersPerFile, lettersPerFile_sent.
  destruct (String.eqb mode "combined"); [|reflexivity].
  unfold bind at 1, getElementById. cbn.
  destruct (document w !! "lettersPerFile") as [input|]; cbn.
  - destruct (Js.parseInt (value_string input)) as [n|]; cbn.
    + destruct (n <? 1); [|reflexivity]. apply show_then_ret.
    + apply show_then_ret.
  - apply show_then_ret.
Qed.

Lemma letter_status_shown message type w :
  is_Some (document w !! "letterStatus") -> message <> "" ->
  letter_status (run (showLetterStatus message type) w)
  = Some (letter_message message type, "block").
Proof.
  intros [st Hst] Hm. rewrite (showLetterStatus_run _ _ _ _ Hst Hm). cbn zeta.
  unfold letter_status. destruct (self_hiding type); look; reflexivity.
Qed.

Lemma generateLetters_dataset_reads net w datasetId mode :
  dataset_form_filled w datasetId mode ->
  generateLetters net w
  = (let* n := read_lettersPerFile mode in
     match n with
     | None => ret tt
     | Some lettersPerFile =>
         showLetterStatus
           ("<span class=" +:+ Js.quoted "loading"
            +:+ "></span> Generating letters from dataset: " +:+ datasetId +:+ "...") "info" ;;
         try_catch
           (let* response := fetch (dataset_letters_request datasetId mode lettersPerFile) net in
            receive_letters response ;;
            showLetterStatus generated_from_dataset "success")
           (fun error => showLetterStatus ("Error: " +:+ error) "error")
     end) w.
Proof.
  intros ((source & Hsrc & Hup) & (sel & Hsel & Hv) & Hid & (tpl & Htpl & Hf) & Hmode).
  subst datasetId.
  unfold generateLetters. unfold bind at 1. cbn [get]. rewrite Hsrc.
  rewrite (proj2 (String.eqb_neq source "upload")) by done.
  unfold generateFromDataset. unfold bind at 1, getElementById at 1. rewrite Hsel.
  rewrite (proj2 (String.eqb_neq (value_string sel) "")) by done.
  unfold bind at 1, getElementById at 1. rewrite Htpl.
  unfold bind at 1. cbn [deref ret].
  destruct (files tpl) as [|f fs]; [done|].
  unfold bind at 1. cbn [get]. rewrite Hmode. reflexivity.
Qed.

Lemma generateLetters_dataset_prefix net w datasetId mode n :
  dataset_form_ready w datasetId mode n ->
  exists w2,
    requests w2 = requests w /\ downloads w2 = downloads w /\
    (is_Some (document w !! "letterStatus") -> is_Some (document w2 !! "letterStatus")) /\
    generateLetters net w
    = try_catch
        (let* response := fetch (dataset_letters_request datasetId mode n) net in
         receive_letters response ;;
         showLetterStatus generated_from_dataset "success")
        (fun error => showLetterStatus ("Error: " +:+ error) "error") w2.
Proof.
  intros [Hfilled Hn].
  rewrite (generateLetters_dataset_reads _ _ _ _ Hfilled).
  unfold bind at 1.
  pose proof (quiet_read_lettersPerFile mode w) as (Hq & Hd & Hs).
  pose proof (read_lettersPerFile_result mode w) as Hr.
  destruct (read_lettersPerFile mode w) as [o w1]. cbn [fst snd] in Hq, Hd, Hs, Hr. subst o.
  rewrite Hn. unfold bind at 1.
  pose proof (quiet_showLetterStatus
    ("<span class=" +:+ Js.quoted "loading" +:+ "></span> Generating letters from dataset: "
     +:+ datasetId +:+ "...") "info" w1) as (Hq2 & Hd2 & Hs2).
  pose proof (showLetterStatus_returns
    ("<span class=" +:+ Js.quoted "loading" +:+ "></span> Generating letters from dataset: "
     +:+ datasetId +:+ "...") "info" w1) as Hr2.
  destruct (showLetterStatus _ "info" w1) as [o w2]. cbn [fst snd] in Hq2, Hd2, Hs2, Hr2.
  subst o. exists w2.
  split; [congruence|]. split; [congruence|]. split; [auto|]. reflexivity.
Qed.

Lemma until_quote_free name rest :
  free_of Js.dquote name = true ->
  until_quote (name +:+ String Js.dquote rest) = name.
Proof.
  induction name as [|c name IH]; intros H.
  - rewrite append_nil. cbn [until_quote]. by rewrite Ascii.eqb_refl.
  - rewrite append_cons. cbn [until_quote free_of] in *.
    apply andb_prop in H as [Hc Hn]. apply negb_true_iff in Hc.
    rewrite Hc. by rewrite IH.
Qed.

Lemma match_filename_skip c s :
  Ascii.eqb (lower "f") (lower c) = false ->
  match_filename (String c s) = match_filename s.
Proof. intros H. cbn [match_filename strip_prefix_ci]. rewrite H. reflexivity. Qed.

Lemma strip_prefix_ci_append p s : strip_prefix_ci p (p +:+ s) = Some s.
Proof.
  induction p as [|c p IH]; [reflexivity|].
  rewrite append_cons. cbn [strip_prefix_ci]. by rewrite Ascii.eqb_refl.
Qed.

Lemma match_filename_here rest name :
  filename_capture rest = Some name ->
  match_filename ("filename=" +:+ rest) = Some name.
Proof.
  intros H.
  change ("filename=" +:+ rest) with (String "f" ("ilename=" +:+ rest)).
  unfold match_filename; fold match_filename.
  change (String "f" ("ilename=" +:+ rest)) with ("filename=" +:+ rest).
  rewrite strip_prefix_ci_append, H. reflexivity.
Qed.

Lemma match_filename_disposition name :
  name <> "" -> free_of Js.dquote name = true ->
  match_filename ("attachment; filename=" +:+ Js.quoted name) = Some name.
Proof.
  intros Hne Hfree.
  change ("attachment; filename=" +:+ Js.quoted name)
    with ("attachment; " +:+ ("filename=" +:+ Js.quoted name)).
  rewrite !append_cons, append_nil.
  rewrite !match_filename_skip by (vm_compute; reflexivity).
  apply match_filename_here.
  unfold filename_capture, Js.quoted. rewrite append_cons, Ascii.eqb_refl.
  rewrite until_quote_free by exact Hfree.
  destruct name; [done | reflexivity].
Qed.

Lemma ready_letters_page_ready : dataset_form_ready ready_letters_page "4" "zip" 1.
Proof.
  split; [|reflexivity].
  split; [exists "dataset"; split; [reflexivity | discriminate]|].
  split; [exists (set_value (VStr "4") blank_element); split; reflexivity|].
  split; [discriminate|].
  split; [exists template_chosen; split; [reflexivity | discriminate]|].
  reflexivity.
Defined.

Lemma combined_letters_page_filled text :
  dataset_form_filled (combined_letters_page text) "4" "combined".
Proof.
  split; [exists "dataset"; split; [reflexivity | discriminate]|].
  split; [exists (set_value (VStr "4") blank_element); split; reflexivity|].
  split; [discriminate|].
  split; [exists template_chosen; split; [reflexivity | discriminate]|].
  reflexivity.
Defined.

(** ** The extraction form *)

Lemma trimStart_eq s :
  Js.trimStart s = match space_rest s with Some r => Js.trimStart r | None => s end.
Proof.
  destruct s as [|c [|d [|e r]]]; cbn; try reflexivity;
    repeat (match goal with |- context [if ?b then _ else _] => destruct b end; try reflexivity).
Qed.

Lemma space_rest_length s r :
  space_rest s = Some r -> (String.length r < String.length s)%nat.
Proof.
  destruct s as [|c [|d [|e r3]]]; cbn;
    repeat (match goal with |- context [if ?b then _ else _] => destruct b end);
    intros [= <-]; cbn; lia.
Qed.

Lemma string_length_ind (P : string -> Prop) :
  (forall s, (forall r, (String.length r < String.length s)%nat -> P r) -> P s) ->
  forall s, P s.
Proof.
  intros H s. remember (String.length s) as n eqn:E. revert s E.
  induction n as [n IH] using lt_wf_ind. intros s ->. apply H. intros r Hr. by eapply IH.
Qed.

Lemma trimStart_length s : (String.length (Js.trimStart s) <= String.length s)%nat.
Proof.
  induction s as [s IH] using string_length_ind. rewrite trimStart_eq.
  destruct (space_rest s) as [r|] eqn:E; [|lia].
  pose proof (space_rest_length _ _ E). specialize (IH r ltac:(lia)). lia.
Qed.

Lemma trimStart_fixed s : Js.trimStart s = s -> s <> "" -> space_rest s = None.
Proof.
  intros H Hs. destruct (space_rest s) as [r|] eqn:E; [|reflexivity]. exfalso.
  rewrite trimStart_eq, E in H. pose proof (space_rest_length _ _ E).
  pose proof (trimStart_length r) as Hl. rewrite H in Hl. lia.
Qed.

Lemma trimStart_kept s : space_rest s = None -> Js.trimStart s = s.
Proof. intros E. by rewrite trimStart_eq, E. Qed.

Lemma trimStart_idem s : Js.trimStart (Js.trimStart s) = Js.trimStart s.
Proof.
  induction s as [s IH] using string_length_ind. rewrite (trimStart_eq s).
  destruct (space_rest s) as [r|] eqn:E.
  - apply IH. by apply space_rest_length.
  - by apply trimStart_kept.
Qed.

Lemma space_rest_app a r v :
  space_rest a = Some r -> space_rest (a +:+ v) = Some (r +:+ v).
Proof.
  destruct a as [|c [|d [|e r3]]]; cbn [space_rest]; [done|..];
    rewrite ?append_cons, ?append_nil.
  - destruct (Js.is_space c) eqn:Ec; intros [= <-].
    cbn [space_rest]. by rewrite Ec, append_nil.
  - cbn [space_rest]. destruct (Js.is_space c) eqn:Ec.
    { intros [= <-]. by rewrite append_cons, append_nil. }
    destruct (Js.two_byte_space c d); intros [= <-]. by rewrite append_nil.
  - cbn [space_rest]. destruct (Js.is_space c) eqn:Ec.
    { intros [= <-]. by rewrite !append_cons. }
    destruct (Js.two_byte_space c d).
    { intros [= <-]. by rewrite append_cons. }
    destruct (Js.three_byte_space c d e); intros [= <-]. reflexivity.
Qed.

(** White space before a text is trimmed away with nothing else. *)
Lemma trimStart_app_space a v : Js.trimStart a = "" -> Js.trimStart (a +:+ v) = Js.trimStart v.
Proof.
  induction a as [a IH] using string_length_ind. intros H.
  destruct a as [|c a']; [reflexivity|].
  rewrite trimStart_eq in H. destruct (space_rest (String c a')) as [r|] eqn:E; [|done].
  rewrite trimStart_eq, (space_rest_app _ _ v E).
  apply IH; [by apply space_rest_length | done].
Qed.

(** What [trimEnd] cuts is white space. *)
Lemma trimEnd_split s : exists v, s = Js.trimEnd s +:+ v /\ Js.trimStart v = "".
Proof.
  induction s as [|c r IH]; [by exists ""|].
  cbn [Js.trimEnd]. destruct (Js.trimStart (String c r)) as [|x t] eqn:E.
  - by exists (String c r).
  - destruct IH as (v & Hv & Hs). exists v. split; [|done].
    rewrite append_cons, <- Hv. reflexivity.
Qed.

Lemma trimEnd_idem s : Js.trimEnd (Js.trimEnd s) = Js.trimEnd s.
Proof.
  induction s as [|c r IH]; [reflexivity|].
  cbn [Js.trimEnd]. destruct (Js.trimStart (String c r)) as [|x t] eqn:E; [reflexivity|].
  cbn [Js.trimEnd]. rewrite IH.
  destruct (Js.trimStart (String c (Js.trimEnd r))) as [|y u] eqn:E2; [|reflexivity].
  exfalso. destruct (trimEnd_split r) as (v & Hv & Hs).
  pose proof (trimStart_app_space (String c (Js.trimEnd r)) v E2) as H.
  rewrite append_cons, <- Hv, Hs, E in H. done.
Qed.

Lemma trimStart_trimEnd t :
  Js.trimStart t = t -> Js.trimStart (Js.trimEnd t) = Js.trimEnd t.
Proof.
  intros H. destruct (Js.trimEnd t) as [|c u] eqn:E; [reflexivity|].
  apply trimStart_kept.
  destruct (space_rest (String c u)) as [r|] eqn:Er; [|reflexivity]. exfalso.
  destruct (trimEnd_split t) as (v & Hv & _). rewrite E in Hv.
  assert (Ht : t <> "") by (rewrite Hv, append_cons; done).
  pose proof (trimStart_fixed t H Ht) as Hn.
  rewrite Hv, (space_rest_app _ _ v Er) in Hn. done.
Qed.

Lemma trim_idem s : Js.trim (Js.trim s) = Js.trim s.
Proof.
  unfold Js.trim. rewrite trimStart_trimEnd by apply trimStart_idem. apply trimEnd_idem.
Qed.

Lemma free_of_space_rest c s r :
  free_of c s = true -> space_rest s = Some r -> free_of c r = true.
Proof.
  intros H E.
  assert (Hcons : forall a t, free_of c (String a t) = true -> free_of c t = true).
  { intros a t Ht. cbn [free_of] in Ht. by apply andb_prop in Ht as [_ Ht]. }
  destruct s as [|a [|d [|e r3]]]; cbn [space_rest] in E; [done|..];
    destruct (Js.is_space a); try (injection E as <-; by eauto);
    try done;
    destruct (Js.two_byte_space a d); try (injection E as <-; by eauto);
    try done;
    destruct (Js.three_byte_space a d e); try (injection E as <-; by eauto);
    done.
Qed.

Lemma free_of_trimStart c s : free_of c s = true -> free_of c (Js.trimStart s) = true.
Proof.
  induction s as [s IH] using string_length_ind. intros H. rewrite trimStart_eq.
  destruct (space_rest s) as [r|] eqn:E; [|exact H].
  apply IH; [by apply space_rest_length | by eapply free_of_space_rest].
Qed.

Lemma free_of_trimEnd c s : free_of c s = true -> free_of c (Js.trimEnd s) = true.
Proof.
  induction s as [|a s IH]; [done|]. intros H. cbn [Js.trimEnd].
  destruct (Js.trimStart (String a s)); [done|].
  cbn [free_of] in *. apply andb_prop in H as [Ha Hs]. by rewrite Ha, IH.
Qed.

Lemma plain_no_lead c d e :
  plain c = true ->
  Js.is_space c = false /\ Js.two_byte_space c d = false /\ Js.three_byte_space c d e = false.
Proof.
  unfold plain, Js.two_byte_space, Js.three_byte_space.
  intros [Hs Hc]%andb_prop. apply negb_true_iff in Hs. apply Nat.ltb_lt in Hc.
  split; [exact Hs|].
  assert (H194 : (nat_of_ascii c =? 194)%nat = false) by (apply Nat.eqb_neq; lia).
  assert (H225 : (nat_of_ascii c =? 225)%nat = false) by (apply Nat.eqb_neq; lia).
  assert (H226 : (nat_of_ascii c =? 226)%nat = false) by (apply Nat.eqb_neq; lia).
  assert (H227 : (nat_of_ascii c =? 227)%nat = false) by (apply Nat.eqb_neq; lia).
  assert (H239 : (nat_of_ascii c =? 239)%nat = false) by (apply Nat.eqb_neq; lia).
  cbn zeta. by rewrite H194, H225, H226, H227, H239.
Qed.

Lemma space_rest_plain s : starts_plain s = true -> space_rest s = None.
Proof.
  destruct s as [|c [|d [|e r]]]; [done|..]; cbn [starts_plain]; intros H;
    destruct (plain_no_lead c c c H) as (Hs & _);
    cbn [space_rest]; rewrite Hs; try reflexivity.
  - by destruct (plain_no_lead c d d H) as (_ & -> & _).
  - by destruct (plain_no_lead c d e H) as (_ & -> & ->).
Qed.

Lemma trimStart_plain s : starts_plain s = true -> Js.trimStart s = s.
Proof. intros H. by apply trimStart_kept, space_rest_plain. Qed.

Lemma ends_plain_cons c r : r <> "" -> ends_plain (String c r) = ends_plain r.
Proof. by destruct r. Qed.

Lemma ends_plain_app p y : y <> "" -> ends_plain (p +:+ y) = ends_plain y.
Proof.
  intros Hy. induction p as [|c p IH]; [by rewrite append_nil|].
  rewrite append_cons, ends_plain_cons; [exact IH|].
  destruct p; [by rewrite append_nil | by rewrite append_cons].
Qed.

(** The last byte of a white-space character is not plain. *)
Lemma space_rest_ends s r :
  space_rest s = Some r -> ends_plain s = if String.eqb r "" then false else ends_plain r.
Proof.
  unfold plain.
  destruct s as [|c [|d [|e r3]]]; cbn [space_rest]; [done|..].
  - destruct (Js.is_space c) eqn:Ec; intros [= <-]. cbn. unfold plain. by rewrite Ec.
  - destruct (Js.is_space c) eqn:Ec.
    { intros [= <-]. reflexivity. }
    destruct (Js.two_byte_space c d) eqn:E2; intros [= <-]. cbn.
    unfold Js.two_byte_space in E2. apply andb_prop in E2 as [_ Hd%Nat.eqb_eq].
    unfold plain. rewrite Hd. cbn. apply andb_false_r.
  - destruct (Js.is_space c) eqn:Ec.
    { intros [= <-]. reflexivity. }
    destruct (Js.two_byte_space c d) eqn:E2.
    { intros [= <-]. reflexivity. }
    destruct (Js.three_byte_space c d e) eqn:E3; intros [= <-].
    destruct r3 as [|x r3]; [|reflexivity].
    cbn. unfold plain.
    assert (He : (nat_of_ascii e <? 128)%nat = false).
    { apply Nat.ltb_ge. unfold Js.three_byte_space in E3. cbn zeta in E3.
      repeat match type of E3 with
             | (_ || _)%bool = true => apply orb_prop in E3 as [E3|E3]
             | (_ && _)%bool = true => apply andb_prop in E3 as [? E3]
             end;
        repeat match goal with
               | H : (_ && _)%bool = true |- _ => apply andb_prop in H as [? ?]
               | H : (_ =? _)%nat = true |- _ => apply Nat.eqb_eq in H
               | H : (_ <=? _)%nat = true |- _ => apply Nat.leb_le in H
               end; lia. }
    rewrite He. apply andb_false_r.
Qed.

Lemma space_ends s : s <> "" -> Js.trimStart s = "" -> ends_plain s = false.
Proof.
  induction s as [s IH] using string_length_ind. intros Hs H.
  rewrite trimStart_eq in H. destruct (space_rest s) as [r|] eqn:E; [|done].
  rewrite (space_rest_ends _ _ E). destruct (String.eqb_spec r ""); [reflexivity|].
  apply IH; [by apply space_rest_length | done | done].
Qed.

Lemma trimEnd_plain s : ends_plain s = true -> Js.trimEnd s = s.
Proof.
  induction s as [|c r IH]; [done|]. intros H. cbn [Js.trimEnd].
  destruct (Js.trimStart (String c r)) as [|x t] eqn:E.
  - rewrite space_ends in H; done.
  - destruct r as [|d r]; [reflexivity|]. rewrite IH; [reflexivity|].
    by rewrite ends_plain_cons in H.
Qed.

Lemma trim_plain s : starts_plain s = true -> ends_plain s = true -> Js.trim s = s.
Proof. intros Hs He. unfold Js.trim. by rewrite trimStart_plain, trimEnd_plain. Qed.

(** A no-break space at the end of a text, U+00A0, is trimmed as the
    space before a text is. *)
Lemma trim_no_break_space :
  Js.trim (" Suite 4" +:+ String (ascii_of_nat 194) (String (ascii_of_nat 160) ""))
  = "Suite 4".
Proof. vm_compute. reflexivity. Qed.

Lemma clean_name_spec x :
  clean_name x = true ->
  starts_plain x = true /\ ends_plain x = true /\ free_of "," x = true.
Proof. unfold clean_name. rewrite !andb_true_iff. tauto. Qed.

Lemma trimStart_space x : Js.trimStart (String " " x) = Js.trimStart x.
Proof. reflexivity. Qed.

Lemma trim_clean x : clean_name x = true -> Js.trim x = x.
Proof. intros (Hs & He & _)%clean_name_spec. by apply trim_plain. Qed.

Lemma trim_space_clean x : clean_name x = true -> Js.trim (String " " x) = x.
Proof.
  intros H. unfold Js.trim. rewrite trimStart_space. by apply trim_clean.
Qed.

Lemma split_on_free c x :
  free_of c x = true -> split_on c x = [x].
Proof.
  induction x as [|a x IH]; [reflexivity|]. cbn [free_of split_on].
  intros [Ha Hx]%andb_prop. apply negb_true_iff in Ha. rewrite Ha, (IH Hx). reflexivity.
Qed.

Lemma split_on_app c x r :
  free_of c x = true -> split_on c (x +:+ String c r) = x :: split_on c r.
Proof.
  induction x as [|a x IH]; intros H.
  - rewrite append_nil. cbn [split_on]. by rewrite Ascii.eqb_refl.
  - rewrite append_cons. cbn [free_of split_on] in *.
    apply andb_prop in H as [Ha Hx]. apply negb_true_iff in Ha. rewrite Ha, (IH Hx).
    reflexivity.
Qed.

Lemma join_cons sep x y l :
  Js.join sep (x :: y :: l) = x +:+ sep +:+ Js.join sep (y :: l).
Proof. reflexivity. Qed.

(** Splitting what [join(", ")] wrote gives the names back. *)
Lemma split_join_clean l :
  Forall (fun x => clean_name x = true) l -> l <> [] ->
  map Js.trim (split_on "," (Js.join ", " l)) = l.
Proof.
  intros Hall Hne. induction Hall as [|x l Hx Hall IH]; [done|].
  destruct l as [|y l].
  - cbn [Js.join String.concat]. destruct (clean_name_spec x Hx) as (_ & _ & Hf).
    rewrite (split_on_free _ _ Hf). cbn. by rewrite trim_clean.
  - rewrite join_cons. destruct (clean_name_spec x Hx) as (_ & _ & Hf).
    change (x +:+ ", " +:+ Js.join ", " (y :: l))
      with (x +:+ String "," (String " " (Js.join ", " (y :: l)))).
    rewrite (split_on_app _ _ _ Hf). cbn [map]. rewrite (trim_clean _ Hx). f_equal.
    specialize (IH ltac:(done)).
    (* the space after the comma goes with the next name *)
    destruct (split_on "," (Js.join ", " (y :: l))) as [|z zs] eqn:E.
    + done.
    + cbn [split_on]. change (Ascii.eqb " " ",") with false. cbn iota. rewrite E.
      cbn [map] in IH |- *. injection IH as Hz Hzs. rewrite Hzs. f_equal.
      unfold Js.trim in *. rewrite trimStart_space. exact Hz.
Qed.

Lemma append_assoc a b c : (a +:+ b) +:+ c = a +:+ (b +:+ c).
Proof. induction a as [|x a IH]; [reflexivity|]. by rewrite !append_cons, IH. Qed.

Lemma starts_plain_app x r : starts_plain x = true -> starts_plain (x +:+ r) = true.
Proof. destruct x as [|c x]; [done|]. by rewrite append_cons. Qed.

Lemma starts_plain_nonempty x : starts_plain x = true -> x <> "".
Proof. by destruct x. Qed.

Lemma join_clean_edges l :
  Forall (fun x => clean_name x = true) l -> l <> [] ->
  starts_plain (Js.join ", " l) = true /\ ends_plain (Js.join ", " l) = true.
Proof.
  intros Hall Hne. induction Hall as [|x l Hx Hall IH]; [done|].
  destruct (clean_name_spec x Hx) as (Hs & He & _).
  destruct l as [|y l]; [done|].
  rewrite join_cons. destruct (IH ltac:(done)) as [IHs IHe].
  split; [by apply starts_plain_app|].
  rewrite <- append_assoc, ends_plain_app; [exact IHe|].
  by apply starts_plain_nonempty.
Qed.

Lemma trim_join_clean l :
  Forall (fun x => clean_name x = true) l -> l <> [] ->
  Js.trim (Js.join ", " l) = Js.join ", " l /\ Js.join ", " l <> "".
Proof.
  intros Hall Hne. destruct (join_clean_edges l Hall Hne) as [Hs He].
  split; [by apply trim_plain | by apply starts_plain_nonempty].
Qed.

Lemma counties_of_join l :
  Forall (fun x => clean_name x = true) l -> l <> [] ->
  counties_of (Js.join ", " l) = Some l.
Proof.
  intros Hall Hne. unfold counties_of.
  destruct (trim_join_clean l Hall Hne) as [-> Hn].
  rewrite (proj2 (String.eqb_neq _ _) Hn). by rewrite split_join_clean.
Qed.

(** Every county of the region table is such a name. *)
Lemma ENGLAND_REGIONS_clean region counties :
  ENGLAND_REGIONS !! region = Some counties ->
  Forall (fun x => clean_name x = true) counties.
Proof.
  intros H. unfold ENGLAND_REGIONS in H. apply elem_of_list_to_map_2 in H.
  apply list_elem_of_In in H. cbn in H.
  repeat (destruct H as [[= <- <-] | H]; [repeat constructor|]). done.
Qed.

Lemma allCounties_clean selected :
  Forall (fun x => clean_name x = true) (Js.Set_values (allCounties_of selected)).
Proof.
  apply Forall_forall. intros c Hc.
  apply (proj1 (proj2 (Set_values_spec _) c)) in Hc.
  apply allCounties_of_spec in Hc as (r & cs & _ & Hr & Hin).
  pose proof (ENGLAND_REGIONS_clean r cs Hr) as Hall.
  by apply (proj1 (Forall_forall _ _) Hall).
Qed.

Lemma split_on_pieces c s : Forall (fun x => free_of c x = true) (split_on c s).
Proof.
  induction s as [|a s IH]; [by repeat constructor|]. cbn [split_on].
  destruct (Ascii.eqb a c) eqn:E; [by constructor|].
  destruct (split_on c s) as [|x xs]; [repeat constructor; cbn; by rewrite E|].
  apply Forall_cons in IH as [Hx Hxs]. constructor; [|done]. cbn. by rewrite E, Hx.
Qed.

(** The codes sent: none is empty, none has a comma or white space at
    either end. *)
Lemma sicCodes_of_codes text :
  Forall (fun code => code <> "" /\ Js.trim code = code /\ free_of "," code = true)
         (sicCodes_of text).
Proof.
  unfold sicCodes_of, filter_Boolean. apply Forall_forall. intros code Hin.
  apply list_elem_of_filter in Hin as [Hne Hin].
  apply list_elem_of_fmap in Hin as (piece & -> & Hp).
  split; [done|]. split; [apply trim_idem|].
  pose proof (split_on_pieces "," text) as Hall.
  pose proof (proj1 (Forall_forall _ _) Hall piece Hp) as Hf. cbn beta in Hf.
  unfold Js.trim. by apply free_of_trimEnd, free_of_trimStart.
Qed.

Lemma sicCodes_of_blank text :
  all_chars comma_or_space text = true -> sicCodes_of text = [].
Proof.
  intros H. unfold sicCodes_of, filter_Boolean.
  assert (Hall : Forall (fun x => Js.trim x = "") (split_on "," text)).
  { induction text as [|a r IH]; [by repeat constructor|].
    cbn [all_chars] in H. apply andb_prop in H as [Ha Hr]. specialize (IH Hr).
    cbn [split_on]. destruct (Ascii.eqb a ",") eqn:E; [by constructor|].
    unfold comma_or_space in Ha. rewrite E, orb_false_r in Ha.
    destruct (split_on "," r) as [|x xs].
    { repeat constructor. unfold Js.trim. cbn [Js.trimStart]. by rewrite Ha. }
    apply Forall_cons in IH as [Hx Hxs]. constructor; [|done].
    unfold Js.trim in *. cbn [Js.trimStart]. by rewrite Ha. }
  induction Hall as [|x xs Hx _ IH]; [reflexivity|].
  cbn [map]. rewrite Hx. rewrite filter_cons_False by (intros ?; done). exact IH.
Qed.

Ltac unfold_W :=
  unfold runW, bindW, try_catchW, getW, modifyW, retW, throwW, on_the_page, alert, derefW in *.

Lemma touches_only_refl ids w : touches_only ids w w.
Proof. by repeat split. Qed.

Lemma touches_only_trans ids w1 w2 w3 :
  touches_only ids w1 w2 -> touches_only ids w2 w3 -> touches_only ids w1 w3.
Proof.
  intros (?&?&?&?&?&?&?&?&?&?&?&Hd1) (?&?&?&?&?&?&?&?&?&?&?&Hd2).
  repeat split; try congruence. intros id Hid. rewrite Hd2, Hd1; done.
Qed.

Lemma touches_ret {A} ids (a : A) : touches ids (ret a).
Proof. intros w. apply touches_only_refl. Qed.

Lemma touches_throw {A} ids e : touches ids (@throw A e).
Proof. intros w. apply touches_only_refl. Qed.

Lemma touches_get ids : touches ids get.
Proof. intros w. apply touches_only_refl. Qed.

Lemma touches_deref {A} ids (o : option A) : touches ids (deref o).
Proof. intros w. destruct o; apply touches_only_refl. Qed.

Lemma touches_getElementById ids id : touches ids (getElementById id).
Proof. intros w. apply touches_only_refl. Qed.

Lemma touches_bind {A B} ids (m : M A) (k : A -> M B) :
  touches ids m -> (forall a, touches ids (k a)) -> touches ids (bind m k).
Proof.
  intros Hm Hk w. unfold bind. specialize (Hm w).
  destruct (m w) as [[a|e] w1]; cbn in *; [|done].
  eapply touches_only_trans; [exact Hm | apply Hk].
Qed.

Lemma touches_try_catch {A} ids (m : M A) h :
  touches ids m -> (forall e, touches ids (h e)) -> touches ids (try_catch m h).
Proof.
  intros Hm Hh w. unfold try_catch. specialize (Hm w).
  destruct (m w) as [[a|e] w1]; cbn in *; [done|].
  eapply touches_only_trans; [exact Hm | apply Hh].
Qed.

Lemma touches_insert ids id e w :
  id ∈ ids -> touches_only ids w (with_document (insert id e) w).
Proof.
  intros Hin. repeat split. intros x Hx. cbn.
  apply lookup_insert_ne. intros ->. done.
Qed.

Lemma touches_update_element ids id f :
  id ∈ ids -> touches ids (update_element id f).
Proof.
  intros Hin w. unfold update_element. unfold_M. cbn.
  destruct (document w !! id); cbn; [by apply touches_insert | apply touches_only_refl].
Qed.

Lemma touches_showStatus ids id message type :
  id ∈ ids -> touches ids (showStatus id message type).
Proof.
  intros Hin w. unfold showStatus. unfold_M. cbn.
  destruct (document w !! id); cbn; [|apply touches_only_refl].
  destruct (String.eqb message ""); by apply touches_insert.
Qed.

Lemma touches_currentDatasetFile ids v : touches ids (modify (with_currentDatasetFile v)).
Proof. intros w. by repeat split. Qed.

Lemma touches_if {A} ids (b : bool) (m1 m2 : M A) :
  touches ids m1 -> touches ids m2 -> touches ids (if b then m1 else m2).
Proof. by destruct b. Qed.

Ltac in_list := apply list_elem_of_In; simpl; tauto.

Ltac touches :=
  repeat first
    [ apply touches_ret | apply touches_throw | apply touches_get | apply touches_deref
    | apply touches_getElementById | apply touches_currentDatasetFile
    | apply touches_update_element; in_list
    | apply touches_showStatus; in_list
    | apply touches_bind; [|intros ?]
    | apply touches_try_catch; [|intros ?]
    | apply touches_if ].

Lemma touches_displayDatasetInfo data : touches extraction_outputs (displayDatasetInfo data).
Proof. unfold displayDatasetInfo, extraction_outputs. touches. Qed.

Lemma read_input id w e :
  document w !! id = Some e ->
  (let* el := getElementById id in deref el) w = (Ok e, w).
Proof. intros H. unfold_M. cbn. by rewrite H. Qed.

(** The reset that precedes the request. *)
Lemma extractCompanies_reset w btn ac ec :
  document w !! "download-enriched-btn" = Some btn ->
  document w !! "analysisCard" = Some ac ->
  document w !! "enrichmentCard" = Some ec ->
  exists w1,
    (update_element "download-enriched-btn" (set_display "none") ;;
     modify (with_enrichmentJobId None) ;;
     update_element "analysisCard" (set_display "none") ;;
     update_element "enrichmentCard" (set_display "none") ;;
     showStatus "extractStatus" "<span class='loading'></span> Extracting..." "info") w
    = (Ok tt, w1) /\
    requests w1 = requests w /\ env w1 = env w /\
    enrichmentJobId w1 = None /\ download_shown w1 = Some "none" /\
    currentDatasetFile w1 = currentDatasetFile w /\
    (is_Some (document w !! "extractStatus") -> is_Some (document w1 !! "extractStatus")) /\
    (forall id, id ∉ ["download-enriched-btn"; "analysisCard"; "enrichmentCard"; "extractStatus"] ->
                document w1 !! id = document w !! id).
Proof.
  intros Hb Ha He. unfold download_shown. unfold_M. look.
  assert (Hids : forall id,
            id ∉ ["download-enriched-btn"; "analysisCard"; "enrichmentCard"; "extractStatus"] ->
            id <> "download-enriched-btn" /\ id <> "analysisCard" /\ id <> "enrichmentCard"
            /\ id <> "extractStatus").
  { intros id H. repeat split; intros ->; apply H; in_list. }
  destruct (document w !! "extractStatus") eqn:Hs; look; eexists; (split; [reflexivity|]);
    look; repeat split; try done; try (intros [? ?]; done);
    intros id (? & ? & ? & ?)%Hids; cbn; rewrite ?lookup_insert_ne by done; done.
Qed.

Lemma fetch_rejected {A} req e w :
  @fetch A req (Rejected e) w = (Throw e, with_requests (fun l => l ++ [req]) w).
Proof. reflexivity. Qed.

Lemma fetch_resolved {A} req (res : response A) w :
  fetch req (Resolved res) w = (Ok res, with_requests (fun l => l ++ [req]) w).
Proof. reflexivity. Qed.

(** The guarded part of [extractCompanies], from a window [s1]. *)
Lemma extractCompanies_attempt net codes counties s1 :
  let s2 := snd (try_catchW
        (let+ s := getW in
         let+ res := on_the_page
                       (fetch (extract_request (env (page s)) codes counties) net) in
         let+ data := on_the_page (json res) in
         (if ex_success data then retW tt
          else throwW (Js.or_else (ex_detail data) "Extraction failed")) ;+
         modifyW (with_currentJobId (ex_job_id data)) ;+
         on_the_page
           (modify (with_currentDatasetFile (ex_current_dataset data)) ;;
            showStatus "extractStatus" "✅ Extraction complete" "success" ;;
            displayDatasetInfo data))
        (fun err => on_the_page (showStatus "extractStatus" err "error")) s1) in
  touches_only extraction_outputs
    (with_requests (fun l => l ++ [extract_request (env (page s1)) codes counties]) (page s1))
    (page s2) /\
  alerts s2 = alerts s1 /\ currentSicCodes s2 = currentSicCodes s1 /\
  currentCounties s2 = currentCounties s1.
Proof.
  intros s2. subst s2.
  match goal with |- context [try_catchW ?m ?h s1] =>
    destruct (try_catchW m h s1) as [o s2] eqn:HX end.
  cbn [snd].
  destruct s1 as [w al loc job cs co view card].
  unfold try_catchW, bindW at 1, getW in HX. cbn [page] in HX.
  unfold bindW at 1, on_the_page at 1 in HX. cbn [page] in HX.
  set (req := extract_request (env w) codes counties) in *.
  assert (Hh : forall e w1 wx, touches_only extraction_outputs w1 wx ->
             touches_only extraction_outputs w1 (snd (showStatus "extractStatus" e "error" wx))).
  { intros e w1 wx H. eapply touches_only_trans; [exact H|].
    apply touches_showStatus. unfold extraction_outputs. in_list. }
  destruct net as [e|res].
  { rewrite fetch_rejected in HX. unfold on_the_page in HX. cbn [page with_page] in HX.
    specialize (Hh e _ _ (touches_only_refl extraction_outputs
                            (with_requests (fun l => l ++ [req]) w))).
    destruct (showStatus "extractStatus" e "error" _) as [o' w2]. injection HX as <- <-.
    cbn. split; [exact Hh | done]. }
  rewrite fetch_resolved in HX.
  unfold bindW at 1, on_the_page at 1, json in HX. cbn [page with_page] in HX.
  set (w1 := with_requests _ w) in *.
  destruct (body res) as [data|]; cbn [throw ret page with_page] in HX.
  2:{ unfold on_the_page in HX. cbn [page with_page] in HX.
      specialize (Hh SyntaxError w1 w1 (touches_only_refl _ _)).
      destruct (showStatus "extractStatus" SyntaxError "error" w1) as [o' w2].
      injection HX as <- <-. cbn. split; [exact Hh | done]. }
  unfold bindW at 1 in HX.
  destruct (ex_success data); cbn [retW throwW] in HX.
  2:{ unfold on_the_page in HX. cbn [page with_page] in HX.
      specialize (Hh (Js.or_else (ex_detail data) "Extraction failed") w1 w1
                    (touches_only_refl _ _)).
      destruct (showStatus "extractStatus" _ "error" w1) as [o' w2].
      injection HX as <- <-. cbn. split; [exact Hh | done]. }
  unfold bindW at 1, modifyW, on_the_page in HX. cbn [page with_page with_currentJobId] in HX.
  assert (Hm : touches extraction_outputs
            (modify (with_currentDatasetFile (ex_current_dataset data)) ;;
             showStatus "extractStatus" "✅ Extraction complete" "success" ;;
             displayDatasetInfo data)).
  { unfold extraction_outputs. touches. }
  specialize (Hm w1).
  destruct ((modify (with_currentDatasetFile (ex_current_dataset data)) ;;
             showStatus "extractStatus" "✅ Extraction complete" "success" ;;
             displayDatasetInfo data) w1) as [[[]|e] w2]; cbn [snd page with_page] in *.
  - injection HX as <- <-. cbn. split; [exact Hm | done].
  - specialize (Hh e w1 w2 Hm).
    destruct (showStatus "extractStatus" e "error" w2) as [o' w3].
    injection HX as <- <-. cbn. split; [exact Hh | done].
Qed.

Lemma Set_values_nonempty l : l <> [] -> Js.Set_values l <> [].
Proof. destruct l; [done|]. intros _. unfold Js.Set_values. cbn. done. Qed.

Lemma extractCompanies_starts net s sic cnt :
  on_page (page s) extraction_ids = true ->
  document (page s) !! "sicCodes" = Some sic ->
  document (page s) !! "counties" = Some cnt ->
  sicCodes_of (value_string sic) <> [] ->
  let codes := sicCodes_of (value_string sic) in
  let counties := counties_of (value_string cnt) in
  exists w1,
    requests w1 = requests (page s) /\ env w1 = env (page s) /\
    currentDatasetFile w1 = currentDatasetFile (page s) /\
    (is_Some (document (page s) !! "extractStatus") ->
     is_Some (document w1 !! "extractStatus")) /\
    (forall id, id ∉ ["download-enriched-btn"; "analysisCard"; "enrichmentCard"; "extractStatus"] ->
                document w1 !! id = document (page s) !! id) /\
    extractCompanies net s
    = try_catchW
        (let+ s := getW in
         let+ res := on_the_page
                       (fetch (extract_request (env (page s)) codes counties) net) in
         let+ data := on_the_page (json res) in
         (if ex_success data then retW tt
          else throwW (Js.or_else (ex_detail data) "Extraction failed")) ;+
         modifyW (with_currentJobId (ex_job_id data)) ;+
         on_the_page
           (modify (with_currentDatasetFile (ex_current_dataset data)) ;;
            showStatus "extractStatus" "✅ Extraction complete" "success" ;;
            displayDatasetInfo data))
        (fun err => on_the_page (showStatus "extractStatus" err "error"))
        (with_page (fun _ => w1) (with_currentCounties counties (with_currentSicCodes codes s))).
Proof.
  intros Hpage Hsic Hcnt Hcodes codes counties.
  unfold extraction_ids in Hpage. page Hpage.
  destruct (extractCompanies_reset (page s) _ _ _ Hel1 Hel2 Hel3)
    as (w1 & Hreset & Hr1 & He1 & _ & _ & Hf1 & Hs1 & Hd1).
  exists w1. split; [exact Hr1|]. split; [exact He1|]. split; [exact Hf1|].
  split; [exact Hs1|]. split; [exact Hd1|].
  unfold extractCompanies.
  unfold bindW at 1, on_the_page at 1. rewrite (read_input _ _ _ Hsic).
  unfold bindW at 1, on_the_page at 1. cbn [page with_page]. rewrite (read_input _ _ _ Hcnt).
  fold codes counties. destruct codes as [|code codes'] eqn:E; [done|].
  unfold bindW at 1, modifyW at 1. unfold bindW at 1, modifyW at 1.
  unfold bindW at 1, on_the_page at 1. cbn [page with_page with_currentSicCodes
    with_currentCounties]. rewrite Hreset.
  destruct s; reflexivity.
Qed.

Lemma extractCompanies_requests net s sic cnt :
  on_page (page s) extraction_ids = true ->
  document (page s) !! "sicCodes" = Some sic ->
  document (page s) !! "counties" = Some cnt ->
  sicCodes_of (value_string sic) <> [] ->
  requests (page (runW (extractCompanies net) s))
  = requests (page s) ++
    [extract_request (env (page s)) (sicCodes_of (value_string sic))
       (counties_of (value_string cnt))].
Proof.
  intros Hpage Hsic Hcnt Hcodes.
  destruct (extractCompanies_starts net s sic cnt Hpage Hsic Hcnt Hcodes)
    as (w1 & Hr1 & He1 & _ & _ & _ & Hrun).
  unfold runW. rewrite Hrun.
  match goal with |- context [try_catchW ?m ?h ?s1] =>
    pose proof (extractCompanies_attempt net (sicCodes_of (value_string sic))
                  (counties_of (value_string cnt)) s1) as Hatt end.
  cbn zeta in Hatt. destruct Hatt as ((_ & _ & _ & _ & _ & _ & Hr & _) & _).
  rewrite Hr. cbn. by rewrite Hr1, He1.
Qed.

(** ** Enrichment *)

(** The state [enrichDataset] reaches before its request. *)
Lemma enrichDataset_prepares net poll s file card st bar :
  currentDatasetFile (page s) = Some file -> file <> "" ->
  document (page s) !! "enrichmentCard" = Some card ->
  document (page s) !! "enrichmentStatus" = Some st ->
  document (page s) !! "enrichmentProgressBar" = Some bar ->
  let w2 := with_document (fun d =>
              <["enrichmentProgressBar" := set_value (VNum 0) (set_display "block" bar)]>
              (<["enrichmentStatus" := set_display "block"
                   (set_innerHTML [Src "<span class='loading'></span> Enriching your dataset..."]
                      (set_className "status-box info" st))]>
              (<["enrichmentCard" := set_display "block" card]> d))) (page s) in
  runW (enrichDataset net poll) s
  = with_page (fun _ =>
      run (try_catch
         (let* w := get in
          let* res := fetch (enrich_request (env w)
                               (Js.String_of (currentDatasetFile w))) net in
          let* data := json res in
          (if en_success data then ret tt
           else throw (Js.or_else (en_detail data) "Enrichment failed")) ;;
          modify (with_enrichmentJobId (en_job_id data)) ;;
          pollEnrichmentStatus (Js.String_of (en_job_id data)) poll)
         (fun err => showStatus "enrichmentStatus" ("❌ " +:+ err) "error")) w2) s.
Proof.
  intros Hfile Hne Hcard Hst Hbar w2.
  assert (Ht : Js.truthy (currentDatasetFile (page s)) = true).
  { rewrite Hfile. cbn. by rewrite (proj2 (String.eqb_neq file "")). }
  unfold enrichDataset, runW, bindW, getW. rewrite Ht. unfold on_the_page.
  unfold run.
  assert (Hprefix : forall (k : M unit),
    (update_element "enrichmentCard" (set_display "block") ;;
     showStatus "enrichmentStatus"
       "<span class='loading'></span> Enriching your dataset..." "info" ;;
     let* progress := getElementById "enrichmentProgressBar" in
     let* _ := deref progress in
     update_element "enrichmentProgressBar" (set_display "block") ;;
     update_element "enrichmentProgressBar" (set_value (VNum 0)) ;;
     k) (page s) = k w2).
  { intros k. subst w2. unfold_M. look.
    unfold with_document. cbn. rewrite insert_insert_eq. reflexivity. }
  rewrite Hprefix.
  destruct (try_catch _ _ w2) as [o w3]. destruct s; reflexivity.
Qed.

(** ** The detail view of a dataset *)

Lemma renderCompaniesTable_returns containerId companies datasetId w :
  fst (renderCompaniesTable containerId companies datasetId w) = Ok tt.
Proof.
  unfold renderCompaniesTable, enableInlineEditing. unfold_M. cbn.
  destruct (document w !! containerId) as [c|] eqn:Hc; [|reflexivity].
  destruct companies as [[|x cs]|]; cbn; rewrite ?Hc; cbn; try reflexivity.
Qed.

Lemma renderCompaniesTable_elsewhere containerId companies datasetId w id :
  id <> containerId ->
  document (run (renderCompaniesTable containerId companies datasetId) w) !! id
  = document w !! id.
Proof.
  intros Hid. unfold renderCompaniesTable, enableInlineEditing. unfold_M. cbn.
  destruct (document w !! containerId) as [c|] eqn:Hc; [|reflexivity].
  destruct companies as [[|x cs]|]; cbn; rewrite ?Hc; cbn;
    by rewrite ?lookup_insert_ne.
Qed.

Ltac open_detail Hp Hres Hok Hds Htot Hcres :=
  let st := fresh "st" in let card := fresh "card" in
  let info := fresh "info" in let cont := fresh "cont" in
  let Hst := fresh "Hst" in let Hcard := fresh "Hcard" in
  let Hinfo := fresh "Hinfo" in let Hcont := fresh "Hcont" in
  apply on_page_cons in Hp; destruct Hp as [[st Hst] Hp];
  apply on_page_cons in Hp; destruct Hp as [[card Hcard] Hp];
  apply on_page_cons in Hp; destruct Hp as [[info Hinfo] Hp];
  apply on_page_cons in Hp; destruct Hp as [[cont Hcont] _];
  unfold viewDataset; unfold_W; unfold_M; cbn -[renderCompaniesTable];
  rewrite Hst; cbn -[renderCompaniesTable];
  rewrite ?eqb_append_cons; cbn -[renderCompaniesTable];
  rewrite Hres; cbn -[renderCompaniesTable]; rewrite Hok;
  cbn -[renderCompaniesTable];
  rewrite lookup_insert_ne by discriminate; rewrite Hcard; cbn -[renderCompaniesTable];
  rewrite Hds; cbn -[renderCompaniesTable]; rewrite Htot; cbn -[renderCompaniesTable];
  rewrite !lookup_insert_ne by discriminate; rewrite Hinfo; cbn -[renderCompaniesTable];
  rewrite Hcres; cbn -[renderCompaniesTable].

(** * The claims *)

(** C1 (as amended).  Every poll of [pollEnrichmentStatus] whose request
    is answered, on a page that has the enrichment elements: a [completed]
    status with its result payload sets the progress bar to 100, stores the
    output file of the result in [currentDatasetFile] and shows it in the
    dataset box, reveals the download button and schedules nothing; a
    [failed] status shows the error of the server, leaves the button as it
    was and schedules nothing; any other status sets the bar to
    [Math.round((processed / total) * 100)] as the doubles compute it,
    leaves the button as it was and schedules one further poll 2000 ms
    later.  A job seen at 25 of 100, at 80 of 100 and then completed gives
    the bar 25, 80 and 100, the polls 2000 ms apart, and the button is
    revealed by the last poll only. *)
Theorem pollEnrichmentStatus_status_machine jobId res data w :
  on_page w enrichment_ids = true ->
  body res = Some data ->
  let w' := run (pollEnrichmentStatus jobId (Resolved res)) w in
  (status data = Some "completed" ->
   forall r stats n,
     result data = Some r -> enrichment_stats r = Some stats ->
     total_processed stats = Some n ->
     progress_of w' = Some (VNum 100) /\
     currentDatasetFile w' = output_file r /\
     (innerHTML <$> document w' !! "datasetInfo")
       = Some (enriched_info (env w) n (output_file r)) /\
     download_shown w' = Some "inline-block" /\
     timers w' = timers w) /\
  (status data = Some "failed" ->
     status_box w' "enrichmentStatus"
       = Some ("status-box error", [Src ("❌ " +:+ Js.String_of (error data))], "block") /\
     download_shown w' = download_shown w /\
     timers w' = timers w) /\
  (status data <> Some "completed" -> status data <> Some "failed" ->
   isSafeInteger (processed data) -> isSafeInteger (total data) ->
     (exists k, percent (Js.num_or (processed data) 0) (Js.num_or (total data) 1) = Some k /\
                progress_of w' = Some (VNum k)) /\
     download_shown w' = download_shown w /\
     timers w' = timers w ++ [{| timer_id := next_timer w; due := now w + 2000;
                                 action := PollEnrichment jobId |}]) /\
  (forall srv r stats n,
     timers w = [] ->
     download_shown w = Some "none" ->
     status_api srv (length (requests w)) jobId = answer (running 25 100) ->
     status_api srv (S (length (requests w))) jobId = answer (running 80 100) ->
     status_api srv (S (S (length (requests w)))) jobId = answer (completed r) ->
     enrichment_stats r = Some stats -> total_processed stats = Some n ->
     let w1 := run (pollEnrichmentStatus jobId
                      (status_api srv (length (requests w)) jobId)) w in
     progress_of w1 = Some (VNum 25) /\ download_shown w1 = Some "none" /\
     (forall limit, limit < now w + 2000 -> fire_next srv limit w1 = None) /\
     exists w2 w3,
       fire_next srv (now w + 2000) w1 = Some w2 /\
       progress_of w2 = Some (VNum 80) /\ download_shown w2 = Some "none" /\
       (forall limit, limit < now w + 4000 -> fire_next srv limit w2 = None) /\
       fire_next srv (now w + 4000) w2 = Some w3 /\
       progress_of w3 = Some (VNum 100) /\ download_shown w3 = Some "inline-block" /\
       currentDatasetFile w3 = output_file r /\
       timers w3 = []).
Proof.
  intros Hpage Hbody w'.
  destruct (poll_step jobId res data w Hpage Hbody) as (H1 & H2 & H3).
  split; [exact H1|]. split; [exact H2|]. split; [exact H3|].
  intros srv r stats n Ht Hb Ha1 Ha2 Ha3 Hs Hn.
  by eapply poll_sequence.
Qed.

Lemma pollEnrichmentStatus_status_machine_witness :
  on_page enrichment_page enrichment_ids = true /\
  progress_of (run (pollEnrichmentStatus "job-1" (answer (running 25 100))) enrichment_page)
    = Some (VNum 25) /\
  timers (run (pollEnrichmentStatus "job-1" (answer (running 25 100))) enrichment_page)
    = [{| timer_id := 0; due := 2000; action := PollEnrichment "job-1" |}].
Proof.
  split; [reflexivity|].
  destruct (pollEnrichmentStatus_status_machine "job-1" (ok_response (running 25 100))
              (running 25 100) enrichment_page eq_refl eq_refl) as (_ & _ & H & _).
  destruct H as ((k & Hk & Hp) & _ & Ht); try discriminate; try (simpl; lia).
  vm_compute in Hk. injection Hk as <-. split; [exact Hp | exact Ht].
Defined.

(** C1 as it is written fails where the exact percentage lies half way
    between two integers: at 23 of 40 the quotient 0.575 is not a double,
    the nearest one lies below it, and so does the product with 100
    (57.49999999999999...), which [Math.round] takes to 57; the rounding of
    the exact 100 * 23 / 40 = 57.5 is 58. *)
Lemma pollEnrichmentStatus_percent_counterexample :
  progress_of (run (pollEnrichmentStatus "job-1" (answer (running 23 40))) enrichment_page)
    = Some (VNum 57) /\
  round_percent_exact 23 40 = 58 /\
  progress_of (run (pollEnrichmentStatus "job-1" (answer (running 23 40))) enrichment_page)
    <> Some (VNum (round_percent_exact 23 40)).
Proof. vm_compute. split; [reflexivity|]. split; [reflexivity|]. discriminate. Qed.




(** C3, at the failing input.  The second address line of the company is
    missing, so its cell is rendered empty and the stored value is the
    empty string.  The user types a text and every kind of failed save (a
    status that is not OK, a body with [success: false], a thrown network
    error) leaves the typed text in the cell instead of the empty text it
    had before the edit; the error class is applied and its timer is set
    3000 ms ahead. *)
Theorem saveCell_blank_original_not_restored :
  cell_text detail_view 3 = Some "" /\
  cell_original detail_view 3 = Some (Some "") /\
  Forall (fun net =>
            save_failed net = true /\
            cell_text (failed_blank_edit net) 3 = Some "Suite 4" /\
            cell_classes (failed_blank_edit net) 3 = Some ["error"] /\
            timers (failed_blank_edit net)
              = [{| timer_id := 0; due := 3000; action := ClearError 3 |}])
         [http_error 500; save_refused; Rejected "Failed to fetch"].
Proof. vm_compute. repeat constructor. Qed.

(** C4 (as amended).  With no file chosen in the template input,
    [generateLetters] issues no request, whatever the data source.  The
    message that the template is mandatory is shown when the data of the
    chosen source is there (a data file for [upload], a selected dataset
    otherwise).  When the data is missing, that check comes first and its
    message is shown instead: it asks for a data file on the source
    [upload], for a dataset on any other source; with no source chosen at
    all the message asks for a data source. *)
Theorem generateLetters_requires_template net w input st :
  document w !! "templateFileUpload" = Some input -> files input = [] ->
  document w !! "letterStatus" = Some st ->
  let w' := run (generateLetters net) w in
  requests w' = requests w /\
  (data_source_supplied w = true ->
   letter_status w' = Some (letter_error template_required)) /\
  (data_source_supplied w = false ->
   forall source, radios w !! "dataSource" = Some source ->
     (source = "upload" -> is_Some (document w !! "letterFileUpload")) ->
     letter_status w' = Some (letter_error (data_required source))) /\
  (radios w !! "dataSource" = None ->
   letter_status w' = Some (letter_error "Please select a data source")).
Proof.
  intros Hin Hf Hst w'. split.
  - apply generateLetters_without_template. unfold selected_template.
    rewrite Hin. cbn. by rewrite Hf.
  - split; [|split].
    + intros Hsup. by eapply generateLetters_template_message.
    + intros Hsup source Hsrc Hup. by eapply generateLetters_data_message.
    + intros Hsrc. by eapply generateLetters_source_message.
Qed.

Lemma generateLetters_requires_template_witness :
  (requests (run (generateLetters letters_refused) dataset_chosen_page) = [] /\
   letter_status (run (generateLetters letters_refused) dataset_chosen_page)
     = Some (letter_error template_required)) /\
  (requests (run (generateLetters letters_refused) (letters_page "dataset")) = [] /\
   letter_status (run (generateLetters letters_refused) (letters_page "dataset"))
     = Some (letter_error "Please select a dataset")) /\
  (requests (run (generateLetters letters_refused) (letters_page "upload")) = [] /\
   letter_status (run (generateLetters letters_refused) (letters_page "upload"))
     = Some (letter_error "Please select a data file")).
Proof.
  split; [|split].
  - assert (Hin : document dataset_chosen_page !! "templateFileUpload" = Some blank_element)
      by (vm_compute; reflexivity).
    assert (Hst : document dataset_chosen_page !! "letterStatus" = Some blank_element)
      by (vm_compute; reflexivity).
    destruct (generateLetters_requires_template letters_refused dataset_chosen_page
                blank_element blank_element Hin eq_refl Hst) as (Hr & Hm & _).
    split; [exact Hr | apply Hm; vm_compute; reflexivity].
  - assert (Hin : document (letters_page "dataset") !! "templateFileUpload"
                  = Some blank_element) by (vm_compute; reflexivity).
    assert (Hst : document (letters_page "dataset") !! "letterStatus" = Some blank_element)
      by (vm_compute; reflexivity).
    destruct (generateLetters_requires_template letters_refused (letters_page "dataset")
                blank_element blank_element Hin eq_refl Hst) as (Hr & _ & Hm & _).
    split; [exact Hr|].
    apply (Hm ltac:(vm_compute; reflexivity) "dataset" ltac:(vm_compute; reflexivity)).
    discriminate.
  - assert (Hin : document (letters_page "upload") !! "templateFileUpload"
                  = Some blank_element) by (vm_compute; reflexivity).
    assert (Hst : document (letters_page "upload") !! "letterStatus" = Some blank_element)
      by (vm_compute; reflexivity).
    destruct (generateLetters_requires_template letters_refused (letters_page "upload")
                blank_element blank_element Hin eq_refl Hst) as (Hr & _ & Hm & _).
    split; [exact Hr|].
    apply (Hm ltac:(vm_compute; reflexivity) "upload" ltac:(vm_compute; reflexivity)).
    intros _. vm_compute. eauto.
Defined.

(** C4 as it is written fails when the data source itself is missing: on
    the upload source with neither file chosen, the message shown asks for
    the data file, not for the template. *)
Lemma generateLetters_template_counterexample :
  selected_template (letters_page "upload") = None /\
  letter_status (run (generateLetters letters_refused) (letters_page "upload"))
    = Some (letter_error "Please select a data file") /\
  letter_status (run (generateLetters letters_refused) (letters_page "upload"))
    <> Some (letter_error template_required).
Proof. vm_compute. split; [reflexivity|]. split; [reflexivity|]. discriminate. Qed.

(** C5.  For both region filters ([comparison] tells which): after the
    change handler the counties input holds, for a selection that is not
    empty, the county lists of the selected regions joined with a comma and
    a space, each county once; for an empty selection it holds the empty
    string; the clear function empties the input and deselects every
    option, and the handler then leaves the input empty. *)
Theorem region_filter_sets_counties comparison w sel cnt :
  document w !! filter_select comparison = Some sel ->
  document w !! filter_input comparison = Some cnt ->
  let selected := selectedRegions_of sel in
  let w' := run (on_change comparison) w in
  (selected <> [] ->
   exists union,
     input_value w' (filter_input comparison) = Some (VStr (Js.join ", " union)) /\
     NoDup union /\
     forall c, c ∈ union <->
       exists region counties,
         region ∈ selected /\ ENGLAND_REGIONS !! region = Some counties /\ c ∈ counties) /\
  (selected = [] -> input_value w' (filter_input comparison) = Some (VStr "")) /\
  ((comparison = true -> is_Some (document w !! "comparisonSicCodes")) ->
   let cleared := run (clear_filter comparison) w in
   input_value cleared (filter_input comparison) = Some (VStr "") /\
   selection cleared (filter_select comparison) = Some [] /\
   input_value (run (on_change comparison) cleared) (filter_input comparison)
     = Some (VStr "")).
Proof.
  intros Hsel Hcnt selected w'. subst w'.
  rewrite (region_filter_run comparison w sel cnt Hsel Hcnt). fold selected.
  unfold input_value. cbn. rewrite lookup_insert_eq. cbn.
  split; [|split].
  - intros Hne. exists (Js.Set_values (allCounties_of selected)).
    destruct (Set_values_spec (allCounties_of selected)) as [Hnd Hmem].
    split; [by destruct selected|]. split; [done|].
    intros c. rewrite Hmem. apply allCounties_of_spec.
  - intros ->. reflexivity.
  - intros Hsic. eapply clear_filter_run; eassumption.
Qed.

Lemma region_filter_sets_counties_witness :
  input_value (run onRegionChange regions_page) "counties"
    = Some (VStr "County Durham, Northumberland, Tyne and Wear, Greater London") /\
  input_value (run clearRegionFilter regions_page) "counties" = Some (VStr "").
Proof.
  destruct (region_filter_sets_counties false regions_page
              (set_options [ {| opt_value := "North East"; opt_selected := true |};
                             {| opt_value := "East"; opt_selected := false |};
                             {| opt_value := "London"; opt_selected := true |} ]
                 blank_element)
              blank_element eq_refl eq_refl) as (_ & _ & Hclear).
  split; [vm_compute; reflexivity|].
  destruct Hclear as (Hc & _); [discriminate | exact Hc].
Defined.



(** C7.  When the request of a poll itself fails (the fetch throws, or the
    body is not JSON), the status box shows the error and no timer is
    added; with no other timer pending nothing will ever run again. *)
Theorem pollEnrichmentStatus_request_failure jobId net msg w st :
  request_failed net = Some msg ->
  document w !! "enrichmentStatus" = Some st ->
  let w' := run (pollEnrichmentStatus jobId net) w in
  status_box w' "enrichmentStatus"
    = Some ("status-box error", [Src ("❌ Error checking status: " +:+ msg)], "block")
  /\ timers w' = timers w
  /\ (timers w = [] -> forall srv limit, fire_next srv limit w' = None).
Proof.
  intros Hf Hst w'. subst w'.
  assert (Hrun : run (pollEnrichmentStatus jobId net) w =
    with_document (insert "enrichmentStatus"
      (set_display "block" (set_innerHTML [Src ("❌ Error checking status: " +:+ msg)]
         (set_className "status-box error" st))))
      (with_requests (fun l => l ++ [GET (API_BASE (env w) +:+ "/api/status/" +:+ jobId)]) w)).
  { unfold pollEnrichmentStatus. unfold_M. cbn.
    destruct net as [e | res]; cbn in Hf.
    - injection Hf as ->. cbn. rewrite Hst. reflexivity.
    - destruct (body res); [discriminate|]. injection Hf as <-. cbn. rewrite Hst. reflexivity. }
  rewrite Hrun. unfold status_box. cbn. rewrite lookup_insert_eq. cbn.
  split; [reflexivity|]. split; [reflexivity|].
  intros Ht srv limit. unfold fire_next. cbn. rewrite Ht. reflexivity.
Qed.

Lemma pollEnrichmentStatus_request_failure_witness :
  timers (run (pollEnrichmentStatus "job-1" (Rejected "Failed to fetch")) enrichment_page) = [] /\
  fire_next test_server 1000000
    (run (pollEnrichmentStatus "job-1" (Rejected "Failed to fetch")) enrichment_page) = None.
Proof.
  destruct (pollEnrichmentStatus_request_failure "job-1" (Rejected "Failed to fetch")
              "Failed to fetch" enrichment_page blank_element eq_refl eq_refl)
    as (_ & Ht & Hq).
  split; [exact Ht | apply Hq; reflexivity].
Defined.



(** C9, at the failing input.  The business name is loaded as "Acme Ltd";
    the user clears the cell and the server acknowledges the empty value,
    which becomes the stored one; the next edit fails, and the cell keeps
    the text of the failed edit: it shows neither the acknowledged empty
    value nor the value first loaded. *)
Theorem failed_edit_after_blank_acknowledged :
  cell_original detail_view 1 = Some (Some "Acme Ltd") /\
  last_acknowledged "Acme Ltd" [("", save_accepted); ("Beta Ltd", Rejected "Failed to fetch")]
    = "" /\
  cell_original cleared_then_failed 1 = Some (Some "") /\
  cell_text cleared_then_failed 1 = Some "Beta Ltd".
Proof. vm_compute. repeat split. Qed.

(** C10.  In the branch of [pollEnrichmentStatus] for a job that is
    neither completed nor failed, with counters that are safe integers: a
    missing or zero [processed] counts as 0, a missing or zero [total] as 1,
    the divisor is never zero, and the percentage is an integer, the value
    the progress bar is given. *)
Theorem percent_never_divides_by_zero jobId res data w :
  on_page w enrichment_ids = true ->
  body res = Some data ->
  status data <> Some "completed" -> status data <> Some "failed" ->
  isSafeInteger (processed data) -> isSafeInteger (total data) ->
  let p := Js.num_or (processed data) 0 in
  let t := Js.num_or (total data) 1 in
  (processed data = None \/ processed data = Some 0 -> p = 0) /\
  (total data = None \/ total data = Some 0 -> t = 1) /\
  t <> 0 /\
  (forall s, Js.of_Z t <> S754_zero s) /\
  exists k, percent p t = Some k /\
    progress_of (run (pollEnrichmentStatus jobId (Resolved res)) w) = Some (VNum k).
Proof.
  intros Hpage Hbody Hs1 Hs2 Hp Ht p t.
  assert (Ht0 : t <> 0) by (apply num_or_nonzero; lia).
  split; [unfold p; intros [H | H]; rewrite H; reflexivity|].
  split; [unfold t; intros [H | H]; rewrite H; reflexivity|].
  split; [exact Ht0|]. split.
  - intros s Hz.
    pose proof (of_Z_sized t Ht0 ltac:(apply num_or_safe; [done | simpl; lia])) as Hsz.
    rewrite Hz in Hsz. exact Hsz.
  - destruct (poll_step jobId res data w Hpage Hbody) as (_ & _ & H).
    destruct (H Hs1 Hs2 Hp Ht) as (Hk & _). exact Hk.
Qed.

Lemma percent_never_divides_by_zero_witness :
  exists k,
    percent 0 1 = Some k /\
    progress_of (run (pollEnrichmentStatus "job-1"
                        (answer {| status := Some "queued"; processed := None;
                                   total := Some 0; error := None; result := None |}))
                     enrichment_page) = Some (VNum k).
Proof.
  destruct (percent_never_divides_by_zero "job-1"
              (ok_response {| status := Some "queued"; processed := None;
                              total := Some 0; error := None; result := None |})
              {| status := Some "queued"; processed := None;
                 total := Some 0; error := None; result := None |}
              enrichment_page eq_refl eq_refl) as (_ & _ & _ & _ & H);
    try discriminate; try exact I; try (simpl; lia).
  exact H.
Defined.

(** * Further properties of the controllers *)

(** ** The enrichment poll *)

(** X1.  While the status endpoint keeps answering that the job is going on,
    with counters that may change from one answer to the next, polling never
    stops by itself.  Each poll leaves one timer pending, for the same job,
    2000 ms after its answer was handled; whatever the number [n], when [n]
    of these timers have fired, [n + 1] status requests have been made, the
    bar shows the percentage of the last answer, and the next poll is
    pending.  Polls are counted, not milliseconds: how long an answer takes
    does not matter. *)
Theorem pollEnrichmentStatus_keeps_polling srv jobId w n :
  on_page w enrichment_ids = true -> timers w = [] ->
  (forall i, still_running (status_api srv i jobId)) ->
  exists w',
    fire_times srv n
      (run (pollEnrichmentStatus jobId (status_api srv (length (requests w)) jobId)) w)
    = Some w' /\
    length (requests w') = (length (requests w) + n + 1)%nat /\
    poll_pending jobId (now w' + 2000) w' /\
    exists k, percent_of (status_api srv (length (requests w) + n) jobId) = Some k /\
              progress_of w' = Some (VNum k).
Proof.
  intros Hpage Ht Hsrv.
  destruct (poll_running_step jobId _ w Hpage (Hsrv (length (requests w))))
    as (Hp1 & Htm & Hreq & Hn & Hk).
  set (w1 := run (pollEnrichmentStatus jobId (status_api srv (length (requests w)) jobId)) w)
    in *.
  assert (Hpend : poll_pending jobId (now w1 + 2000) w1).
  { eexists. split; [rewrite Htm, Ht; reflexivity|]. cbn. split; [reflexivity|]. by rewrite Hn. }
  destruct (polls_go_on srv jobId n w1 _ Hp1 Hpend Hsrv)
    as (w' & Hrun & _ & (T' & Hpend' & HT') & Hreq' & Hk').
  exists w'. split; [exact Hrun|]. split; [lia|].
  destruct n as [|n].
  - cbn in Hrun. injection Hrun as <-. split; [exact Hpend|].
    by rewrite Nat.add_0_r.
  - split; [by rewrite <- HT'|].
    destruct (Hk' ltac:(done)) as (k & Hk2 & Hprog). exists k. split; [|exact Hprog].
    replace (length (requests w) + S n)%nat with (length (requests w1) + S n - 1)%nat by lia.
    exact Hk2.
Qed.

Lemma pollEnrichmentStatus_keeps_polling_witness :
  exists w',
    fire_times slow_server 3
      (run (pollEnrichmentStatus "job-1" (answer (running 1 4))) enrichment_page) = Some w' /\
    length (requests w') = 4%nat /\
    poll_pending "job-1" (now w' + 2000) w' /\
    progress_of w' = Some (VNum 75).
Proof.
  destruct (pollEnrichmentStatus_keeps_polling slow_server "job-1" enrichment_page 3)
    as (w' & Hrun & Hreq & Hpend & k & Hk & Hprog).
  - reflexivity.
  - reflexivity.
  - intros [|[|i]]; eexists _, _; repeat split; try reflexivity; try discriminate;
      simpl; lia.
  - exists w'. split; [exact Hrun|]. split; [exact Hreq|]. split; [exact Hpend|].
    rewrite Hprog. vm_compute in Hk. congruence.
Defined.

(** X2.  A [completed] answer that carries no result: the bar is at 100 and the
    download button is revealed before the result is read; reading it
    throws, so the dataset file and the job id stay as they were, the
    status box turns to an error and nothing further is scheduled. *)
Theorem pollEnrichmentStatus_completed_without_result jobId res data w :
  on_page w enrichment_ids = true ->
  body res = Some data ->
  status data = Some "completed" -> result data = None ->
  let w' := run (pollEnrichmentStatus jobId (Resolved res)) w in
  progress_of w' = Some (VNum 100) /\
  download_shown w' = Some "inline-block" /\
  currentDatasetFile w' = currentDatasetFile w /\
  enrichmentJobId w' = enrichmentJobId w /\
  (className <$> document w' !! "enrichmentStatus") = Some "status-box error" /\
  (innerHTML <$> document w' !! "datasetInfo") = (innerHTML <$> document w !! "datasetInfo") /\
  timers w' = timers w.
Proof.
  intros Hpage Hbody Hs Hr w'. subst w'.
  unfold enrichment_ids in Hpage. page Hpage.
  unfold pollEnrichmentStatus, progress_of, download_shown. unfold_M. cbn.
  rewrite Hbody. cbn. rewrite Hs. cbn.
  rewrite bool_decide_true by reflexivity. cbn.
  look. rewrite Hr. cbn. look. rewrite eqb_append_cons. look. done.
Qed.

Lemma pollEnrichmentStatus_completed_without_result_witness :
  download_shown
    (run (pollEnrichmentStatus "job-1"
            (answer {| status := Some "completed"; processed := None; total := None;
                       error := None; result := None |})) enrichment_page)
  = Some "inline-block" /\
  currentDatasetFile
    (run (pollEnrichmentStatus "job-1"
            (answer {| status := Some "completed"; processed := None; total := None;
                       error := None; result := None |})) enrichment_page)
  = None.
Proof.
  destruct (pollEnrichmentStatus_completed_without_result "job-1"
              (ok_response {| status := Some "completed"; processed := None; total := None;
                              error := None; result := None |})
              {| status := Some "completed"; processed := None; total := None;
                 error := None; result := None |}
              enrichment_page eq_refl eq_refl eq_refl eq_refl)
    as (_ & Hd & Hf & _).
  split; [exact Hd | exact Hf].
Defined.

(** ** The global search *)





(** X5.  The highlighter builds a regular expression from the query as typed.
    When the constructor rejects it (an unbalanced parenthesis, [c++]), a
    search that found companies cannot be shown: the data is stored in
    [lastSearchResults], the results on display stay those of the search
    before, and the status box turns to an error. *)
Theorem executeSearch_invalid_pattern query res data dss ds cs c w st :
  (2 <= String.length query)%nat ->
  body res = Some data -> sr_success data = true ->
  sr_total_matching data <> Some 0 ->
  sr_datasets data = Some dss -> ds ∈ dss ->
  sd_companies ds = Some cs -> c ∈ cs -> sc_company_number c <> "" ->
  (forall text, regexp_mark (env w) query text = None) ->
  document w !! "searchStatus" = Some st ->
  let w' := run (executeSearch query (Resolved res)) w in
  lastSearchResults w' = Some data /\
  document w' !! "searchResults" = document w !! "searchResults" /\
  status_box w' "searchStatus" = Some ("status-box error", [Src SyntaxError], "block").
Proof.
  intros Hlen Hbody Hok Htot Hdss Hds Hcs Hc Hnum Hre Hst w'. subst w'.
  assert (Hq : query <> "") by (intros ->; cbn in Hlen; lia).
  unfold executeSearch, status_box.
  destruct (Nat.ltb_spec (String.length query) 2) as [|_]; [lia|].
  unfold_M. cbn -[renderSearchResults]. rewrite Hst. cbn -[renderSearchResults].
  rewrite Hbody. cbn -[renderSearchResults]. rewrite Hok. cbn -[renderSearchResults].
  rewrite bool_decide_false by exact Htot.
  erewrite renderSearchResults_rejects by eassumption.
  look. done.
Qed.

Lemma executeSearch_invalid_pattern_witness :
  lastSearchResults (run (executeSearch "c++" (answer one_result)) strict_search_tab)
    = Some one_result /\
  status_box (run (executeSearch "c++" (answer one_result)) strict_search_tab) "searchStatus"
    = Some ("status-box error", [Src SyntaxError], "block").
Proof.
  destruct (executeSearch_invalid_pattern "c++" (ok_response one_result) one_result
              [one_dataset] one_dataset [one_company] one_company strict_search_tab
              blank_element) as (Hl & _ & Hs).
  - simpl; lia.
  - reflexivity.
  - reflexivity.
  - discriminate.
  - reflexivity.
  - apply list_elem_of_In; simpl; auto.
  - reflexivity.
  - apply list_elem_of_In; simpl; auto.
  - discriminate.
  - intros text. reflexivity.
  - reflexivity.
  - split; [exact Hl | exact Hs].
Defined.

(** ** Inline editing *)

(** X6.  A save the server accepts, from the blur to the end of the styling.
    One [PATCH] carries the trimmed text under the key of the column; the
    cell is marked [saved] and no longer [editing]; the stored original
    value becomes the trimmed text while the cell keeps the text as typed;
    once 1000 ms have passed the mark and the background are gone and
    nothing is pending. *)
Theorem saveCell_accepted_course srv fuel limit node datasetId res data w c :
  nodes w !! node = Some c -> timers w = [] ->
  ok res = true -> body res = Some data -> save_success data = true ->
  now w + 1000 <= limit ->
  let w1 := run (saveCell node datasetId (Resolved res)) w in
  requests w1 = requests w ++ [save_request w c] /\
  cell_background w1 node = Some "#d4edda" /\
  (exists classes, cell_classes w1 node = Some classes /\
     ("saved" ∈ classes) /\ ("editing" ∉ classes)) /\
  exists w2,
    advance srv (S fuel) limit w1 = Some w2 /\
    cell_text w2 node = Some (innerText c) /\
    cell_original w2 node = Some (Some (Js.trim (innerText c))) /\
    cell_background w2 node = Some "" /\
    (exists classes, cell_classes w2 node = Some classes /\
       ("saved" ∉ classes) /\ ("editing" ∉ classes)) /\
    timers w2 = [] /\ requests w2 = requests w1.
Proof.
  intros Hc Ht Hok Hbody Hs Hlim w1. subst w1.
  rewrite (saveCell_success_run _ _ _ _ _ _ Hc Hok Hbody Hs).
  set (w1 := with_next_timer _ _).
  assert (Htm : timers w1 = [{| timer_id := next_timer w; due := now w + 1000;
                                action := ClearSaved node |}]).
  { subst w1. cbn. rewrite Ht. reflexivity. }
  split; [reflexivity|].
  split; [unfold cell_background; subst w1; cbn; cell_look; reflexivity|].
  split.
  { eexists. split; [unfold cell_classes; subst w1; cbn; cell_look; reflexivity|].
    split; [apply elem_of_classList_add_iff; by left|]. class_absent. }
  cbn [advance]. rewrite (fire_next_single _ _ _ _ Htm). cbn [due action].
  replace (now w + 1000 <=? limit) with true by (symmetry; apply Z.leb_le; lia).
  unfold run_callback. rewrite run_bind. cbn [get].
  set (w2 := run (clear_saved node) _).
  assert (Htm2 : timers w2 = []).
  { subst w2. unfold clear_saved, with_cell. unfold_M. reflexivity. }
  rewrite advance_idle by (unfold fire_next; rewrite Htm2; reflexivity).
  eexists. split; [reflexivity|].
  unfold cell_text, cell_original, cell_background, cell_classes.
  subst w2 w1. unfold clear_saved, with_cell. unfold_M. cbn. cell_look.
  repeat split; try reflexivity.
  eexists. split; [reflexivity|].
  split; class_absent.
Qed.

Lemma saveCell_accepted_course_witness :
  exists w2,
    advance test_server 1 1000
      (run (saveCell 1 "3" save_accepted) (type_into 1 " Acme Limited " detail_view)) = Some w2 /\
    cell_text w2 1 = Some " Acme Limited " /\
    cell_original w2 1 = Some (Some "Acme Limited").
Proof.
  edestruct (saveCell_accepted_course test_server 0 1000 1 "3"
               (ok_response {| save_success := true |}) {| save_success := true |}
               (type_into 1 " Acme Limited " detail_view))
    as (_ & _ & _ & w2 & Hadv & Htext & Horig & _).
  - vm_compute. reflexivity.
  - reflexivity.
  - reflexivity.
  - reflexivity.
  - reflexivity.
  - vm_compute. discriminate.
  - exists w2. split; [exact Hadv|]. split; [exact Htext | exact Horig].
Defined.

(** X7.  A save that fails on a cell whose stored value is not empty, from the
    blur to the end of the styling: the stored value is put back and kept,
    the cell is marked [error]; once 3000 ms have passed the mark and the
    background are gone and nothing is pending. *)
Theorem saveCell_refused_course srv fuel limit node datasetId net w c v :
  nodes w !! node = Some c -> timers w = [] ->
  save_failed net = true ->
  originalValue c = Some v -> v <> "" ->
  now w + 3000 <= limit ->
  let w1 := run (saveCell node datasetId net) w in
  requests w1 = requests w ++ [save_request w c] /\
  cell_text w1 node = Some v /\
  cell_background w1 node = Some "#f8d7da" /\
  (exists classes, cell_classes w1 node = Some classes /\
     ("error" ∈ classes) /\ ("editing" ∉ classes)) /\
  exists w2,
    advance srv (S fuel) limit w1 = Some w2 /\
    cell_text w2 node = Some v /\
    cell_original w2 node = Some (Some v) /\
    cell_background w2 node = Some "" /\
    (exists classes, cell_classes w2 node = Some classes /\
       ("error" ∉ classes) /\ ("editing" ∉ classes)) /\
    timers w2 = [] /\ requests w2 = requests w1.
Proof.
  intros Hc Ht Hf Ho Hv Hlim w1. subst w1.
  rewrite (saveCell_failure_run _ _ _ _ _ Hc Hf).
  assert (Hor : Js.or_else (originalValue c) (innerText c) = v).
  { rewrite Ho. cbn. by rewrite (proj2 (String.eqb_neq v "")). }
  rewrite Hor.
  set (w1 := with_next_timer _ _).
  assert (Htm : timers w1 = [{| timer_id := next_timer w; due := now w + 3000;
                                action := ClearError node |}]).
  { subst w1. cbn. rewrite Ht. reflexivity. }
  split; [reflexivity|].
  split; [unfold cell_text; subst w1; cbn; cell_look; reflexivity|].
  split; [unfold cell_background; subst w1; cbn; cell_look; reflexivity|].
  split.
  { eexists. split; [unfold cell_classes; subst w1; cbn; cell_look; reflexivity|].
    split; [apply elem_of_classList_add_iff; by left|]. class_absent. }
  cbn [advance]. rewrite (fire_next_single _ _ _ _ Htm). cbn [due action].
  replace (now w + 3000 <=? limit) with true by (symmetry; apply Z.leb_le; lia).
  unfold run_callback. rewrite run_bind. cbn [get].
  set (w2 := run (clear_error node) _).
  assert (Htm2 : timers w2 = []).
  { subst w2. unfold clear_error, with_cell. unfold_M. reflexivity. }
  rewrite advance_idle by (unfold fire_next; rewrite Htm2; reflexivity).
  eexists. split; [reflexivity|].
  unfold cell_text, cell_original, cell_background, cell_classes.
  subst w2 w1. unfold clear_error, with_cell. unfold_M. cbn. cell_look.
  rewrite Ho.
  repeat split; try reflexivity.
  eexists. split; [reflexivity|].
  split; class_absent.
Qed.

Lemma saveCell_refused_course_witness :
  exists w2,
    advance test_server 1 3000
      (run (saveCell 1 "3" (http_error 500)) (type_into 1 "Beta Ltd" detail_view)) = Some w2 /\
    cell_text w2 1 = Some "Acme Ltd" /\ timers w2 = [].
Proof.
  edestruct (saveCell_refused_course test_server 0 3000 1 "3" (http_error 500)
               (type_into 1 "Beta Ltd" detail_view))
    as (_ & _ & _ & _ & w2 & Hadv & Htext & _ & _ & _ & Htm & _).
  - vm_compute. reflexivity.
  - reflexivity.
  - reflexivity.
  - vm_compute. reflexivity.
  - discriminate.
  - vm_compute. discriminate.
  - exists w2. split; [exact Hadv|]. split; [exact Htext | exact Htm].
Defined.

(** ** The company table and the dataset list *)

(** X8.  With no company to show, no table is built: a missing or empty list
    puts the placeholder in the container and changes nothing else, creating
    no cell and attaching no editing to the cells already on the page; when
    the container is missing as well, nothing changes at all. *)
Theorem renderCompaniesTable_nothing_to_show containerId companies datasetId w :
  companies = None \/ companies = Some [] ->
  run (renderCompaniesTable containerId companies datasetId) w
  = match document w !! containerId with
    | Some container =>
        with_document
          (insert containerId
             (set_innerHTML [Node "p" [] [Src "No companies found."]] container)) w
    | None => w
    end.
Proof.
  intros Hcs. unfold renderCompaniesTable. unfold_M. cbn.
  destruct (document w !! containerId) as [container|] eqn:Hc; [|reflexivity].
  destruct Hcs as [-> | ->]; cbn; rewrite Hc; reflexivity.
Qed.

Lemma renderCompaniesTable_nothing_to_show_witness :
  container_html (run (renderCompaniesTable "datasetCompanies" (Some []) "3") detail_view)
    "datasetCompanies"
  = Some [Node "p" [] [Src "No companies found."]] /\
  nodes (run (renderCompaniesTable "datasetCompanies" (Some []) "3") detail_view)
  = nodes detail_view.
Proof.
  rewrite (renderCompaniesTable_nothing_to_show "datasetCompanies" (Some []) "3" detail_view)
    by (right; reflexivity).
  split; vm_compute; reflexivity.
Defined.

(** X9.  A failed loading shows its message in the status box in place of the
    loading notice and leaves the list as it was; one request was made. *)
Theorem loadDatasets_failure_keeps_list net msg w st :
  load_failed net = Some msg -> msg <> "" ->
  document w !! "datasetsStatus" = Some st ->
  let w' := run (loadDatasets net) w in
  status_box w' "datasetsStatus" = Some ("status-box error", [Src msg], "block") /\
  document w' !! "datasetsList" = document w !! "datasetsList" /\
  requests w' = requests w ++ [datasets_request w].
Proof.
  intros Hf Hmsg Hst w'. subst w'.
  assert (Hne : String.eqb msg "" = false) by (by apply String.eqb_neq).
  unfold loadDatasets, status_box, datasets_request. unfold_M. cbn. rewrite Hst. cbn.
  rewrite ?eqb_append_cons. cbn.
  destruct net as [e|res]; cbn in Hf |- *.
  - injection Hf as ->. look. rewrite Hne. look. done.
  - destruct (ok res); cbn.
    + destruct (body res) as [data|]; cbn.
      * destruct (dl_success data); [discriminate|]. injection Hf as Hf. cbn.
        look. rewrite Hf, Hne. look. done.
      * injection Hf as <-. look. done.
    + injection Hf as Hf. look. rewrite Hf, Hne. look. done.
Qed.

Lemma loadDatasets_failure_keeps_list_witness :
  status_box (run (loadDatasets unavailable) datasets_page) "datasetsStatus"
  = Some ("status-box error", [Src "HTTP 503: Service Unavailable"], "block").
Proof.
  destruct (loadDatasets_failure_keeps_list unavailable "HTTP 503: Service Unavailable"
              datasets_page blank_element) as (Hs & _).
  - vm_compute. reflexivity.
  - discriminate.
  - reflexivity.
  - exact Hs.
Defined.

(** X10.  When the page has no list container, a successful loading returns
    before the status box is cleared: the loading notice stays. *)
Theorem loadDatasets_without_container res data w st :
  ok res = true -> body res = Some data -> dl_success data = true ->
  document w !! "datasetsList" = None ->
  document w !! "datasetsStatus" = Some st ->
  status_box (run (loadDatasets (Resolved res)) w) "datasetsStatus"
  = Some ("status-box info",
          [Src ("<span class=" +:+ Js.quoted "loading" +:+ "></span> Loading datasets...")],
          "block").
Proof.
  intros Hok Hbody Hs Hl Hst.
  unfold loadDatasets, status_box. unfold_M. cbn. rewrite Hst. cbn.
  rewrite ?eqb_append_cons. cbn. rewrite Hok. cbn. rewrite Hbody. cbn. rewrite Hs. cbn.
  rewrite lookup_insert_ne by done. rewrite Hl. look. done.
Qed.

Lemma loadDatasets_without_container_witness :
  status_box (run (loadDatasets (answer two_datasets)) (page_with ["datasetsStatus"]))
    "datasetsStatus"
  = Some ("status-box info",
          [Src ("<span class=" +:+ Js.quoted "loading" +:+ "></span> Loading datasets...")],
          "block").
Proof.
  apply (loadDatasets_without_container (ok_response two_datasets) two_datasets
           (page_with ["datasetsStatus"]) blank_element); reflexivity.
Defined.

(** ** Letters *)

(** X11.  A success or an error message hides by itself 8000 ms after it was
    shown, and not before; a message of any other type stays, nothing being
    scheduled for it. *)
Theorem showLetterStatus_hides_by_itself srv fuel limit message type w st :
  document w !! "letterStatus" = Some st -> timers w = [] -> message <> "" ->
  now w + 8000 <= limit ->
  let w1 := run (showLetterStatus message type) w in
  letter_status w1 = Some (letter_message message type, "block") /\
  (forall early, early < now w + 8000 -> fire_next srv early w1 = None) /\
  exists w2,
    advance srv (S fuel) limit w1 = Some w2 /\ timers w2 = [] /\
    letter_status w2
    = Some (letter_message message type, if self_hiding type then "none" else "block").
Proof.
  intros Hst Ht Hm Hlim w1. subst w1.
  rewrite (showLetterStatus_run _ _ _ _ Hst Hm). cbn zeta.
  destruct (self_hiding type).
  - set (w1 := with_next_timer _ _).
    assert (Htm : timers w1 = [{| timer_id := next_timer w; due := now w + 8000;
                                  action := HideLetterStatus |}]).
    { subst w1. cbn. rewrite Ht. reflexivity. }
    split; [unfold letter_status; subst w1; look; reflexivity|].
    split.
    { intros early He. rewrite (fire_next_single _ _ _ _ Htm). cbn [due].
      destruct (Z.leb_spec (now w + 8000) early); [lia|reflexivity]. }
    cbn [advance]. rewrite (fire_next_single _ _ _ _ Htm). cbn [due action].
    replace (now w + 8000 <=? limit) with true by (symmetry; apply Z.leb_le; lia).
    unfold run_callback. rewrite run_bind. cbn [get].
    set (w2 := run hide_letter_status _).
    assert (Hw2 : timers w2 = [] /\
                  letter_status w2 = Some (letter_message message type, "none")).
    { subst w2 w1. unfold hide_letter_status, letter_status. unfold_M. look. done. }
    destruct Hw2 as [Htm2 Hls].
    rewrite advance_idle by (unfold fire_next; rewrite Htm2; reflexivity).
    eexists. split; [reflexivity|]. split; [exact Htm2 | exact Hls].
  - set (w1 := with_document _ w).
    assert (Htm : timers w1 = []) by exact Ht.
    split; [unfold letter_status; subst w1; look; reflexivity|].
    split; [intros early _; unfold fire_next; rewrite Htm; reflexivity|].
    rewrite advance_idle by (unfold fire_next; rewrite Htm; reflexivity).
    eexists. split; [reflexivity|]. split; [exact Htm|].
    unfold letter_status. subst w1. look. reflexivity.
Qed.

Lemma showLetterStatus_hides_by_itself_witness :
  exists w2,
    advance test_server 1 8000 (run (showLetterStatus "Data file cleared" "error") letters_tab)
      = Some w2 /\
    letter_status w2 = Some (letter_message "Data file cleared" "error", "none").
Proof.
  destruct (showLetterStatus_hides_by_itself test_server 0 8000 "Data file cleared" "error"
              letters_tab blank_element) as (_ & _ & w2 & Hadv & _ & Hls).
  - reflexivity.
  - reflexivity.
  - discriminate.
  - vm_compute. discriminate.
  - exists w2. split; [exact Hadv | exact Hls].
Defined.

(** X12.  The timer of a message is never cancelled.  A message of a type that
    does not hide by itself, shown at a time [t] while the timer of an
    earlier success or error message is pending, is hidden when that timer
    fires, 8000 ms after the earlier message and not after its own. *)
Theorem showLetterStatus_hidden_by_earlier_timer srv fuel first type later t w st :
  document w !! "letterStatus" = Some st -> timers w = [] ->
  first <> "" -> later <> "" ->
  self_hiding type = true ->
  now w <= t < now w + 8000 ->
  exists w2 w3,
    advance srv fuel t (run (showLetterStatus first type) w) = Some w2 /\
    letter_status (run (showLetterStatus later "info") w2)
      = Some (letter_message later "info", "block") /\
    advance srv (S fuel) (now w + 8000) (run (showLetterStatus later "info") w2) = Some w3 /\
    letter_status w3 = Some (letter_message later "info", "none").
Proof.
  intros Hst Ht Hf Hl Hty [Ht0 Ht1].
  rewrite (showLetterStatus_run _ _ _ _ Hst Hf). cbn zeta. rewrite Hty.
  set (w1 := with_next_timer _ _).
  assert (Htm : timers w1 = [{| timer_id := next_timer w; due := now w + 8000;
                                action := HideLetterStatus |}]).
  { subst w1. cbn. rewrite Ht. reflexivity. }
  rewrite advance_idle.
  2:{ rewrite (fire_next_single _ _ _ _ Htm). cbn [due].
      destruct (Z.leb_spec (now w + 8000) t); [lia|reflexivity]. }
  set (w2 := with_now _ w1).
  assert (Hst2 : document w2 !! "letterStatus"
                 = Some (set_display "block" (set_innerHTML (letter_message first type) st))).
  { subst w2 w1. look. reflexivity. }
  exists w2. rewrite (showLetterStatus_run _ _ _ _ Hst2 Hl). cbn zeta.
  change (self_hiding "info") with false. cbn iota.
  set (w3 := with_document _ w2).
  assert (Htm3 : timers w3 = [{| timer_id := next_timer w; due := now w + 8000;
                                 action := HideLetterStatus |}]) by exact Htm.
  eexists. split; [reflexivity|].
  split; [unfold letter_status; subst w3; look; reflexivity|].
  cbn [advance]. rewrite (fire_next_single _ _ _ _ Htm3). cbn [due action].
  rewrite Z.leb_refl.
  unfold run_callback. rewrite run_bind. cbn [get].
  set (w4 := run hide_letter_status _).
  assert (Hw4 : timers w4 = [] /\
                letter_status w4 = Some (letter_message later "info", "none")).
  { subst w4 w3. unfold hide_letter_status, letter_status. unfold_M. look. done. }
  destruct Hw4 as [Htm4 Hls].
  rewrite advance_idle by (unfold fire_next; rewrite Htm4; reflexivity).
  split; [reflexivity | exact Hls].
Qed.

Lemma showLetterStatus_hidden_by_earlier_timer_witness :
  exists w2 w3,
    advance test_server 0 7000 (run (showLetterStatus "Please select a data file" "error")
                                  letters_tab) = Some w2 /\
    advance test_server 1 8000 (run (showLetterStatus "Generating..." "info") w2) = Some w3 /\
    letter_status w3 = Some (letter_message "Generating..." "info", "none").
Proof.
  destruct (showLetterStatus_hidden_by_earlier_timer test_server 0
              "Please select a data file" "error" "Generating..." 7000 letters_tab
              blank_element) as (w2 & w3 & H2 & _ & H3 & Hls).
  - reflexivity.
  - reflexivity.
  - discriminate.
  - discriminate.
  - reflexivity.
  - simpl. lia.
  - exists w2, w3. split; [exact H2|]. split; [exact H3 | exact Hls].
Defined.

(** X13.  In the mode [combined] the number of letters per file must read as an
    integer of 1 or more: otherwise nothing is sent and the status line
    says so. *)
Theorem generateLetters_letters_per_file_rejected net w datasetId input :
  dataset_form_filled w datasetId "combined" ->
  document w !! "lettersPerFile" = Some input ->
  lettersPerFile_sent w "combined" = None ->
  is_Some (document w !! "letterStatus") ->
  let w' := run (generateLetters net) w in
  requests w' = requests w /\
  letter_status w'
  = Some (letter_message "Letters per file must be a number greater than 0" "error", "block").
Proof.
  intros Hfilled Hin Hsent Hst w'. subst w'.
  assert (Hread : read_lettersPerFile "combined" w
                  = (showLetterStatus "Letters per file must be a number greater than 0" "error" ;;
                     ret None) w).
  { unfold read_lettersPerFile, lettersPerFile_sent in *. cbn [String.eqb Ascii.eqb Bool.eqb] in *.
    unfold bind at 1, getElementById at 1. rewrite Hin in *. cbn in Hsent |- *.
    destruct (Js.parseInt (value_string input)) as [n|]; [|reflexivity].
    cbn in Hsent. destruct (n <? 1); [reflexivity | discriminate]. }
  assert (Hrun : run (generateLetters net) w
                 = run (showLetterStatus "Letters per file must be a number greater than 0"
                          "error") w).
  { unfold run. rewrite (generateLetters_dataset_reads _ _ _ _ Hfilled).
    unfold bind at 1. rewrite Hread. unfold bind at 1.
    pose proof (showLetterStatus_returns "Letters per file must be a number greater than 0"
                  "error" w) as Hr.
    destruct (showLetterStatus _ _ w) as [o w1]. cbn [fst snd] in *. subst o. reflexivity. }
  rewrite Hrun. split.
  - apply quiet_showLetterStatus.
  - apply letter_status_shown; [exact Hst | discriminate].
Qed.

Lemma generateLetters_letters_per_file_rejected_witness :
  requests (run (generateLetters refused_letters) (combined_letters_page "none")) = [] /\
  letter_status (run (generateLetters refused_letters) (combined_letters_page "none"))
  = Some (letter_message "Letters per file must be a number greater than 0" "error", "block").
Proof.
  apply (generateLetters_letters_per_file_rejected refused_letters
           (combined_letters_page "none") "4" (set_value (VStr "none") blank_element)
           (combined_letters_page_filled "none")).
  - reflexivity.
  - reflexivity.
  - exists blank_element. reflexivity.
Defined.

(** X14.  With the form ready, a generation from a saved dataset issues exactly
    one request, whatever comes back: a [POST] to the dataset route with
    the mode and the number of letters per file in the query.  In every mode
    but [combined] that number is 1, whatever the input holds.  In the mode
    [combined] it is the number read in the input, taken below 2^53: up to
    there the script holds the number exactly and prints it digit by
    digit. *)
Theorem generateLetters_dataset_request net w datasetId mode n :
  dataset_form_ready w datasetId mode n -> n < 2 ^ 53 ->
  requests (run (generateLetters net) w)
  = requests w ++ [dataset_letters_request datasetId mode n] /\
  (mode <> "combined" -> n = 1).
Proof.
  intros Hready _.
  destruct (generateLetters_dataset_prefix net w datasetId mode n Hready)
    as (w2 & Hr & _ & _ & Hrun).
  split.
  - unfold run. rewrite Hrun, try_fetch_requests.
    + by rewrite Hr.
    + intros r w3. pose proof (receive_letters_requests r w3) as H3.
      unfold bind. destruct (receive_letters r w3) as [[[]|e] w4]; cbn [snd] in H3 |- *;
        [|done]. rewrite <- H3. apply quiet_showLetterStatus.
    + intros e. apply quiet_showLetterStatus.
  - intros Hm. destruct Hready as (_ & Hn).
    unfold lettersPerFile_sent in Hn.
    rewrite (proj2 (String.eqb_neq mode "combined")) in Hn by done. congruence.
Qed.

Lemma generateLetters_dataset_request_witness :
  requests (run (generateLetters refused_letters) ready_letters_page)
  = [dataset_letters_request "4" "zip" 1].
Proof.
  destruct (generateLetters_dataset_request refused_letters ready_letters_page "4" "zip" 1
              ready_letters_page_ready) as [H _].
  - simpl. lia.
  - exact H.
Defined.

(** X15.  A refused generation downloads nothing and shows the reason as an
    error in the status line. *)
Theorem generateLetters_dataset_refused net msg w datasetId mode n :
  dataset_form_ready w datasetId mode n ->
  is_Some (document w !! "letterStatus") ->
  letters_failed net = Some msg ->
  let w' := run (generateLetters net) w in
  downloads w' = downloads w /\
  letter_status w' = Some (letter_message ("Error: " +:+ msg) "error", "block").
Proof.
  intros Hready Hst Hf w'. subst w'.
  destruct (generateLetters_dataset_prefix net w datasetId mode n Hready)
    as (w2 & _ & Hd & Hs & Hrun).
  specialize (Hs Hst).
  unfold run. rewrite Hrun.
  assert (Hcatch : try_catch
        (let* response := fetch (dataset_letters_request datasetId mode n) net in
         receive_letters response ;;
         showLetterStatus generated_from_dataset "success")
        (fun error => showLetterStatus ("Error: " +:+ error) "error") w2
      = showLetterStatus ("Error: " +:+ msg) "error"
          (with_requests (fun l => l ++ [dataset_letters_request datasetId mode n]) w2)).
  { unfold try_catch, bind at 1, fetch, bind at 1, modify.
    destruct net as [e|res]; cbn in Hf |- *.
    - by injection Hf as ->.
    - unfold bind at 1, receive_letters, bind at 1.
      destruct (ok res); [discriminate|]. injection Hf as <-. cbn.
      destruct (body res) as [data|]; reflexivity. }
  rewrite Hcatch.
  set (w3 := with_requests _ w2).
  split.
  - destruct (quiet_showLetterStatus ("Error: " +:+ msg) "error" w3) as (_ & -> & _).
    exact Hd.
  - apply (letter_status_shown _ _ w3); [exact Hs | discriminate].
Qed.

Lemma generateLetters_dataset_refused_witness :
  downloads (run (generateLetters refused_letters) ready_letters_page) = [] /\
  letter_status (run (generateLetters refused_letters) ready_letters_page)
  = Some (letter_message "Error: Generation failed (422)" "error", "block").
Proof.
  apply (generateLetters_dataset_refused refused_letters "Generation failed (422)"
           ready_letters_page "4" "zip" 1 ready_letters_page_ready).
  - exists blank_element. reflexivity.
  - reflexivity.
Defined.

(** X16.  An archive the server sends is downloaded under the name its
    [content-disposition] header gives between the quotes, and as
    [letters.zip] when there is no such header; the status line reports the
    success. *)
Theorem generateLetters_dataset_download res name w datasetId mode n :
  dataset_form_ready w datasetId mode n ->
  is_Some (document w !! "letterStatus") ->
  ok res = true ->
  header_get res "content-disposition" = disposition name ->
  (forall file, name = Some file -> file <> "" /\ free_of Js.dquote file = true) ->
  let w' := run (generateLetters (Resolved res)) w in
  downloads w' = downloads w ++ [default "letters.zip" name] /\
  letter_status w' = Some (letter_message generated_from_dataset "success", "block").
Proof.
  intros Hready Hst Hok Hhdr Hname w'. subst w'.
  destruct (generateLetters_dataset_prefix (Resolved res) w datasetId mode n Hready)
    as (w2 & _ & Hd & Hs & Hrun).
  specialize (Hs Hst).
  unfold run. rewrite Hrun.
  assert (Hbody : try_catch
        (let* response := fetch (dataset_letters_request datasetId mode n) (Resolved res) in
         receive_letters response ;;
         showLetterStatus generated_from_dataset "success")
        (fun error => showLetterStatus ("Error: " +:+ error) "error") w2
      = showLetterStatus generated_from_dataset "success"
          (with_downloads (fun l => l ++ [default "letters.zip" name])
             (with_requests (fun l => l ++ [dataset_letters_request datasetId mode n]) w2))).
  { unfold try_catch, bind at 1, fetch, bind at 1, modify. cbn [ret].
    unfold bind at 1, receive_letters, bind at 1. rewrite Hok, Hhdr. cbn [ret modify].
    set (w3 := with_requests _ w2).
    assert (Hfile : match disposition name with
                    | Some cd => if String.eqb cd "" then "letters.zip"
                                 else default "letters.zip" (match_filename cd)
                    | None => "letters.zip"
                    end = default "letters.zip" name).
    { destruct name as [file|]; [|reflexivity]. cbn [disposition fmap option_fmap option_map].
      destruct (Hname file eq_refl) as [Hne Hfree].
      rewrite match_filename_disposition by done. reflexivity. }
    rewrite Hfile.
    pose proof (showLetterStatus_returns generated_from_dataset "success"
                  (with_downloads (fun l => l ++ [default "letters.zip" name]) w3)) as Hr.
    destruct (showLetterStatus _ _ _) as [o w4]. cbn in Hr. by subst o. }
  rewrite Hbody.
  set (w3 := with_downloads _ _).
  split.
  - destruct (quiet_showLetterStatus generated_from_dataset "success" w3) as (_ & -> & _).
    subst w3. cbn. by rewrite Hd.
  - apply (letter_status_shown _ _ w3); [exact Hs | discriminate].
Qed.

Lemma generateLetters_dataset_download_witness :
  downloads (run (generateLetters (Resolved archive)) ready_letters_page) = ["dataset_4.zip"].
Proof.
  destruct (generateLetters_dataset_download archive (Some "dataset_4.zip")
              ready_letters_page "4" "zip" 1 ready_letters_page_ready) as [H _].
  - exists blank_element. reflexivity.
  - reflexivity.
  - reflexivity.
  - intros file [= <-]. split; [discriminate | reflexivity].
  - exact H.
Defined.

(** ** The extraction form *)

(** X17.  A SIC field that holds nothing but commas and white space is refused:
    the status box says so and nothing else happens, no request, no reset
    of the enrichment, no change to the globals. *)
Theorem extractCompanies_requires_sic_code net s sic cnt :
  document (page s) !! "sicCodes" = Some sic ->
  document (page s) !! "counties" = Some cnt ->
  all_chars comma_or_space (value_string sic) = true ->
  runW (extractCompanies net) s
  = with_page (run (showStatus "extractStatus" "Please enter at least one SIC code" "error")) s.
Proof.
  intros Hsic Hcnt Hblank. unfold extractCompanies. unfold_W. unfold_M.
  destruct s as [w al loc job codes counties view card heading]. cbn in *.
  rewrite Hsic. cbn. rewrite Hcnt. cbn. rewrite (sicCodes_of_blank _ Hblank).
  unfold with_page. cbn.
  destruct (document w !! "extractStatus"); reflexivity.
Qed.

Lemma extractCompanies_requires_sic_code_witness :
  runW (extractCompanies (Rejected "Failed to fetch")) (extraction_tab " , ," "Kent")
  = with_page (run (showStatus "extractStatus" "Please enter at least one SIC code" "error"))
      (extraction_tab " , ," "Kent").
Proof.
  apply (extractCompanies_requires_sic_code (Rejected "Failed to fetch")
           (extraction_tab " , ," "Kent") (typed " , ,") (typed "Kent"));
    vm_compute; reflexivity.
Defined.

(** X18.  With a code in the SIC field, [extractCompanies] issues exactly one
    request, whatever comes back.  It carries the codes, each trimmed and not
    empty, and the counties: [null] for a blank field, every trimmed entry
    otherwise.  The two lists are kept in the globals, and the enrichment of
    the dataset before is forgotten: no job id, the download button
    hidden. *)
Theorem extractCompanies_request net s sic cnt :
  on_page (page s) extraction_ids = true ->
  document (page s) !! "sicCodes" = Some sic ->
  document (page s) !! "counties" = Some cnt ->
  sicCodes_of (value_string sic) <> [] ->
  let codes := sicCodes_of (value_string sic) in
  let counties := counties_of (value_string cnt) in
  let s' := runW (extractCompanies net) s in
  requests (page s') = requests (page s) ++ [extract_request (env (page s)) codes counties] /\
  currentSicCodes s' = codes /\ currentCounties s' = counties /\
  enrichmentJobId (page s') = None /\
  download_shown (page s') = Some "none" /\
  Forall (fun code => code <> "" /\ Js.trim code = code /\ free_of "," code = true) codes.
Proof.
  intros Hpage Hsic Hcnt Hcodes codes counties s'. subst s'.
  unfold extraction_ids in Hpage. page Hpage.
  destruct (extractCompanies_reset (page s) _ _ _ Hel1 Hel2 Hel3)
    as (w1 & Hreset & Hr1 & He1 & Hj1 & Hd1 & _ & _ & _).
  assert (Hrun : runW (extractCompanies net) s
    = snd (try_catchW
        (let+ s := getW in
         let+ res := on_the_page
                       (fetch (extract_request (env (page s)) codes counties) net) in
         let+ data := on_the_page (json res) in
         (if ex_success data then retW tt
          else throwW (Js.or_else (ex_detail data) "Extraction failed")) ;+
         modifyW (with_currentJobId (ex_job_id data)) ;+
         on_the_page
           (modify (with_currentDatasetFile (ex_current_dataset data)) ;;
            showStatus "extractStatus" "✅ Extraction complete" "success" ;;
            displayDatasetInfo data))
        (fun err => on_the_page (showStatus "extractStatus" err "error"))
        (with_page (fun _ => w1) (with_currentCounties counties (with_currentSicCodes codes s))))).
  { unfold runW, extractCompanies.
    unfold bindW at 1, on_the_page at 1. rewrite (read_input _ _ _ Hsic).
    unfold bindW at 1, on_the_page at 1. cbn [page with_page]. rewrite (read_input _ _ _ Hcnt).
    fold codes counties. destruct codes as [|code codes'] eqn:E; [done|].
    unfold bindW at 1, modifyW at 1. unfold bindW at 1, modifyW at 1.
    unfold bindW at 1, on_the_page at 1. cbn [page with_page with_currentSicCodes
      with_currentCounties]. rewrite Hreset.
    destruct s; reflexivity. }
  rewrite Hrun.
  match goal with |- context [try_catchW ?m ?h ?s1] =>
    pose proof (extractCompanies_attempt net codes counties s1) as Hatt end.
  cbn zeta in Hatt. destruct Hatt as ((He & _ & _ & _ & _ & _ & Hr & _ & Hj & _ & _ & Hdoc) & _ & Hc & Hco).
  split; [rewrite Hr; cbn; by rewrite Hr1, He1|].
  split; [rewrite Hc; reflexivity|]. split; [rewrite Hco; reflexivity|].
  split; [rewrite Hj; exact Hj1|].
  split; [|apply sicCodes_of_codes].
  unfold download_shown in *. rewrite Hdoc; [exact Hd1|].
  unfold extraction_outputs. intros H. apply list_elem_of_In in H. simpl in H.
  repeat (destruct H as [H|H]; [discriminate|]). done.
Qed.

Lemma extractCompanies_request_witness :
  requests (page (runW (extractCompanies (Rejected "Failed to fetch"))
                    (extraction_tab "62012, 62020 ,," " Kent ,Surrey")))
  = [extract_request test_env ["62012"; "62020"] (Some ["Kent"; "Surrey"])].
Proof.
  destruct (extractCompanies_request (Rejected "Failed to fetch")
              (extraction_tab "62012, 62020 ,," " Kent ,Surrey")
              (typed "62012, 62020 ,,") (typed " Kent ,Surrey")) as (Hr & _).
  - vm_compute. reflexivity.
  - vm_compute. reflexivity.
  - vm_compute. reflexivity.
  - vm_compute. discriminate.
  - exact Hr.
Defined.

(** X19.  The region filter and the extraction fit together.  When the selection
    holds a region of the table, the counties the filter writes into the
    field are read back one by one: the request carries the deduplicated
    union of the counties of the selected regions. *)
Theorem region_filter_feeds_extraction net s sel cnt sic :
  on_page (page s) extraction_ids = true ->
  document (page s) !! "regionFilter" = Some sel ->
  document (page s) !! "counties" = Some cnt ->
  document (page s) !! "sicCodes" = Some sic ->
  sicCodes_of (value_string sic) <> [] ->
  allCounties_of (selectedRegions_of sel) <> [] ->
  requests (page (runW (extractCompanies net) (with_page (run onRegionChange) s)))
  = requests (page s) ++
    [extract_request (env (page s)) (sicCodes_of (value_string sic))
       (Some (Js.Set_values (allCounties_of (selectedRegions_of sel))))].
Proof.
  intros Hpage Hsel Hcnt Hsic Hcodes Hknown.
  pose proof (region_filter_run false (page s) sel cnt Hsel Hcnt) as Hrun.
  cbn [on_change filter_input] in Hrun.
  assert (Hregions : selectedRegions_of sel <> []).
  { intros E. rewrite E in Hknown. done. }
  destruct (selectedRegions_of sel) as [|r rs] eqn:Esel; [done|].
  set (uniq := Js.Set_values (allCounties_of (r :: rs))) in *.
  set (s1 := with_page (run onRegionChange) s).
  assert (Hpage1 : page s1 = with_document
            (insert "counties" (set_value (VStr (Js.join ", " uniq)) cnt)) (page s)).
  { subst s1. cbn [page with_page]. exact Hrun. }
  rewrite (extractCompanies_requests net s1 sic (set_value (VStr (Js.join ", " uniq)) cnt)).
  - rewrite Hpage1. cbn [requests env with_document value_string set_value value].
    rewrite counties_of_join; [reflexivity | apply allCounties_clean |].
    by apply Set_values_nonempty.
  - rewrite Hpage1. eapply on_page_same; [|exact Hpage]. intros id H. cbn.
    by apply is_Some_insert.
  - rewrite Hpage1. cbn. rewrite lookup_insert_ne by done. exact Hsic.
  - rewrite Hpage1. cbn. apply lookup_insert_eq.
  - exact Hcodes.
Qed.

Lemma region_filter_feeds_extraction_witness :
  requests (page (runW (extractCompanies (Rejected "Failed to fetch"))
                    (with_page (run onRegionChange) (extraction_tab "62012" ""))))
  = [extract_request test_env ["62012"]
       (Some ["County Durham"; "Northumberland"; "Tyne and Wear"; "Greater London"])].
Proof.
  rewrite (region_filter_feeds_extraction (Rejected "Failed to fetch")
             (extraction_tab "62012" "")
             (set_options [ {| opt_value := "North East"; opt_selected := true |};
                            {| opt_value := "East"; opt_selected := false |};
                            {| opt_value := "London"; opt_selected := true |} ]
                blank_element)
             (typed "") (typed "62012")).
  - vm_compute. reflexivity.
  - vm_compute. reflexivity.
  - vm_compute. reflexivity.
  - vm_compute. reflexivity.
  - vm_compute. reflexivity.
  - vm_compute. discriminate.
  - vm_compute. discriminate.
Defined.

(** X20.  A failed extraction shows its message in the status box.  The lists
    of the new request are in the globals by then, while the dataset file
    and the job id are still those of the extraction before. *)
Theorem extractCompanies_failure net msg s sic cnt :
  on_page (page s) extraction_ids = true ->
  document (page s) !! "sicCodes" = Some sic ->
  document (page s) !! "counties" = Some cnt ->
  sicCodes_of (value_string sic) <> [] ->
  is_Some (document (page s) !! "extractStatus") ->
  extract_failed net = Some msg -> msg <> "" ->
  let s' := runW (extractCompanies net) s in
  status_box (page s') "extractStatus" = Some ("status-box error", [Src msg], "block") /\
  currentSicCodes s' = sicCodes_of (value_string sic) /\
  currentDatasetFile (page s') = currentDatasetFile (page s) /\
  currentJobId s' = currentJobId s.
Proof.
  intros Hpage Hsic Hcnt Hcodes Hst Hf Hmsg s'. subst s'.
  destruct (extractCompanies_starts net s sic cnt Hpage Hsic Hcnt Hcodes)
    as (w1 & _ & _ & Hf1 & Hs1 & _ & Hrun).
  destruct (Hs1 Hst) as [st1 Hst1].
  unfold runW. rewrite Hrun. clear Hrun.
  assert (Hne : String.eqb msg "" = false) by (by apply String.eqb_neq).
  destruct s as [w al loc job cs co view card heading]. cbn [page] in *.
  unfold status_box. unfold_W. unfold_M. cbn.
  destruct net as [e|res]; cbn in Hf |- *.
  - injection Hf as ->. rewrite Hst1. cbn. rewrite Hne. look. done.
  - destruct (body res) as [data|]; cbn.
    + destruct (ex_success data); [discriminate|]. injection Hf as Hf. cbn.
      rewrite Hst1. cbn. rewrite Hf, Hne. look. done.
    + injection Hf as <-. rewrite Hst1. cbn. look. done.
Qed.

Lemma extractCompanies_failure_witness :
  status_box (page (runW (extractCompanies (Rejected "Failed to fetch"))
                      (extraction_tab "62012" ""))) "extractStatus"
  = Some ("status-box error", [Src "Failed to fetch"], "block").
Proof.
  destruct (extractCompanies_failure (Rejected "Failed to fetch") "Failed to fetch"
              (extraction_tab "62012" "") (typed "62012") (typed "")) as (Hs & _).
  - vm_compute. reflexivity.
  - vm_compute. reflexivity.
  - vm_compute. reflexivity.
  - vm_compute. discriminate.
  - vm_compute. eauto.
  - reflexivity.
  - discriminate.
  - exact Hs.
Defined.

(** X21.  An extraction the server accepts: the job id and the dataset file of
    the answer become the current ones, the status box reports the success
    and the dataset card shows the number of companies of the last stage
    completed. *)
Theorem extractCompanies_success res data stages results stage total s sic cnt :
  on_page (page s) (extraction_ids ++ extraction_outputs) = true ->
  document (page s) !! "sicCodes" = Some sic ->
  document (page s) !! "counties" = Some cnt ->
  sicCodes_of (value_string sic) <> [] ->
  body res = Some data -> ex_success data = true ->
  ex_stages_completed data = Some stages -> ex_stage_results data = Some results ->
  results !! last_stage_key stages = Some stage -> sg_total_companies stage = Some total ->
  let s' := runW (extractCompanies (Resolved res)) s in
  currentJobId s' = ex_job_id data /\
  currentDatasetFile (page s') = ex_current_dataset data /\
  status_box (page s') "extractStatus"
    = Some ("status-box success", [Src "✅ Extraction complete"], "block") /\
  (display <$> document (page s') !! "datasetCard") = Some "block" /\
  (innerHTML <$> document (page s') !! "datasetInfo")
    = Some (dataset_info (env (page s)) total (ex_current_dataset data)).
Proof.
  intros Hpage Hsic Hcnt Hcodes Hbody Hok Hstages Hresults Hstage Htotal s'. subst s'.
  assert (Hpage0 : on_page (page s) extraction_ids = true).
  { unfold on_page in *. rewrite forallb_app in Hpage. by apply andb_prop in Hpage as [? _]. }
  assert (Hout : on_page (page s) extraction_outputs = true).
  { unfold on_page in *. rewrite forallb_app in Hpage. by apply andb_prop in Hpage as [_ ?]. }
  unfold extraction_outputs in Hout. page Hout.
  destruct (extractCompanies_starts (Resolved res) s sic cnt Hpage0 Hsic Hcnt Hcodes)
    as (w1 & _ & He1 & _ & Hs1 & Hd1 & Hrun).
  destruct (Hs1 (ex_intro _ _ Hel)) as [st1 Hst1].
  assert (Hc1 : document w1 !! "datasetCard" = Some el0).
  { rewrite Hd1; [done|]. intros H. apply list_elem_of_In in H. simpl in H.
    repeat (destruct H as [H|H]; [discriminate|]). done. }
  assert (Hi1 : document w1 !! "datasetInfo" = Some el1).
  { rewrite Hd1; [done|]. intros H. apply list_elem_of_In in H. simpl in H.
    repeat (destruct H as [H|H]; [discriminate|]). done. }
  unfold runW. rewrite Hrun. clear Hrun.
  destruct s as [w al loc job cs co view card heading]. cbn [page] in *.
  unfold status_box, displayDatasetInfo. unfold_W. unfold_M. cbn.
  rewrite Hbody. cbn. rewrite Hok. cbn. rewrite Hst1. cbn. look.
  rewrite Hstages. cbn. rewrite Hresults. cbn. rewrite Hstage. cbn. rewrite Htotal. cbn.
  look. rewrite He1. done.
Qed.

Lemma extractCompanies_success_witness :
  currentJobId (runW (extractCompanies (answer extracted)) (extraction_tab "62012" ""))
  = Some "job-1" /\
  (innerHTML <$> document (page (runW (extractCompanies (answer extracted))
                                   (extraction_tab "62012" ""))) !! "datasetInfo")
  = Some (dataset_info test_env 12 (Some "data/extracted_1.parquet")).
Proof.
  destruct (extractCompanies_success (ok_response extracted) extracted
              ["extraction"; "filtering"]
              {[ "extraction" := {| sg_total_companies := Some 40 |};
                 "filtering" := {| sg_total_companies := Some 12 |} ]}
              {| sg_total_companies := Some 12 |} 12
              (extraction_tab "62012" "") (typed "62012") (typed ""))
    as (Hj & _ & _ & _ & Hi).
  - vm_compute. reflexivity.
  - vm_compute. reflexivity.
  - vm_compute. reflexivity.
  - vm_compute. discriminate.
  - reflexivity.
  - reflexivity.
  - reflexivity.
  - reflexivity.
  - vm_compute. reflexivity.
  - reflexivity.
  - split; [exact Hj | exact Hi].
Defined.

(** ** Enrichment *)

(** X22.  With no dataset to enrich, [enrichDataset] alerts and does nothing
    else: the page is left as it is and nothing is requested. *)
Theorem enrichDataset_without_dataset net poll s :
  Js.truthy (currentDatasetFile (page s)) = false ->
  runW (enrichDataset net poll) s
  = with_alerts (fun l => l ++ ["No dataset available. Extract companies first."]) s.
Proof.
  intros H. unfold enrichDataset. unfold_W. cbn. rewrite H. reflexivity.
Qed.

Lemma enrichDataset_without_dataset_witness :
  runW (enrichDataset (answer enrich_started) (answer (running 25 100)))
    (fresh_window (page_with enrich_ids))
  = with_alerts (fun l => l ++ ["No dataset available. Extract companies first."])
      (fresh_window (page_with enrich_ids)).
Proof.
  apply (enrichDataset_without_dataset (answer enrich_started) (answer (running 25 100))
           (fresh_window (page_with enrich_ids))).
  reflexivity.
Defined.

(** X23.  An enrichment the server accepts starts the polling at once: after
    the request that starts the job comes the first status request, for the
    job id of the answer; that id is recorded, and while the job runs the
    progress bar shows the percentage and the next poll is 2000 ms ahead. *)
Theorem enrichDataset_starts_polling res data jobId pres pdata s file :
  on_page (page s) enrich_ids = true ->
  currentDatasetFile (page s) = Some file -> file <> "" ->
  body res = Some data -> en_success data = true -> en_job_id data = Some jobId ->
  body pres = Some pdata ->
  status pdata <> Some "completed" -> status pdata <> Some "failed" ->
  isSafeInteger (processed pdata) -> isSafeInteger (total pdata) ->
  let s' := runW (enrichDataset (Resolved res) (Resolved pres)) s in
  requests (page s')
  = requests (page s) ++ [enrich_request (env (page s)) file;
                          status_request (page s) jobId] /\
  enrichmentJobId (page s') = Some jobId /\
  (exists k, percent (Js.num_or (processed pdata) 0) (Js.num_or (total pdata) 1) = Some k /\
             progress_of (page s') = Some (VNum k)) /\
  timers (page s') = timers (page s) ++
    [{| timer_id := next_timer (page s); due := now (page s) + 2000;
        action := PollEnrichment jobId |}].
Proof.
  intros Hpage Hfile Hne Hbody Hok Hjob Hpbody Hs1 Hs2 Hp Ht s'. subst s'.
  pose proof Hpage as Hpg. unfold enrich_ids, enrichment_ids in Hpg. page Hpg.
  rewrite (enrichDataset_prepares _ _ s file _ _ _ Hfile Hne Hel Hel0 Hel1). cbn zeta.
  set (w2 := with_document _ (page s)).
  destruct (percent_finite (Js.num_or (processed pdata) 0) (Js.num_or (total pdata) 1))
    as [k Hk].
  { apply num_or_safe; [done | simpl; lia]. }
  { apply num_or_safe; [done | simpl; lia]. }
  { apply num_or_nonzero; lia. }
  set (w3 := with_enrichmentJobId (Some jobId)
               (with_requests (fun l => l ++ [enrich_request (env (page s)) file]) w2)).
  assert (Hrun : run (try_catch
         (let* w := get in
          let* res0 := fetch (enrich_request (env w)
                               (Js.String_of (currentDatasetFile w))) (Resolved res) in
          let* data0 := json res0 in
          (if en_success data0 then ret tt
           else throw (Js.or_else (en_detail data0) "Enrichment failed")) ;;
          modify (with_enrichmentJobId (en_job_id data0)) ;;
          pollEnrichmentStatus (Js.String_of (en_job_id data0)) (Resolved pres))
         (fun err => showStatus "enrichmentStatus" ("❌ " +:+ err) "error")) w2
       = run (pollEnrichmentStatus jobId (Resolved pres)) w3).
  { unfold run, try_catch. unfold bind at 1. cbn [get]. unfold bind at 1.
    rewrite fetch_resolved. unfold bind at 1, json. rewrite Hbody. cbn [ret].
    unfold bind at 1. rewrite Hok. cbn [ret]. unfold bind at 1, modify.
    rewrite Hjob. cbn [Js.String_of].
    assert (Hfile2 : currentDatasetFile w2 = Some file) by exact Hfile.
    rewrite Hfile2. cbn [Js.String_of].
    change (with_enrichmentJobId (Some jobId)
              (with_requests (fun l => l ++ [enrich_request (env w2) file]) w2)) with w3.
    (* the poll has its own handler: nothing reaches the outer one *)
    unfold pollEnrichmentStatus, try_catch.
    match goal with |- context [bind get ?k w3] => destruct (bind get k w3) as [[[]|e] w4] end;
      [reflexivity|].
    pose proof (showStatus_returns "enrichmentStatus" ("❌ Error checking status: " +:+ e)
                  "error" w4) as Hret.
    destruct (showStatus "enrichmentStatus" _ "error" w4) as [o w5]. cbn in Hret. subst o.
    reflexivity. }
  cbn [page with_page]. rewrite Hrun.
  assert (Hp3 : on_page (page s) enrichment_ids = true).
  { unfold enrich_ids in Hpage. cbn [on_page forallb] in Hpage.
    by apply andb_prop in Hpage as [_ ?]. }
  assert (Hpage3 : on_page w3 enrichment_ids = true).
  { eapply on_page_same; [|exact Hp3]. intros id H. subst w3 w2. cbn.
    by do 3 apply is_Some_insert. }
  destruct (poll_running_facts jobId pres pdata w3 k Hpage3 Hpbody Hs1 Hs2 Hk)
    as (_ & Hprog & _ & Htm & Hreq & _ & _).
  split.
  { rewrite Hreq. subst w3 w2. cbn. rewrite <- app_assoc. reflexivity. }
  split.
  { (* the running branch leaves the job id alone *)
    pose proof Hpage3 as Hx. unfold enrichment_ids in Hx. page Hx.
    erewrite poll_running_eq by eassumption. reflexivity. }
  split; [exists k; split; [exact Hk | exact Hprog]|].
  rewrite Htm. reflexivity.
Qed.

Lemma enrichDataset_starts_polling_witness :
  requests (page (runW (enrichDataset (answer enrich_started) (answer (running 25 100)))
                    extracted_tab))
  = [enrich_request test_env "data/extracted_1.parquet";
     status_request (page extracted_tab) "job-2"] /\
  progress_of (page (runW (enrichDataset (answer enrich_started) (answer (running 25 100)))
                       extracted_tab)) = Some (VNum 25).
Proof.
  destruct (enrichDataset_starts_polling (ok_response enrich_started) enrich_started "job-2"
              (ok_response (running 25 100)) (running 25 100) extracted_tab
              "data/extracted_1.parquet") as (Hr & _ & (k & Hk & Hp) & _).
  - vm_compute. reflexivity.
  - reflexivity.
  - discriminate.
  - reflexivity.
  - reflexivity.
  - reflexivity.
  - reflexivity.
  - discriminate.
  - discriminate.
  - simpl. lia.
  - simpl. lia.
  - split; [exact Hr|]. transitivity (Some (VNum k)); [exact Hp|].
    vm_compute in Hk. congruence.
Defined.

(** X24.  An enrichment the server does not start: the status box shows the
    reason, the bar stays at 0, no status request follows and nothing is
    scheduled; the job id is the one the page had. *)
Theorem enrichDataset_failure net poll msg s file :
  on_page (page s) enrich_ids = true ->
  currentDatasetFile (page s) = Some file -> file <> "" ->
  enrich_failed net = Some msg ->
  let s' := runW (enrichDataset net poll) s in
  status_box (page s') "enrichmentStatus"
    = Some ("status-box error", [Src ("❌ " +:+ msg)], "block") /\
  requests (page s') = requests (page s) ++ [enrich_request (env (page s)) file] /\
  progress_of (page s') = Some (VNum 0) /\
  timers (page s') = timers (page s) /\
  enrichmentJobId (page s') = enrichmentJobId (page s).
Proof.
  intros Hpage Hfile Hne Hf s'. subst s'.
  pose proof Hpage as Hpg. unfold enrich_ids, enrichment_ids in Hpg. page Hpg.
  rewrite (enrichDataset_prepares _ _ s file _ _ _ Hfile Hne Hel Hel0 Hel1). cbn zeta.
  cbn [page with_page].
  unfold status_box, progress_of. unfold_M. cbn. rewrite Hfile. cbn.
  destruct net as [e|res]; cbn in Hf |- *.
  - injection Hf as ->. look. rewrite eqb_append_cons. look. done.
  - destruct (body res) as [data|]; cbn.
    + destruct (en_success data); [discriminate|]. injection Hf as <-. look.
      rewrite eqb_append_cons. look. done.
    + injection Hf as <-. look. rewrite eqb_append_cons. look. done.
Qed.

Lemma enrichDataset_failure_witness :
  status_box (page (runW (enrichDataset (Rejected "Failed to fetch") (answer (running 25 100)))
                      extracted_tab)) "enrichmentStatus"
  = Some ("status-box error", [Src ("❌ " +:+ "Failed to fetch")], "block").
Proof.
  destruct (enrichDataset_failure (Rejected "Failed to fetch") (answer (running 25 100))
              "Failed to fetch" extracted_tab "data/extracted_1.parquet") as (Hs & _).
  - vm_compute. reflexivity.
  - reflexivity.
  - discriminate.
  - reflexivity.
  - exact Hs.
Defined.

(** X25.  After a poll that found the job completed, [downloadEnriched]
    navigates to the download of that job. *)
Theorem downloadEnriched_after_completion jobId res data r stats n s :
  on_page (page s) enrichment_ids = true ->
  body res = Some data -> status data = Some "completed" ->
  result data = Some r -> enrichment_stats r = Some stats -> total_processed stats = Some n ->
  jobId <> "" ->
  let s1 := with_page (run (pollEnrichmentStatus jobId (Resolved res))) s in
  runW downloadEnriched s1
  = with_location_href
      (fun l => l ++ [API_BASE (env (page s)) +:+ "/api/download/" +:+ jobId +:+ "?format=csv"])
      s1.
Proof.
  intros Hpage Hbody Hs Hr Hstats Hn Hne s1. subst s1.
  pose proof Hpage as Hpg. unfold enrichment_ids in Hpg. page Hpg.
  unfold downloadEnriched. unfold_W. cbn [page with_page].
  erewrite poll_completed_eq by eassumption.
  cbn. rewrite (proj2 (String.eqb_neq jobId "")) by done. reflexivity.
Qed.

Lemma downloadEnriched_after_completion_witness :
  location_href
    (runW downloadEnriched
       (with_page (run (pollEnrichmentStatus "job-1" (answer (completed enriched))))
          (fresh_window enrichment_page)))
  = ["http://localhost:8000/api/download/job-1?format=csv"].
Proof.
  unfold answer.
  rewrite (downloadEnriched_after_completion "job-1" (ok_response (completed enriched))
             (completed enriched) enriched
             {| total_processed := Some 100; coverage := None |} 100
             (fresh_window enrichment_page)).
  - reflexivity.
  - vm_compute. reflexivity.
  - reflexivity.
  - reflexivity.
  - reflexivity.
  - reflexivity.
  - reflexivity.
  - discriminate.
Defined.

(** ** The detail view of a dataset *)

(** X26.  When the dataset cannot be loaded, [viewDataset] makes its first
    request only and shows the error in the status box of the detail view.
    Nothing else changes: the list stays on display, no dataset becomes the
    one in view, the companies of the view before stay in their table. *)
Theorem viewDataset_failure datasetId net companies msg s st :
  dataset_failed net = Some msg -> msg <> "" ->
  document (page s) !! "datasetDetailStatus" = Some st ->
  runW (viewDataset datasetId net companies) s
  = with_page
      (fun w => with_document
                  (insert "datasetDetailStatus"
                     (set_display "block" (set_innerHTML [Src msg]
                        (set_className "status-box error" st))))
                  (with_requests (fun l => l ++ [dataset_request (env w) datasetId]) w)) s.
Proof.
  intros Hf Hmsg Hst.
  assert (Hne : String.eqb msg "" = false) by (by apply String.eqb_neq).
  destruct s as [w al loc job cs co view card heading]. cbn [page] in *.
  unfold viewDataset. unfold_W. unfold_M. cbn. rewrite Hst. cbn.
  rewrite ?eqb_append_cons. cbn.
  destruct net as [e|res]; cbn in Hf |- *.
  - injection Hf as ->. look. rewrite Hne. cbn.
    unfold with_page, with_document. cbn. rewrite insert_insert_eq. reflexivity.
  - destruct (body res) as [data|]; cbn.
    + destruct (dr_success data); [discriminate|]. injection Hf as Hf. cbn.
      look. rewrite Hf, Hne. cbn.
      unfold with_page, with_document. cbn. rewrite insert_insert_eq. reflexivity.
    + injection Hf as <-. look.
      unfold with_page, with_document. cbn. rewrite insert_insert_eq. reflexivity.
Qed.

Lemma viewDataset_failure_witness :
  runW (viewDataset 4 (Rejected "Failed to fetch") (Rejected "Failed to fetch")) datasets_tab
  = with_page
      (fun w => with_document
                  (insert "datasetDetailStatus"
                     (set_display "block" (set_innerHTML [Src "Failed to fetch"]
                        (set_className "status-box error" blank_element))))
                  (with_requests (fun l => l ++ [dataset_request (env w) 4]) w))
      datasets_tab.
Proof.
  apply (viewDataset_failure 4 (Rejected "Failed to fetch") (Rejected "Failed to fetch")
           "Failed to fetch" datasets_tab blank_element).
  - reflexivity.
  - discriminate.
  - vm_compute. reflexivity.
Defined.



(** X28.  A dataset that loads without its companies: the detail view opens all
    the same, the table gives way to the notice that no companies were
    found, and the status box is cleared, not set to an error. *)
Theorem viewDataset_without_companies datasetId res data dataset total cres cdata s
    list_card heading :
  on_page (page s) detail_ids = true ->
  datasets_card s = Some list_card ->
  datasetDetailName s = Some heading ->
  body res = Some data -> dr_success data = true ->
  dr_dataset data = Some dataset -> dd_total_companies dataset = Some total ->
  body cres = Some cdata -> companies_unavailable cdata = true ->
  let s' := runW (viewDataset datasetId (Resolved res) (Resolved cres)) s in
  requests (page s')
    = requests (page s) ++ [dataset_request (env (page s)) datasetId;
                            companies_request (env (page s)) datasetId] /\
  detail_header s'
    = (Some "none", Some datasetId, Some "block", Some (dd_name dataset),
       Some (dataset_detail_info (env (page s)) total dataset)) /\
  container_html (page s') "datasetCompanies" = Some no_companies_loaded /\
  nodes (page s') = nodes (page s) /\
  status_box (page s') "datasetDetailStatus" = Some ("status-box", [], "none").
Proof.
  intros Hp Hlist Hhead Hres Hok Hds Htot Hcres Hun.
  destruct s as [w al loc job codes co view_id lc hd].
  cbn [page datasets_card datasetDetailName] in *. subst lc hd.
  open_detail Hp Hres Hok Hds Htot Hcres.
  unfold companies_unavailable in Hun.
  destruct (cr_companies cdata) as [cs|]; [destruct (cr_success cdata); [discriminate|]|];
    cbn; rewrite !lookup_insert_ne by discriminate; rewrite Hcont; cbn;
    rewrite !lookup_insert_ne by discriminate; rewrite lookup_insert_eq; cbn;
    unfold detail_header, container_html, status_box; cbn;
    rewrite lookup_insert_eq;
    rewrite !(lookup_insert_ne _ "datasetDetailStatus") by discriminate;
    rewrite !(lookup_insert_ne _ "datasetCompanies") by discriminate;
    rewrite !lookup_insert_eq;
    rewrite !(lookup_insert_ne _ "datasetDetailInfo") by discriminate;
    rewrite lookup_insert_eq; cbn;
    repeat split; by rewrite <- app_assoc.
Qed.

Lemma viewDataset_without_companies_witness :
  container_html
    (page (runW (viewDataset 4 (answer plumbers)
                   (answer {| cr_success := false; cr_companies := None |}))
             datasets_tab)) "datasetCompanies"
  = Some no_companies_loaded.
Proof.
  destruct (viewDataset_without_companies 4 (ok_response plumbers) plumbers plumbers_dataset 51
              (ok_response {| cr_success := false; cr_companies := None |})
              {| cr_success := false; cr_companies := None |}
              datasets_tab "block" "")
    as (_ & _ & Hc & _).
  - vm_compute. reflexivity.
  - reflexivity.
  - reflexivity.
  - reflexivity.
  - reflexivity.
  - reflexivity.
  - reflexivity.
  - reflexivity.
  - reflexivity.
  - exact Hc.
Defined.

(** X29.  A deletion the server refuses, or that does not reach it: one request,
    the DELETE; the error is shown in the status box of the detail view; the
    dataset stays in view and the list is not asked for again. *)
Theorem deleteCurrentDataset_failure net list_net msg s datasetId st :
  currentViewDatasetId s = Some datasetId -> datasetId <> 0 ->
  delete_failed net = Some msg -> msg <> "" ->
  document (page s) !! "datasetDetailStatus" = Some st ->
  runW (deleteCurrentDataset true net list_net) s
  = with_page
      (fun w => with_document
                  (insert "datasetDetailStatus"
                     (set_display "block" (set_innerHTML [Src msg]
                        (set_className "status-box error" st))))
                  (with_requests (fun l => l ++ [delete_request (env w) datasetId]) w)) s.
Proof.
  intros Hid H0 Hf Hmsg Hst.
  assert (Hne : String.eqb msg "" = false) by (by apply String.eqb_neq).
  apply Z.eqb_neq in H0.
  destruct s as [w al loc job cs co view_id lc hd]. cbn [page currentViewDatasetId] in *.
  subst view_id.
  unfold deleteCurrentDataset. unfold_W. cbn -[loadDatasets]. rewrite H0.
  unfold_M. cbn -[loadDatasets]. rewrite Hst. cbn -[loadDatasets].
  rewrite ?eqb_append_cons. cbn -[loadDatasets].
  destruct net as [e|res]; cbn -[loadDatasets] in Hf |- *.
  - injection Hf as ->. rewrite lookup_insert_eq. cbn. rewrite Hne. cbn.
    unfold with_page, with_document. cbn. rewrite insert_insert_eq. reflexivity.
  - destruct (body res) as [data|]; cbn -[loadDatasets].
    + destruct (del_success data); [discriminate|]. injection Hf as Hf. cbn.
      rewrite lookup_insert_eq. cbn. rewrite Hf, Hne. cbn.
      unfold with_page, with_document. cbn. rewrite insert_insert_eq. reflexivity.
    + injection Hf as <-. rewrite lookup_insert_eq. cbn.
      unfold with_page, with_document. cbn. rewrite insert_insert_eq. reflexivity.
Qed.

Lemma deleteCurrentDataset_failure_witness :
  runW (deleteCurrentDataset true (Rejected "Failed to fetch") (answer two_datasets))
    datasets_tab
  = with_page
      (fun w => with_document
                  (insert "datasetDetailStatus"
                     (set_display "block" (set_innerHTML [Src "Failed to fetch"]
                        (set_className "status-box error" blank_element))))
                  (with_requests (fun l => l ++ [delete_request (env w) 4]) w))
      datasets_tab.
Proof.
  apply (deleteCurrentDataset_failure (Rejected "Failed to fetch") (answer two_datasets)
           "Failed to fetch" datasets_tab 4 blank_element).
  - reflexivity.
  - discriminate.
  - reflexivity.
  - discriminate.
  - vm_compute. reflexivity.
Defined.


